(** * Fight Health Insurance: REST handlers over the Django models

    A shallow embedding of the request handlers of
    [fhi_users/auth/rest_auth_views.py] and
    [fighthealthinsurance/rest_views.py], together with the models of
    [fhi_users/models.py] they read and write.

    - A database table is a finite map from primary key to row.
    - A handler is a computation in a state-and-exception monad over the
      [World]: the tables, the payment provider's subscriptions and a
      history of the writes and outbound calls performed so far.
    - A Python exception that leaves a handler is a [raise]; writes done
      before it stay in the world (Django's autocommit).
    - Datetimes are integers (microseconds); a Python [float] is an IEEE
      754 double ([Float64]). *)

From stdpp Require Import gmap strings list sorting.
From Stdlib Require Import Ascii QArith SpecFloat.

#[local] Open Scope string_scope.
#[local] Open Scope Z_scope.
#[local] Open Scope list_scope.

(** ** Framework semantics: exceptions, the handler monad, querysets *)

Module Django.

Inductive exn : Type :=
| DoesNotExist (model : string)
| MultipleObjectsReturned (model : string)
| Http404
| NotAuthenticated
| AttributeError
| IndexError
| FieldError
| ValueError
| ZeroDivisionError
| StripeError
| OtherError (what : string).

#[global] Instance exn_eq_dec : EqDecision exn.
Proof. solve_decision. Defined.

(** A computation over a state [S]: an exception or a value, and the
    state it leaves behind. *)
Definition M (S A : Type) : Type := S → (exn + A) * S.

Definition ret {S A} (a : A) : M S A := λ s, (inr a, s).

Definition raise {S A} (e : exn) : M S A := λ s, (inl e, s).

Definition bind {S A B} (m : M S A) (k : A → M S B) : M S B :=
  λ s, match m s with
       | (inl e, s') => (inl e, s')
       | (inr a, s') => k a s'
       end.

(** [try: m except <classes>: h].  The handler [h] says which exceptions
    it catches; the others propagate. *)
Definition try_except {S A} (m : M S A) (h : exn → option (M S A)) : M S A :=
  λ s, match m s with
       | (inl e, s') =>
           match h e with
           | Some k => k s'
           | None => (inl e, s')
           end
       | (inr a, s') => (inr a, s')
       end.

Definition gets {S A} (f : S → A) : M S A := λ s, (inr (f s), s).

Definition modify {S} (f : S → S) : M S unit := λ s, (inr tt, f s).

(** A read-only query that may fail. *)
Definition query {S A} (f : S → exn + A) : M S A := λ s, (f s, s).

(** A bare [except:] and [except Exception:] catch everything. *)
Definition catch_all {S A} (k : M S A) : exn → option (M S A) :=
  λ _, Some k.

(** [except E:] and [except (E1, E2, ...):]. *)
Definition catch_only {S A} (e0 : exn) (k : M S A) : exn → option (M S A) :=
  λ e, if decide (e = e0) then Some k else None.

Definition catch_among {S A} (es : list exn) (k : M S A)
    : exn → option (M S A) :=
  λ e, if decide (e ∈ es) then Some k else None.

(** [QuerySet.filter]: the rows of a table that satisfy a predicate. *)
Definition objects_filter {K A} `{Countable K}
    (P : K → A → bool) (table : gmap K A) : gmap K A :=
  filter (λ kv, Is_true (P kv.1 kv.2)) table.

(** [QuerySet.get]: the one matching row, [DoesNotExist] when there is
    none, [MultipleObjectsReturned] when there are several. *)
Definition objects_get {K A} `{Countable K}
    (model : string) (P : K → A → bool) (table : gmap K A) : exn + (K * A) :=
  match map_to_list (objects_filter P table) with
  | [] => inl (DoesNotExist model)
  | [kv] => inr kv
  | _ :: _ :: _ => inl (MultipleObjectsReturned model)
  end.

(** [get_object_or_404(queryset, pk=pk)]: a missing row is an [Http404]. *)
Definition get_object_or_404 {K A} `{Countable K}
    (queryset : gmap K A) (pk : K) : exn + (K * A) :=
  match queryset !! pk with
  | Some row => inr (pk, row)
  | None => inl Http404
  end.

(** The primary key an [AutoField] gives to a new row. *)
Definition next_pk {A} (table : gmap Z A) : Z :=
  1 + map_fold (λ k _ acc, Z.max k acc) 0 table.

(** Python truthiness of a nullable string column. *)
Definition truthy (o : option string) : bool :=
  match o with
  | Some s => negb (String.eqb s "")
  | None => false
  end.

End Django.

Export Django.

Declare Scope handler_scope.
Delimit Scope handler_scope with handler.
Notation "'let*' x ':=' m 'in' k" :=
  (bind m (λ x, k))
  (at level 10, x pattern, m at level 100, k at level 200) : handler_scope.
Notation "m ';;' k" :=
  (bind m (λ _, k))
  (at level 100, k at level 200, right associativity) : handler_scope.
#[local] Open Scope handler_scope.

(** ** fhi_users/models.py *)

Module Models.

Inductive UserRole : Type := NONE | PATIENT | PROFESSIONAL | ADMIN.

Definition get_highest_role (is_patient is_professional is_admin : bool)
    : UserRole :=
  if is_admin then ADMIN
  else if is_professional then PROFESSIONAL
  else if is_patient then PATIENT
  else NONE.

(** The framework's user model, as far as the handlers use it. *)
Module User.
Record t : Type := mk {
  username : string;
  email : string;
  password : string;
  is_active : bool;
}.
Definition set_is_active (b : bool) (u : t) : t :=
  mk (username u) (email u) (password u) b.
Definition set_password (raw : string) (u : t) : t :=
  mk (username u) (email u) raw (is_active u).
End User.

Module UserDomain.
Record t : Type := mk {
  stripe_subscription_id : option string;
  name : option string;
  active : bool;
  display_name : string;
  visible_phone_number : string;
  cover_template_string : option string;
}.
End UserDomain.

Module PatientUser.
Record t : Type := mk {
  user : Z;
  active : bool;
  display_name : option string;
}.
End PatientUser.

Module ProfessionalUser.
Record t : Type := mk {
  user : Z;
  npi_number : option string;
  active : bool;
  display_name : option string;
}.
Definition set_active (b : bool) (p : t) : t :=
  mk (user p) (npi_number p) b (display_name p).
End ProfessionalUser.

Module ProfessionalDomainRelation.
Record t : Type := mk {
  professional : Z;
  domain : string;
  active : bool;
  admin : bool;
  read_only : bool;
  professional_type : option string;
  pending : bool;
  suspended : bool;
  rejected : bool;
}.
Definition set_active (b : bool) (r : t) : t :=
  mk (professional r) (domain r) b (admin r) (read_only r)
     (professional_type r) (pending r) (suspended r) (rejected r).
Definition set_pending (b : bool) (r : t) : t :=
  mk (professional r) (domain r) (active r) (admin r) (read_only r)
     (professional_type r) b (suspended r) (rejected r).
Definition set_rejected (b : bool) (r : t) : t :=
  mk (professional r) (domain r) (active r) (admin r) (read_only r)
     (professional_type r) (pending r) (suspended r) b.
(** The constructor with the column defaults of the class:
    [read_only=False], [professional_type=None], [suspended=False],
    [rejected=False]. *)
Definition new (professional : Z) (domain : string)
    (active admin pending : bool) : t :=
  mk professional domain active admin false None pending false false.
End ProfessionalDomainRelation.

(** The [pre_save] receiver of [ProfessionalDomainRelation]. *)
Definition professional_domain_relation_presave
    (instance : ProfessionalDomainRelation.t) : ProfessionalDomainRelation.t :=
  ProfessionalDomainRelation.set_active
    (negb (ProfessionalDomainRelation.pending instance)
     && negb (ProfessionalDomainRelation.suspended instance)
     && negb (ProfessionalDomainRelation.rejected instance))
    instance.

Module PatientDomainRelation.
Record t : Type := mk {
  patient : Z;
  domain : string;
}.
End PatientDomainRelation.

Module ExtraUserProperties.
Record t : Type := mk {
  user : Z;
  email_verified : bool;
}.
Definition set_email_verified (b : bool) (x : t) : t := mk (user x) b.
End ExtraUserProperties.

(** [datetime.timedelta(hours=24)], in microseconds. *)
Definition hours_24 : Z := 24 * 3600 * 1000000.

(** The expiry both token classes compute in [save] when none is set. *)
Definition default_expires_at (expires_at created_at : option Z) (now : Z) : Z :=
  match expires_at with
  | Some e => e
  | None =>
      match created_at with
      | Some c => c + hours_24
      | None => now + hours_24
      end
  end.

Module VerificationToken.
Record t : Type := mk {
  user : Z;
  token : string;
  created_at : Z;
  expires_at : Z;
}.
End VerificationToken.

Module ResetToken.
Record t : Type := mk {
  user : Z;
  token : string;
  created_at : Z;
  expires_at : Z;
}.
End ResetToken.

End Models.

Export Models.

(** ** fighthealthinsurance models

    The class declarations of [Denial], [Appeal] and [AppealAttachment] are
    not part of the sources examined.  The records carry the columns the
    handlers of [rest_views.py] read or write. *)

Module FhiModels.

Module Denial.
(** Modelled from the spec: a denial event with its patient, the two
    professionals, the "professional must finish" mark and the
    consolidated question/answer text. *)
Record t : Type := mk {
  uuid : string;
  patient_user : option Z;
  primary_professional : option Z;
  creating_professional : option Z;
  professional_to_finish : bool;
  qa_context : option string;
  fax_phone : option string;
}.
End Denial.

Module Appeal.
(** Modelled from the spec: the work item derived from a denial, with its
    assembly state flags, fax number and response tracking. *)
Record t : Type := mk {
  uuid : string;
  for_denial : Z;
  patient_user : option Z;
  primary_professional : option Z;
  creating_professional : option Z;
  pending : bool;
  pending_patient : bool;
  pending_professional : bool;
  sent : bool;
  success : bool;
  patient_visible : bool;
  fax_number : option string;
  appeal_text : option string;
  response_text : option string;
  response_date : option Z;
  mod_date : Z;
  creation_date : Z;
}.
Definition set_pending (b : bool) (a : t) : t :=
  mk (uuid a) (for_denial a) (patient_user a) (primary_professional a)
     (creating_professional a) b (pending_patient a) (pending_professional a)
     (sent a) (success a) (patient_visible a) (fax_number a) (appeal_text a)
     (response_text a) (response_date a) (mod_date a) (creation_date a).
Definition set_pending_patient (b : bool) (a : t) : t :=
  mk (uuid a) (for_denial a) (patient_user a) (primary_professional a)
     (creating_professional a) (pending a) b (pending_professional a)
     (sent a) (success a) (patient_visible a) (fax_number a) (appeal_text a)
     (response_text a) (response_date a) (mod_date a) (creation_date a).
Definition set_pending_professional (b : bool) (a : t) : t :=
  mk (uuid a) (for_denial a) (patient_user a) (primary_professional a)
     (creating_professional a) (pending a) (pending_patient a) b
     (sent a) (success a) (patient_visible a) (fax_number a) (appeal_text a)
     (response_text a) (response_date a) (mod_date a) (creation_date a).
Definition set_fax_number (n : option string) (a : t) : t :=
  mk (uuid a) (for_denial a) (patient_user a) (primary_professional a)
     (creating_professional a) (pending a) (pending_patient a)
     (pending_professional a) (sent a) (success a) (patient_visible a) n
     (appeal_text a) (response_text a) (response_date a) (mod_date a)
     (creation_date a).
(** [auto_now]: every save stamps the modification date. *)
Definition set_mod_date (now : Z) (a : t) : t :=
  mk (uuid a) (for_denial a) (patient_user a) (primary_professional a)
     (creating_professional a) (pending a) (pending_patient a)
     (pending_professional a) (sent a) (success a) (patient_visible a)
     (fax_number a) (appeal_text a) (response_text a) (response_date a) now
     (creation_date a).
(** The row [Appeal.objects.create] builds from the five keyword arguments
    of [DenialViewSet.perform_create]; the other columns take their empty
    defaults. *)
Definition new (uuid : string) (for_denial : Z)
    (patient_user primary_professional creating_professional : option Z)
    (pending : bool) (now today : Z) : t :=
  mk uuid for_denial patient_user primary_professional creating_professional
     pending false false false false false None None None None now today.
End Appeal.

Module AppealAttachment.
(** Modelled from the spec: an encrypted file owned by an appeal, with its
    MIME type and file name. *)
Record t : Type := mk {
  appeal : Z;
  document_enc : string;
  filename : string;
  mime_type : string;
}.
End AppealAttachment.

End FhiModels.

Export FhiModels.

(** ** The payment provider's subscriptions (external) *)

Module Stripe.
Record SubscriptionItem : Type := mkItem {
  item_id : string;
  quantity : Z;
}.
(** [subscription["items"]["data"]]. *)
Record Subscription : Type := mkSubscription {
  items : list SubscriptionItem;
}.
(** [Subscription.modify(id, items=[{"id": i, "quantity": q}])]: the listed
    item gets the quantity, the others stay. *)
Definition set_quantity (i : string) (q : Z) (s : Subscription) : Subscription :=
  mkSubscription
    (map (λ it, if String.eqb (item_id it) i then mkItem (item_id it) q else it)
         (items s)).
End Stripe.

(** ** The world a handler runs in *)

(** Writes and outbound calls, in the order they were performed. *)
Inductive event : Type :=
| SaveUser (pk : Z) (row : User.t)
| SaveProfessionalUser (pk : Z) (row : ProfessionalUser.t)
| SaveProfessionalDomainRelation (pk : Z) (row : ProfessionalDomainRelation.t)
| SaveExtraUserProperties (pk : Z) (row : ExtraUserProperties.t)
| DeleteVerificationToken (pk : Z)
| DeleteResetToken (pk : Z)
| SaveAppeal (pk : Z) (row : Appeal.t)
| SubscriptionModify (subscription item : string) (quantity : Z)
| StageAppealAsFax (appeal : Z) (email : string)
| RemoteSendFax (appeal : Z).

Record World : Type := mkWorld {
  auth_user : gmap Z User.t;
  professionaluser : gmap Z ProfessionalUser.t;
  patientuser : gmap Z PatientUser.t;
  userdomain : gmap string UserDomain.t;
  professionaldomainrelation : gmap Z ProfessionalDomainRelation.t;
  patientdomainrelation : gmap Z PatientDomainRelation.t;
  extrauserproperties : gmap Z ExtraUserProperties.t;
  verificationtoken : gmap Z VerificationToken.t;
  resettoken : gmap Z ResetToken.t;
  denial : gmap Z Denial.t;
  appeal : gmap Z Appeal.t;
  appealattachment : gmap Z AppealAttachment.t;
  stripe_subscriptions : gmap string Stripe.Subscription;
  history : list event;
}.

Definition empty_world : World :=
  mkWorld ∅ ∅ ∅ ∅ ∅ ∅ ∅ ∅ ∅ ∅ ∅ ∅ ∅ [].

Definition upd_auth_user (f : gmap Z User.t → gmap Z User.t) (w : World) : World :=
  mkWorld (f (auth_user w)) (professionaluser w) (patientuser w) (userdomain w)
    (professionaldomainrelation w) (patientdomainrelation w)
    (extrauserproperties w) (verificationtoken w) (resettoken w) (denial w)
    (appeal w) (appealattachment w) (stripe_subscriptions w) (history w).

Definition upd_professionaluser
    (f : gmap Z ProfessionalUser.t → gmap Z ProfessionalUser.t) (w : World) : World :=
  mkWorld (auth_user w) (f (professionaluser w)) (patientuser w) (userdomain w)
    (professionaldomainrelation w) (patientdomainrelation w)
    (extrauserproperties w) (verificationtoken w) (resettoken w) (denial w)
    (appeal w) (appealattachment w) (stripe_subscriptions w) (history w).

Definition upd_professionaldomainrelation
    (f : gmap Z ProfessionalDomainRelation.t → gmap Z ProfessionalDomainRelation.t)
    (w : World) : World :=
  mkWorld (auth_user w) (professionaluser w) (patientuser w) (userdomain w)
    (f (professionaldomainrelation w)) (patientdomainrelation w)
    (extrauserproperties w) (verificationtoken w) (resettoken w) (denial w)
    (appeal w) (appealattachment w) (stripe_subscriptions w) (history w).

Definition upd_extrauserproperties
    (f : gmap Z ExtraUserProperties.t → gmap Z ExtraUserProperties.t)
    (w : World) : World :=
  mkWorld (auth_user w) (professionaluser w) (patientuser w) (userdomain w)
    (professionaldomainrelation w) (patientdomainrelation w)
    (f (extrauserproperties w)) (verificationtoken w) (resettoken w) (denial w)
    (appeal w) (appealattachment w) (stripe_subscriptions w) (history w).

Definition upd_verificationtoken
    (f : gmap Z VerificationToken.t → gmap Z VerificationToken.t)
    (w : World) : World :=
  mkWorld (auth_user w) (professionaluser w) (patientuser w) (userdomain w)
    (professionaldomainrelation w) (patientdomainrelation w)
    (extrauserproperties w) (f (verificationtoken w)) (resettoken w) (denial w)
    (appeal w) (appealattachment w) (stripe_subscriptions w) (history w).

Definition upd_resettoken
    (f : gmap Z ResetToken.t → gmap Z ResetToken.t) (w : World) : World :=
  mkWorld (auth_user w) (professionaluser w) (patientuser w) (userdomain w)
    (professionaldomainrelation w) (patientdomainrelation w)
    (extrauserproperties w) (verificationtoken w) (f (resettoken w)) (denial w)
    (appeal w) (appealattachment w) (stripe_subscriptions w) (history w).

Definition upd_denial
    (f : gmap Z Denial.t → gmap Z Denial.t) (w : World) : World :=
  mkWorld (auth_user w) (professionaluser w) (patientuser w) (userdomain w)
    (professionaldomainrelation w) (patientdomainrelation w)
    (extrauserproperties w) (verificationtoken w) (resettoken w) (f (denial w))
    (appeal w) (appealattachment w) (stripe_subscriptions w) (history w).

Definition upd_appeal
    (f : gmap Z Appeal.t → gmap Z Appeal.t) (w : World) : World :=
  mkWorld (auth_user w) (professionaluser w) (patientuser w) (userdomain w)
    (professionaldomainrelation w) (patientdomainrelation w)
    (extrauserproperties w) (verificationtoken w) (resettoken w) (denial w)
    (f (appeal w)) (appealattachment w) (stripe_subscriptions w) (history w).

Definition upd_stripe_subscriptions
    (f : gmap string Stripe.Subscription → gmap string Stripe.Subscription)
    (w : World) : World :=
  mkWorld (auth_user w) (professionaluser w) (patientuser w) (userdomain w)
    (professionaldomainrelation w) (patientdomainrelation w)
    (extrauserproperties w) (verificationtoken w) (resettoken w) (denial w)
    (appeal w) (appealattachment w) (f (stripe_subscriptions w)) (history w).

Definition record (e : event) (w : World) : World :=
  mkWorld (auth_user w) (professionaluser w) (patientuser w) (userdomain w)
    (professionaldomainrelation w) (patientdomainrelation w)
    (extrauserproperties w) (verificationtoken w) (resettoken w) (denial w)
    (appeal w) (appealattachment w) (stripe_subscriptions w) (history w ++ [e]).

(** A handler. *)
Abbreviation Handler := (M World).

(** ** The object-relational layer over the world *)

Module ORM.

(** [instance.save()] of a [User]. *)
Definition User_save (pk : Z) (row : User.t) : Handler unit :=
  modify (λ w, record (SaveUser pk row) (upd_auth_user <[pk:=row]> w)).

Definition ProfessionalUser_save (pk : Z) (row : ProfessionalUser.t)
    : Handler unit :=
  modify (λ w, record (SaveProfessionalUser pk row)
                 (upd_professionaluser <[pk:=row]> w)).

(** [instance.save()] of a [ProfessionalDomainRelation]: the [pre_save]
    receiver runs on the instance, then the row is written.  The instance
    the caller holds is the one the receiver changed. *)
Definition ProfessionalDomainRelation_save
    (pk : Z) (instance : ProfessionalDomainRelation.t)
    : Handler ProfessionalDomainRelation.t :=
  let instance := professional_domain_relation_presave instance in
  modify (λ w, record (SaveProfessionalDomainRelation pk instance)
                 (upd_professionaldomainrelation <[pk:=instance]> w));;
  ret instance.

(** [ProfessionalDomainRelation.objects.create(...)]: a new primary key and
    a [save]. *)
Definition ProfessionalDomainRelation_create
    (instance : ProfessionalDomainRelation.t)
    : Handler (Z * ProfessionalDomainRelation.t) :=
  let* pk := gets (λ w, next_pk (professionaldomainrelation w)) in
  let* instance := ProfessionalDomainRelation_save pk instance in
  ret (pk, instance).

Definition ExtraUserProperties_save (pk : Z) (row : ExtraUserProperties.t)
    : Handler unit :=
  modify (λ w, record (SaveExtraUserProperties pk row)
                 (upd_extrauserproperties <[pk:=row]> w)).

Definition ExtraUserProperties_create (row : ExtraUserProperties.t)
    : Handler (Z * ExtraUserProperties.t) :=
  let* pk := gets (λ w, next_pk (extrauserproperties w)) in
  ExtraUserProperties_save pk row;;
  ret (pk, row).

Definition VerificationToken_delete (pk : Z) : Handler unit :=
  modify (λ w, record (DeleteVerificationToken pk)
                 (upd_verificationtoken (delete pk) w)).

Definition ResetToken_delete (pk : Z) : Handler unit :=
  modify (λ w, record (DeleteResetToken pk) (upd_resettoken (delete pk) w)).

(** [instance.save()] of an [Appeal]. *)
Definition Appeal_save (pk : Z) (row : Appeal.t) : Handler unit :=
  modify (λ w, record (SaveAppeal pk row) (upd_appeal <[pk:=row]> w)).

Definition Appeal_create (row : Appeal.t) : Handler (Z * Appeal.t) :=
  let* pk := gets (λ w, next_pk (appeal w)) in
  Appeal_save pk row;;
  ret (pk, row).

(** [stripe.Subscription.retrieve(id)]: the subscription, with the
    identifier it was retrieved by as its [id]. *)
Definition Subscription_retrieve (id : string)
    : Handler (string * Stripe.Subscription) :=
  query (λ w, match stripe_subscriptions w !! id with
              | Some s => inr (id, s)
              | None => inl StripeError
              end).

(** [stripe.Subscription.modify(id, items=[{"id": item, "quantity": q}])]. *)
Definition Subscription_modify (id item : string) (q : Z) : Handler unit :=
  λ w, match stripe_subscriptions w !! id with
       | Some s =>
           (inr tt,
            record (SubscriptionModify id item q)
              (upd_stripe_subscriptions <[id:=Stripe.set_quantity item q s]> w))
       | None => (inl StripeError, w)
       end.

End ORM.

Export ORM.

(** ** fhi_users/auth/rest_auth_views.py *)

(** The helper [user_is_admin_in_domain] of [fhi_users.auth.auth_utils] is
    not part of the sources examined.  It is a query: it reads the world
    and answers, or raises. *)
Class AuthUtils : Type := {
  user_is_admin_in_domain : World → option Z → string → exn + bool;
}.

Module RestAuthViews.

Inductive payload : Type :=
| StatusResponseSerializer (status : string) (message : option string)
| ErrorSerializer (error : string).

Record Response : Type := mkResponse {
  data : payload;
  status : Z;
}.

Definition HTTP_200_OK : Z := 200.
Definition HTTP_204_NO_CONTENT : Z := 204.
Definition HTTP_400_BAD_REQUEST : Z := 400.
Definition HTTP_401_UNAUTHORIZED : Z := 401.
Definition HTTP_403_FORBIDDEN : Z := 403.
Definition HTTP_404_NOT_FOUND : Z := 404.
Definition HTTP_500_INTERNAL_SERVER_ERROR : Z := 500.

Module ProfessionalUserViewSet.

Inductive permission : Type := IsAuthenticated.

Definition get_permissions (action : string) : list permission :=
  if String.eqb action "list" then []
  else if String.eqb action "accept" || String.eqb action "reject"
       then [IsAuthenticated]
  else [].

(** [request.user]: [None] is the anonymous user. *)
Definition has_permission (p : permission) (user : option Z) : bool :=
  match p with
  | IsAuthenticated => bool_decide (is_Some user)
  end.

(** The framework's check before the action runs: a request without a
    session that fails a permission is answered [NotAuthenticated]. *)
Definition check_permissions (action : string) (user : option Z) : Handler unit :=
  if forallb (λ p, has_permission p user) (get_permissions action)
  then ret tt
  else raise NotAuthenticated.

(** The validated data of [AcceptProfessionalUserSerializer], with the
    session's user. *)
Record Request : Type := mkRequest {
  user : option Z;
  professional_user_id : Z;
  domain_id : string;
}.

(** The filter [professional_id=..., pending=True, domain_id=...] both
    actions look the relation up by. *)
Definition pending_relation_of (professional_user_id : Z) (domain_id : string)
    (pk : Z) (r : ProfessionalDomainRelation.t) : bool :=
  (ProfessionalDomainRelation.professional r =? professional_user_id)%Z
  && ProfessionalDomainRelation.pending r
  && String.eqb (ProfessionalDomainRelation.domain r) domain_id.

(** The responses the two actions build. *)
Definition reject_forbidden : Response :=
  mkResponse (ErrorSerializer "User does not have admin privileges")
    HTTP_403_FORBIDDEN.

Definition rejected : Response :=
  mkResponse
    (StatusResponseSerializer "rejected" (Some "Professional user rejected"))
    HTTP_204_NO_CONTENT.

Definition accept_forbidden : Response :=
  mkResponse
    (StatusResponseSerializer "failure" (Some "User does not have admin privileges"))
    HTTP_403_FORBIDDEN.

Definition authentication_error : Response :=
  mkResponse (StatusResponseSerializer "failure" (Some "Authentication error"))
    HTTP_401_UNAUTHORIZED.

Definition accepted : Response :=
  mkResponse
    (StatusResponseSerializer "accepted" (Some "Professional user accepted"))
    HTTP_200_OK.

Definition relation_not_found : Response :=
  mkResponse
    (StatusResponseSerializer "failure"
       (Some "Relation not found or already accepted"))
    HTTP_404_NOT_FOUND.

Definition reject `{AuthUtils} (request : Request) : Handler Response :=
  let professional_user_id := professional_user_id request in
  let domain_id := domain_id request in
  let current_user := user request in
  let* current_user_admin_in_domain :=
    query (λ w, user_is_admin_in_domain w current_user domain_id) in
  if negb current_user_admin_in_domain then
    ret reject_forbidden
  else
    let* (pk, relation) :=
      query (λ w, objects_get "ProfessionalDomainRelation"
                    (pending_relation_of professional_user_id domain_id)
                    (professionaldomainrelation w)) in
    let relation := ProfessionalDomainRelation.set_pending false relation in
    let relation := ProfessionalDomainRelation.set_rejected true relation in
    let relation := ProfessionalDomainRelation.set_active false relation in
    ProfessionalDomainRelation_save pk relation;;
    ret rejected.

Definition accept `{AuthUtils} (request : Request) : Handler Response :=
  let professional_user_id := professional_user_id request in
  let domain_id := domain_id request in
  let* refused :=
    try_except
      (let current_user := user request in
       let* current_user_admin_in_domain :=
         query (λ w, user_is_admin_in_domain w current_user domain_id) in
       if negb current_user_admin_in_domain then
         ret (Some accept_forbidden)
       else ret None)
      (catch_all (ret (Some authentication_error))) in
  match refused with
  | Some response => ret response
  | None =>
      try_except
        (let* (pk, relation) :=
           query (λ w, objects_get "ProfessionalDomainRelation"
                         (pending_relation_of professional_user_id domain_id)
                         (professionaldomainrelation w)) in
         let* (ppk, professional_user) :=
           query (λ w, objects_get "ProfessionalUser"
                         (λ k _, (k =? professional_user_id)%Z)
                         (professionaluser w)) in
         let professional_user := ProfessionalUser.set_active true professional_user in
         ProfessionalUser_save ppk professional_user;;
         let relation := ProfessionalDomainRelation.set_pending false relation in
         let* relation := ProfessionalDomainRelation_save pk relation in
         let* (_, domain) :=
           query (λ w, objects_get "UserDomain"
                         (λ k _, String.eqb k (ProfessionalDomainRelation.domain relation))
                         (userdomain w)) in
         (if truthy (UserDomain.stripe_subscription_id domain) then
            let* (subscription_id, subscription) :=
              Subscription_retrieve
                (default "" (UserDomain.stripe_subscription_id domain)) in
            match Stripe.items subscription with
            | item0 :: _ =>
                Subscription_modify subscription_id
                  (Stripe.item_id item0) (Stripe.quantity item0 + 1)
            | [] => raise IndexError
            end
          else ret tt);;
         ret accepted)
        (catch_only (DoesNotExist "ProfessionalDomainRelation")
           (ret relation_not_found))
  end.

(** The view as the router calls it: permissions, then the action. *)
Definition dispatch `{AuthUtils} (action : string) (request : Request)
    : Handler Response :=
  check_permissions action (user request);;
  if String.eqb action "accept" then accept request
  else if String.eqb action "reject" then reject request
  else raise (OtherError "action outside the model").

End ProfessionalUserViewSet.

Module VerifyEmailViewSet.

(** The validated data of [VerificationTokenSerializer]. *)
Record Request : Type := mkRequest {
  user_id : Z;
  token : string;
}.

(** [QuerySet.update(is_active=True)] on [PatientUser] and on
    [ProfessionalUser]: neither class has a column [is_active], so the
    call raises. *)
Definition update_is_active : Handler unit := raise FieldError.

(** The responses of [verify]. *)
Definition user_not_found : Response :=
  mkResponse
    (StatusResponseSerializer "failure"
       (Some "Invalid activation link [user not found]"))
    HTTP_400_BAD_REQUEST.

Definition activation_expired : Response :=
  mkResponse
    (StatusResponseSerializer "failure" (Some "Activation link has expired"))
    HTTP_500_INTERNAL_SERVER_ERROR.

Definition activation_invalid : Response :=
  mkResponse (StatusResponseSerializer "failure" (Some "Invalid activation link"))
    HTTP_400_BAD_REQUEST.

Definition verified : Response :=
  mkResponse (StatusResponseSerializer "success" None) HTTP_200_OK.

(** [now] is [timezone.now()]. *)
Definition verify (now : Z) (request : Request) : Handler Response :=
  let* found :=
    try_except
      (let uid := user_id request in
       let* user :=
         query (λ w, objects_get "User" (λ k _, (k =? uid)%Z) (auth_user w)) in
       ret (Some user))
      (catch_among [ValueError; DoesNotExist "User"] (ret None)) in
  match found with
  | None => ret user_not_found
  | Some (upk, user) =>
      let token := token request in
      try_except
        (let* (tpk, verification_token) :=
           query (λ w, objects_get "VerificationToken"
                         (λ _ t, (VerificationToken.user t =? upk)%Z
                                 && String.eqb (VerificationToken.token t) token)
                         (verificationtoken w)) in
         if (now >? VerificationToken.expires_at verification_token)%Z then
           ret activation_expired
         else
           let user := User.set_is_active true user in
           User_save upk user;;
           let* (epk, extraproperties) :=
             try_except
               (query (λ w, objects_get "ExtraUserProperties"
                              (λ _ x, (ExtraUserProperties.user x =? upk)%Z)
                              (extrauserproperties w)))
               (catch_all
                  (ExtraUserProperties_create (ExtraUserProperties.mk upk false))) in
           let extraproperties :=
             ExtraUserProperties.set_email_verified true extraproperties in
           ExtraUserProperties_save epk extraproperties;;
           VerificationToken_delete tpk;;
           try_except update_is_active (catch_all (ret tt));;
           try_except update_is_active (catch_all (ret tt));;
           ret verified)
        (catch_only (DoesNotExist "VerificationToken") (ret activation_invalid))
  end.

End VerifyEmailViewSet.

Module PasswordResetViewSet.

(** The validated data of [FinishPasswordResetFormSerializer]. *)
Record Request : Type := mkRequest {
  token : string;
  new_password : string;
}.

(** The responses of [finish_reset]. *)
Definition reset_expired : Response :=
  mkResponse (StatusResponseSerializer "failure" (Some "Reset token has expired"))
    HTTP_400_BAD_REQUEST.

Definition reset_invalid : Response :=
  mkResponse (StatusResponseSerializer "failure" (Some "Invalid reset token"))
    HTTP_400_BAD_REQUEST.

Definition password_reset_complete : Response :=
  mkResponse (StatusResponseSerializer "password_reset_complete" None)
    HTTP_200_OK.

Definition finish_reset (now : Z) (request : Request) : Handler Response :=
  try_except
    (let* (tpk, reset_token) :=
       query (λ w, objects_get "ResetToken"
                     (λ _ t, String.eqb (ResetToken.token t) (token request))
                     (resettoken w)) in
     if (now >? ResetToken.expires_at reset_token)%Z then
       ResetToken_delete tpk;;
       ret reset_expired
     else
       let* (upk, user) :=
         query (λ w, objects_get "User"
                       (λ k _, (k =? ResetToken.user reset_token)%Z)
                       (auth_user w)) in
       let user := User.set_password (new_password request) user in
       User_save upk user;;
       ResetToken_delete tpk;;
       ret password_reset_complete)
    (catch_only (DoesNotExist "ResetToken") (ret reset_invalid)).

End PasswordResetViewSet.

End RestAuthViews.

(** ** fighthealthinsurance/rest_views.py *)

(** The visibility filters [Appeal.filter_to_allowed_appeals],
    [Denial.filter_to_allowed_denials] and
    [AppealAttachment.filter_to_allowed_attachments] are class methods of
    models that are not part of the sources examined.  Each selects rows of
    its table by a condition on the row, the user and the other tables.
    [icontains] is the database's case-insensitive containment test. *)
Class FhiQueries : Type := {
  allowed_appeal : World → option Z → Z → Appeal.t → bool;
  allowed_denial : World → option Z → Z → Denial.t → bool;
  allowed_attachment : World → option Z → Z → AppealAttachment.t → bool;
  icontains : string → string → bool;
}.

Definition filter_to_allowed_appeals `{FhiQueries}
    (w : World) (user : option Z) : gmap Z Appeal.t :=
  objects_filter (allowed_appeal w user) (appeal w).

Definition filter_to_allowed_denials `{FhiQueries}
    (w : World) (user : option Z) : gmap Z Denial.t :=
  objects_filter (allowed_denial w user) (denial w).

Definition filter_to_allowed_attachments `{FhiQueries}
    (w : World) (user : option Z) : gmap Z AppealAttachment.t :=
  objects_filter (allowed_attachment w user) (appealattachment w).

(** What [DenialCreatorHelper] hands back to the view. *)
Record DenialResponseInfo : Type := mkDenialResponseInfo {
  info_uuid : string;
  info_denial_id : Z;
  info_appeal_id : option Z;
}.

Definition set_appeal_id (pk : Z) (info : DenialResponseInfo) : DenialResponseInfo :=
  mkDenialResponseInfo (info_uuid info) (info_denial_id info) (Some pk).

(** The validated form data the view passes on to the helper, after it
    has replaced the identifiers by the rows they name. *)
Record DenialData : Type := mkDenialData {
  data_primary_professional : option Z;
  data_patient_user : option Z;
  data_denial_text : string;
}.

(** The helpers of [common_view_logic] and the file cipher are not part of
    the sources examined. *)
Class CommonViewLogic : Type := {
  format_denial_response_info : Z → Denial.t → DenialResponseInfo;
  create_or_update_denial :
    option (Z * Denial.t) → Z → DenialData → Handler DenialResponseInfo;
  decrypted : string → string;
}.

(** [dateutil.relativedelta] month arithmetic on a datetime, and the
    calendar day of a datetime. *)
Class Dateutil : Type := {
  add_months : Z → Z → Z;
  date : Z → Z;
}.

(** The clock and the random source of one call. *)
Record Ambient : Type := mkAmbient {
  now : Z;
  today : Z;
  uuid4 : string;
}.

(** ** Python floats

    A Python [float] is an IEEE 754 double: 53 bits of precision, binary
    exponents below 1024, every operation rounded to the nearest double
    with ties to even. *)
Module Float64.

Definition prec : Z := 53.
Definition emax : Z := 1024.

(** An integer operand, with every bit of it. *)
Definition exact (z : Z) : spec_float :=
  match z with
  | Z0 => S754_zero false
  | Zpos p => S754_finite false p 0
  | Zneg p => S754_finite true p 0
  end.

(** [float(z)]: the double nearest to an integer. *)
Definition of_int (z : Z) : spec_float := binary_normalize prec emax z 0 false.

(** [a / b] for two integers, [b] not zero: the double nearest to the
    quotient, rounded once from the exact operands.  Past the range of a
    double this is an infinity, where CPython raises [OverflowError]. *)
Definition int_truediv (a b : Z) : spec_float :=
  SFdiv prec emax (exact a) (exact b).

(** [x * y] for two floats. *)
Definition mul (x y : spec_float) : spec_float := SFmul prec emax x y.

(** [0.0]. *)
Definition zero : spec_float := S754_zero false.

Definition is_nan (f : spec_float) : bool :=
  match f with S754_nan => true | _ => false end.

Definition is_finite (f : spec_float) : bool :=
  match f with S754_zero _ | S754_finite _ _ _ => true | _ => false end.

(** The rational number a finite double stands for. *)
Definition value (f : spec_float) : option Q :=
  match f with
  | S754_zero _ => Some 0%Q
  | S754_finite s m e =>
      Some ((if s then -1 else 1) * inject_Z (Zpos m) * Qpower 2 e)%Q
  | _ => None
  end.

End Float64.

Module RestViews.

Definition HTTP_200_OK : Z := 200.
Definition HTTP_204_NO_CONTENT : Z := 204.
Definition HTTP_400_BAD_REQUEST : Z := 400.

(** A Python number: an [int] or a [float]. *)
Inductive number : Type :=
| PyInt (z : Z)
| PyFloat (f : spec_float).

Record Statistics : Type := mkStatistics {
  current_total_appeals : Z;
  current_pending_appeals : Z;
  current_sent_appeals : Z;
  current_success_rate : number;
  current_estimated_payment_value : option Z;
  current_total_patients : Z;
  previous_total_appeals : Z;
  previous_pending_appeals : Z;
  previous_sent_appeals : Z;
  previous_success_rate : number;
  previous_estimated_payment_value : option Z;
  previous_total_patients : Z;
  period_start : Z;
  period_end : Z;
}.

Record AbsoluteStatistics : Type := mkAbsoluteStatistics {
  total_appeals : Z;
  pending_appeals : Z;
  sent_appeals : Z;
  success_rate : number;
  estimated_payment_value : option Z;
  total_patients : Z;
}.

(** One row of the search result. *)
Record SearchResult : Type := mkSearchResult {
  result_id : Z;
  result_uuid : string;
  result_appeal_text : string;
  result_pending : bool;
  result_sent : bool;
  result_mod_date : Z;
  result_has_response : bool;
}.

Record SearchPage : Type := mkSearchPage {
  count : Z;
  next : bool;
  previous : bool;
  results : list SearchResult;
}.

Inductive payload : Type :=
| NoData
| StatusResponseSerializer (status : string) (message : option string)
| ErrorSerializer (error : string)
| AppealDetailSerializer (pk : Z) (row : Appeal.t)
| DenialResponseInfoSerializer (info : DenialResponseInfo)
| FileResponse (content content_type filename : string)
| StatisticsSerializer (statistics : Statistics)
| AbsoluteStatisticsSerializer (statistics : AbsoluteStatistics)
| SearchResultSerializer (page : SearchPage).

Record Response : Type := mkResponse {
  data : payload;
  status : Z;
}.

(** [QuerySet.count()]. *)
Definition count_rows {A} (rows : gmap Z A) : Z := Z.of_nat (size rows).

Module DenialViewSet.

Definition retrieve `{FhiQueries} `{CommonViewLogic}
    (current_user : option Z) (pk : Z) : Handler Response :=
  let* (dpk, denial) :=
    query (λ w, get_object_or_404 (filter_to_allowed_denials w current_user) pk) in
  let denial_response_info := format_denial_response_info dpk denial in
  ret (mkResponse (DenialResponseInfoSerializer denial_response_info) HTTP_200_OK).

(** The validated data of [DenialFormSerializer].  An identifier is [None]
    when the key is absent, null, or not convertible to an integer. *)
Record Request : Type := mkRequest {
  user : option Z;
  primary_professional : option Z;
  denial_id : option Z;
  patient_id : option Z;
  denial_text : string;
}.

Definition perform_create `{FhiQueries} `{CommonViewLogic}
    (env : Ambient) (request : Request) : Handler DenialResponseInfo :=
  let current_user := user request in
  let* (creating_professional, _) :=
    query (λ w, objects_get "ProfessionalUser"
                  (λ _ p, bool_decide (Some (ProfessionalUser.user p) = current_user))
                  (professionaluser w)) in
  let* primary_professional :=
    match primary_professional request with
    | Some id =>
        let* (ppk, _) :=
          query (λ w, objects_get "ProfessionalUser" (λ k _, (k =? id)%Z)
                        (professionaluser w)) in
        ret (Some ppk)
    | None => ret None
    end in
  let* denial_opt :=
    match denial_id request with
    | Some id =>
        if (id =? 0)%Z then ret None
        else
          let* d :=
            query (λ w, objects_get "Denial" (λ k _, (k =? id)%Z)
                          (filter_to_allowed_denials w current_user)) in
          ret (Some d)
    | None => ret None
    end in
  let* patient_user :=
    match patient_id request with
    | Some id =>
        if (id =? 0)%Z then ret None
        else
          let* (ppk, _) :=
            query (λ w, objects_get "PatientUser" (λ k _, (k =? id)%Z)
                          (patientuser w)) in
          ret (Some ppk)
    | None => ret None
    end in
  let* denial_response_info :=
    create_or_update_denial denial_opt creating_professional
      (mkDenialData primary_professional patient_user (denial_text request)) in
  let* (dpk, denial) :=
    query (λ w, objects_get "Denial"
                  (λ _ d, String.eqb (Denial.uuid d) (info_uuid denial_response_info))
                  (denial w)) in
  try_except
    (query (λ w, objects_get "Appeal" (λ _ a, (Appeal.for_denial a =? dpk)%Z)
                   (appeal w));;
     ret denial_response_info)
    (catch_all
       (let* (apk, _) :=
          Appeal_create
            (Appeal.new (uuid4 env) dpk
               (Denial.patient_user denial)
               (Denial.primary_professional denial)
               (Denial.creating_professional denial)
               true (now env) (today env)) in
        ret (set_appeal_id apk denial_response_info))).

End DenialViewSet.

Module AppealViewSet.

Definition retrieve `{FhiQueries} (current_user : option Z) (pk : Z)
    : Handler Response :=
  let* (apk, appeal) :=
    query (λ w, get_object_or_404 (filter_to_allowed_appeals w current_user) pk) in
  ret (mkResponse (AppealDetailSerializer apk appeal) HTTP_200_OK).

(** The validated data of the [SendFax] serializer. *)
Record SendFaxRequest : Type := mkSendFaxRequest {
  user : option Z;
  appeal_id : Z;
  fax_number : string;
}.

(** [str(serializer["fax_number"])] for a valid serializer.  Indexing a
    serializer gives the bound field, not the validated value; REST
    framework's [BoundField] has a [__repr__],
    ['<%s value=%s errors=%s>' % (class name, value, errors)], and no
    [__str__], and the field of a valid serializer has the errors [None].
    The view tests the bound field against [None], which it never is, and
    assigns it to [appeal.fax_number]: the fax number is always
    overwritten, and what the [CharField] column stores on [save] is this
    text around the submitted number, not the number.  The width of the
    column, 40 characters, is left to the database and is not modelled. *)
Definition BoundField_str (value : string) : string :=
  String.append "<BoundField value=" (String.append value " errors=None>").

(** [SendFaxHelper.stage_appeal_as_fax] followed by
    [SendFaxHelper.remote_send_fax]: the outbound delivery, recorded in the
    history. *)
Definition stage_appeal_as_fax (pk : Z) (email : string) : Handler unit :=
  modify (record (StageAppealAsFax pk email)).

Definition remote_send_fax (pk : Z) : Handler unit :=
  modify (record (RemoteSendFax pk)).

(** [current_user.email]: the anonymous user has no such attribute. *)
Definition email_of (current_user : option Z) : Handler string :=
  query (λ w, match current_user ≫= λ pk, auth_user w !! pk with
              | Some u => inr (User.email u)
              | None => inl AttributeError
              end).

(** The responses of [send_fax]. *)
Definition pending_professional_response : Response :=
  mkResponse
    (StatusResponseSerializer "pending_professional" (Some "Pending professional"))
    HTTP_200_OK.

Definition fax_sent : Response := mkResponse NoData HTTP_204_NO_CONTENT.

Definition send_fax `{FhiQueries} (request : SendFaxRequest) : Handler Response :=
  let current_user := user request in
  let* (pk, appeal) :=
    query (λ w, get_object_or_404 (filter_to_allowed_appeals w current_user)
                  (appeal_id request)) in
  let appeal :=
    Appeal.set_fax_number (Some (BoundField_str (fax_number request))) appeal in
  Appeal_save pk appeal;;
  let* patient_user :=
    try_except
      (let* (ppk, _) :=
         query (λ w, objects_get "PatientUser"
                       (λ _ p, bool_decide (Some (PatientUser.user p) = current_user))
                       (patientuser w)) in
       ret (Some ppk))
      (catch_all (ret None)) in
  let* hand_off :=
    if decide (Appeal.patient_user appeal = patient_user) then
      let* (_, for_denial) :=
        query (λ w, objects_get "Denial"
                      (λ k _, (k =? Appeal.for_denial appeal)%Z) (denial w)) in
      ret (Denial.professional_to_finish for_denial)
    else ret false in
  if hand_off then
    let appeal := Appeal.set_pending_patient false appeal in
    let appeal := Appeal.set_pending_professional true appeal in
    let appeal := Appeal.set_pending true appeal in
    Appeal_save pk appeal;;
    ret pending_professional_response
  else
    let appeal := Appeal.set_pending_patient false appeal in
    let appeal := Appeal.set_pending_professional false appeal in
    let appeal := Appeal.set_pending false appeal in
    Appeal_save pk appeal;;
    let* email := email_of current_user in
    stage_appeal_as_fax pk email;;
    remote_send_fax pk;;
    ret fax_sent.

(** Python's true division of two integers: a float, or
    [ZeroDivisionError]. *)
Definition truediv (a b : Z) : exn + spec_float :=
  if (b =? 0)%Z then inl ZeroDivisionError
  else inr (Float64.int_truediv a b).

(** The expression
    [(successful / with_response * 100) if with_response > 0 else zero]
    that [stats] writes twice with [zero = 0] and [absolute_stats] once
    with [zero = 0.0].  The quotient is a float; the integer 100 becomes
    the float 100.0 and the product is rounded again. *)
Definition success_rate_of (successful with_response : Z) (zero : number)
    : exn + number :=
  if (with_response >? 0)%Z then
    match truediv successful with_response with
    | inr q => inr (PyFloat (Float64.mul q (Float64.of_int 100)))
    | inl e => inl e
    end
  else inr zero.

(** [PatientUser.objects.filter(appeal__in=appeals).distinct()]. *)
Definition patients_with_appeal_in (appeals : gmap Z Appeal.t) (w : World)
    : gmap Z PatientUser.t :=
  objects_filter
    (λ pk _, existsb (λ a, bool_decide (Appeal.patient_user a = Some pk))
               (map_to_list appeals).*2)
    (patientuser w).

(** The bounds [stats] derives from [delta]:
    (current start, current end, previous start, previous end). *)
Definition periods `{Dateutil} (delta : string) (now : Z) : Z * Z * Z * Z :=
  let current_period_end := now in
  if String.eqb delta "MoM" then
    let current_period_start := add_months now (-1) in
    let previous_period_start := add_months current_period_start (-1) in
    let previous_period_end := (current_period_start - 1)%Z in
    (current_period_start, current_period_end,
     previous_period_start, previous_period_end)
  else if String.eqb delta "YoY" then
    let current_period_start := add_months now (-12) in
    let previous_period_start := add_months current_period_start (-12) in
    let previous_period_end := (add_months previous_period_start 1 - 1)%Z in
    (current_period_start, current_period_end,
     previous_period_start, previous_period_end)
  else if String.eqb delta "QoQ" then
    let current_period_start := add_months now (-3) in
    let previous_period_start := add_months current_period_start (-3) in
    let previous_period_end := (current_period_start - 1)%Z in
    (current_period_start, current_period_end,
     previous_period_start, previous_period_end)
  else
    let current_period_start := add_months now (-1) in
    let previous_period_start := add_months current_period_start (-1) in
    let previous_period_end := (current_period_start - 1)%Z in
    (current_period_start, current_period_end,
     previous_period_start, previous_period_end).

(** [queryset.filter(creation_date__range=(start.date(), end.date()))]. *)
Definition created_in `{Dateutil} (start stop : Z) (appeals : gmap Z Appeal.t)
    : gmap Z Appeal.t :=
  objects_filter
    (λ _ a, (date start <=? Appeal.creation_date a)%Z
            && (Appeal.creation_date a <=? date stop)%Z)
    appeals.

(** [GET.get("delta", "MoM")] is [delta]; the lookup of the session's
    domain, whose result [stats] never uses, is left out. *)
Definition stats `{FhiQueries} `{Dateutil}
    (env : Ambient) (user : option Z) (delta : option string)
    : Handler Response :=
  let delta := default "MoM" delta in
  let '(current_period_start, current_period_end,
        previous_period_start, previous_period_end) := periods delta (now env) in
  let* current_appeals :=
    gets (λ w, created_in current_period_start current_period_end
                 (filter_to_allowed_appeals w user)) in
  let current_total := count_rows current_appeals in
  let current_pending :=
    count_rows (objects_filter (λ _ a, Appeal.pending a) current_appeals) in
  let current_sent :=
    count_rows (objects_filter (λ _ a, Appeal.sent a) current_appeals) in
  let current_successful :=
    count_rows (objects_filter (λ _ a, Appeal.success a) current_appeals) in
  let current_with_response :=
    count_rows (objects_filter (λ _ a, bool_decide (Appeal.response_date a ≠ None))
                  current_appeals) in
  let* current_patients :=
    gets (λ w, count_rows (patients_with_appeal_in current_appeals w)) in
  let* previous_appeals :=
    gets (λ w, created_in previous_period_start previous_period_end
                 (filter_to_allowed_appeals w user)) in
  let previous_total := count_rows previous_appeals in
  let previous_pending :=
    count_rows (objects_filter (λ _ a, Appeal.pending a) previous_appeals) in
  let previous_sent :=
    count_rows (objects_filter (λ _ a, Appeal.sent a) previous_appeals) in
  let previous_successful :=
    count_rows (objects_filter (λ _ a, Appeal.success a) previous_appeals) in
  let previous_with_response :=
    count_rows (objects_filter (λ _ a, bool_decide (Appeal.response_date a ≠ None))
                  previous_appeals) in
  let* previous_patients :=
    gets (λ w, count_rows (patients_with_appeal_in previous_appeals w)) in
  let* current_success_rate :=
    query (λ _, success_rate_of current_successful current_with_response (PyInt 0)) in
  let* previous_success_rate :=
    query (λ _, success_rate_of previous_successful previous_with_response (PyInt 0)) in
  ret (mkResponse
         (StatisticsSerializer
            (mkStatistics current_total current_pending current_sent
               current_success_rate None current_patients
               previous_total previous_pending previous_sent
               previous_success_rate None previous_patients
               current_period_start current_period_end))
         HTTP_200_OK).

(** [domain_id] is [request.session.get("domain_id")]. *)
Definition absolute_stats `{FhiQueries}
    (user : option Z) (domain_id : option string) : Handler Response :=
  let* user_domain :=
    if truthy domain_id then
      try_except
        (let* (dpk, _) :=
           query (λ w, objects_get "UserDomain"
                         (λ k _, String.eqb k (default "" domain_id))
                         (userdomain w)) in
         ret (Some dpk))
        (catch_only (DoesNotExist "UserDomain") (ret None))
    else ret None in
  let* all_appeals := gets (λ w, filter_to_allowed_appeals w user) in
  let total_appeals := count_rows all_appeals in
  let pending_appeals :=
    count_rows (objects_filter (λ _ a, Appeal.pending a) all_appeals) in
  let sent_appeals :=
    count_rows (objects_filter (λ _ a, Appeal.sent a) all_appeals) in
  let successful_appeals :=
    count_rows (objects_filter (λ _ a, Appeal.success a) all_appeals) in
  let with_response :=
    count_rows (objects_filter (λ _ a, bool_decide (Appeal.response_date a ≠ None))
                  all_appeals) in
  let* success_rate :=
    query (λ _, success_rate_of successful_appeals with_response
                  (PyFloat Float64.zero)) in
  let* total_patients :=
    match user_domain with
    | Some dpk =>
        gets (λ w, count_rows
                     (objects_filter
                        (λ pk _, existsb
                                   (λ r, (PatientDomainRelation.patient r =? pk)%Z
                                         && String.eqb (PatientDomainRelation.domain r) dpk)
                                   (map_to_list (patientdomainrelation w)).*2)
                        (patientuser w)))
    | None => gets (λ w, count_rows (patients_with_appeal_in all_appeals w))
    end in
  ret (mkResponse
         (AbsoluteStatisticsSerializer
            (mkAbsoluteStatistics total_appeals pending_appeals sent_appeals
               success_rate None total_patients))
         HTTP_200_OK).

(** A query-string parameter read through [int(GET.get(name, default))]. *)
Inductive int_param : Type :=
| Absent
| IntText (z : Z)
| OtherText.

Definition int_or (default : Z) (p : int_param) : exn + Z :=
  match p with
  | Absent => inr default
  | IntText z => inr z
  | OtherText => inl ValueError
  end.

(** Python's index normalisation in a slice of a sequence of length [len]. *)
Definition slice_index (len i : Z) : Z :=
  if (i <? 0)%Z then Z.max 0 (i + len) else Z.min i len.

(** [l[start:stop]]. *)
Definition py_slice {A} (l : list A) (start stop : Z) : list A :=
  let len := Z.of_nat (length l) in
  let a := slice_index len start in
  let b := slice_index len stop in
  take (Z.to_nat (b - a)) (drop (Z.to_nat a) l).

(** [s[:n]] on a string. *)
Fixpoint string_take (n : nat) (s : string) : string :=
  match n, s with
  | S n', String c s' => String c (string_take n' s')
  | _, _ => EmptyString
  end.

(** [list.sort(key=lambda x: x["mod_date"], reverse=True)]: a stable sort,
    newest first. *)
Fixpoint insert_newest (x : SearchResult) (l : list SearchResult)
    : list SearchResult :=
  match l with
  | [] => [x]
  | y :: l' =>
      if (result_mod_date y <=? result_mod_date x)%Z then x :: y :: l'
      else y :: insert_newest x l'
  end.

Definition sort_newest_first (l : list SearchResult) : list SearchResult :=
  foldr insert_newest [] l.

Definition to_search_result (row : Z * Appeal.t) : SearchResult :=
  let '(pk, appeal) := row in
  mkSearchResult pk (Appeal.uuid appeal)
    (if truthy (Appeal.appeal_text appeal)
     then string_take 200 (default "" (Appeal.appeal_text appeal))
     else "")
    (Appeal.pending appeal) (Appeal.sent appeal) (Appeal.mod_date appeal)
    (bool_decide (Appeal.response_date appeal ≠ None)).

(** A null column matches no pattern. *)
Definition icontains_null `{FhiQueries} (column : option string) (q : string)
    : bool :=
  match column with
  | Some text => icontains text q
  | None => false
  end.

(** The appeals the search selects: visible to the user, and the pattern
    occurs in the identifier, the appeal text or the response text. *)
Definition matching_appeals `{FhiQueries} (w : World) (user : option Z)
    (q : string) : gmap Z Appeal.t :=
  objects_filter
    (λ _ a, icontains (Appeal.uuid a) q
            || icontains_null (Appeal.appeal_text a) q
            || icontains_null (Appeal.response_text a) q)
    (filter_to_allowed_appeals w user).

(** The message of the source, with the parameter name between quotation
    marks (character 34). *)
Definition missing_query_message : string :=
  String.append "Please provide a search query parameter "
    (String (ascii_of_nat 34) (String "q"%char (String (ascii_of_nat 34) EmptyString))).

Record SearchRequest : Type := mkSearchRequest {
  search_user : option Z;
  q : option string;
  page_size : int_param;
  page : int_param;
}.

Definition search `{FhiQueries} (request : SearchRequest) : Handler Response :=
  let q := default "" (q request) in
  if String.eqb q "" then
    ret (mkResponse (ErrorSerializer missing_query_message) HTTP_400_BAD_REQUEST)
  else
    let* appeals := gets (λ w, matching_appeals w (search_user request) q) in
    let search_results := to_search_result <$> map_to_list appeals in
    let search_results := sort_newest_first search_results in
    let* page_size := query (λ _, int_or 10 (page_size request)) in
    let* page := query (λ _, int_or 1 (page request)) in
    let start_idx := ((page - 1) * page_size)%Z in
    let end_idx := (start_idx + page_size)%Z in
    let paginated_results := py_slice search_results start_idx end_idx in
    let len := Z.of_nat (length search_results) in
    if (page_size =? 0)%Z then raise ZeroDivisionError
    else
      ret (mkResponse
             (SearchResultSerializer
                (mkSearchPage len
                   (page <? len `div` page_size + 1)%Z
                   (page >? 1)%Z
                   paginated_results))
             HTTP_200_OK).

End AppealViewSet.

Module AppealAttachmentViewSet.

Definition retrieve `{FhiQueries} `{CommonViewLogic}
    (current_user : option Z) (pk : Z) : Handler Response :=
  let* (_, attachment) :=
    query (λ w, get_object_or_404
                  (filter_to_allowed_attachments w current_user) pk) in
  let content := decrypted (AppealAttachment.document_enc attachment) in
  ret (mkResponse
         (FileResponse content (AppealAttachment.mime_type attachment)
            (AppealAttachment.filename attachment))
         HTTP_200_OK).

End AppealAttachmentViewSet.

End RestViews.

(** ** Specification vocabulary *)

Module Spec.

Import RestAuthViews RestAuthViews.ProfessionalUserViewSet.

(** The derived flag of a membership. *)
Definition active_is_derived (r : ProfessionalDomainRelation.t) : Prop :=
  ProfessionalDomainRelation.active r
  = negb (ProfessionalDomainRelation.pending r)
    && negb (ProfessionalDomainRelation.suspended r)
    && negb (ProfessionalDomainRelation.rejected r).

Definition memberships_derived (w : World) : Prop :=
  ∀ pk r, professionaldomainrelation w !! pk = Some r → active_is_derived r.

(** A pending membership is neither suspended nor rejected, and a
    professional has at most one pending membership in a domain.  Signup,
    accept and reject keep both (see [memberships_wf_accept] and its
    neighbours). *)
Definition memberships_wf (w : World) : Prop :=
  (∀ pk r,
     professionaldomainrelation w !! pk = Some r →
     ProfessionalDomainRelation.pending r = true →
     ProfessionalDomainRelation.suspended r = false
     ∧ ProfessionalDomainRelation.rejected r = false)
  ∧ (∀ pk1 pk2 r1 r2,
       professionaldomainrelation w !! pk1 = Some r1 →
       professionaldomainrelation w !! pk2 = Some r2 →
       ProfessionalDomainRelation.pending r1 = true →
       ProfessionalDomainRelation.pending r2 = true →
       ProfessionalDomainRelation.professional r1
       = ProfessionalDomainRelation.professional r2 →
       ProfessionalDomainRelation.domain r1 = ProfessionalDomainRelation.domain r2 →
       pk1 = pk2).

(** The seat quantity of a subscription: the quantity of its first item. *)
Definition seats (w : World) (subscription : string) : option Z :=
  s ← stripe_subscriptions w !! subscription;
  Stripe.quantity <$> head (Stripe.items s).

(** The subscription reference of a domain: the column, when it holds a
    non-empty identifier. *)
Definition subscription_reference (d : UserDomain.t) : option string :=
  if truthy (UserDomain.stripe_subscription_id d)
  then UserDomain.stripe_subscription_id d
  else None.

(** The world after the two writes of an accepted membership: the
    professional's row, then the relation's row. *)
Definition after_accept_writes (w : World)
    (ppk : Z) (professional : ProfessionalUser.t)
    (pk : Z) (relation : ProfessionalDomainRelation.t) : World :=
  record (SaveProfessionalDomainRelation pk relation)
    (upd_professionaldomainrelation <[pk:=relation]>
       (record (SaveProfessionalUser ppk professional)
          (upd_professionaluser <[ppk:=professional]> w))).

(** The caller is the patient user on the appeal. *)
Definition caller_is_patient_on (w : World) (user : option Z) (a : Appeal.t)
    : Prop :=
  ∃ ppk p,
    Appeal.patient_user a = Some ppk
    ∧ patientuser w !! ppk = Some p
    ∧ Some (PatientUser.user p) = user.

(** The patient profile of the caller, if the caller has one: what
    [PatientUser.objects.get(user=current_user)] finds. *)
Definition patient_of (w : World) (user : option Z) : option Z :=
  match objects_get "PatientUser"
          (λ _ p, bool_decide (Some (PatientUser.user p) = user))
          (patientuser w) with
  | inr (ppk, _) => Some ppk
  | inl _ => None
  end.

(** The two ways [send_fax] leaves the flags of an appeal. *)
Definition handed_off (a : Appeal.t) : Appeal.t :=
  Appeal.set_pending true
    (Appeal.set_pending_professional true (Appeal.set_pending_patient false a)).

Definition cleared (a : Appeal.t) : Appeal.t :=
  Appeal.set_pending false
    (Appeal.set_pending_professional false (Appeal.set_pending_patient false a)).

(** The appeals of a denial. *)
Definition appeals_of (w : World) (dpk : Z) : gmap Z Appeal.t :=
  objects_filter (λ _ a, (Appeal.for_denial a =? dpk)%Z) (appeal w).

(** The two counts behind the success rate. *)
Definition successful (appeals : gmap Z Appeal.t) : Z :=
  RestViews.count_rows (objects_filter (λ _ a, Appeal.success a) appeals).

Definition with_response (appeals : gmap Z Appeal.t) : Z :=
  RestViews.count_rows
    (objects_filter (λ _ a, bool_decide (Appeal.response_date a ≠ None)) appeals).

(** The rate the handlers report for [s] successes among [r] answered
    appeals: [zero] when nothing was answered, and otherwise the float
    Python computes for [s / r * 100]: the quotient rounded to the nearest
    double, times 100.0, rounded again.  That float is never NaN, and for
    counts that fit a 64-bit database integer it is finite. *)
Definition rate_is (rate : RestViews.number) (s r : Z) (zero : RestViews.number)
    : Prop :=
  if decide (r = 0) then rate = zero
  else ∃ f, rate = RestViews.PyFloat f
            ∧ f = Float64.mul (Float64.int_truediv s r) (Float64.of_int 100)
            ∧ Float64.is_nan f = false
            ∧ (0 ≤ s < 2 ^ 63 → r < 2 ^ 63 → Float64.is_finite f = true).

(** Newest first: the earlier row was modified no earlier than the later. *)
Definition newest_first (x y : RestViews.SearchResult) : Prop :=
  RestViews.result_mod_date y ≤ RestViews.result_mod_date x.

(** The rows of a search, in the order [search] pages through. *)
Definition hits `{FhiQueries} (w : World) (user : option Z) (q : string)
    : list RestViews.SearchResult :=
  RestViews.AppealViewSet.sort_newest_first
    (RestViews.AppealViewSet.to_search_result
       <$> map_to_list (RestViews.AppealViewSet.matching_appeals w user q)).

End Spec.

(** ** Example worlds and collaborators *)

Module Examples.

(** Modelled from the spec: the admin check, "is this identity an active
    admin member of domain D".  The body of [user_is_admin_in_domain] is
    missing; this one answers from the stored memberships. *)
Definition is_active_admin (w : World) (user : option Z) (domain_id : string)
    : bool :=
  match user with
  | None => false
  | Some u =>
      existsb
        (λ professional : Z * ProfessionalUser.t,
           (ProfessionalUser.user professional.2 =? u)%Z
           && existsb
                (λ relation : Z * ProfessionalDomainRelation.t,
                   (ProfessionalDomainRelation.professional relation.2
                    =? professional.1)%Z
                   && String.eqb (ProfessionalDomainRelation.domain relation.2)
                        domain_id
                   && ProfessionalDomainRelation.admin relation.2
                   && ProfessionalDomainRelation.active relation.2)
                (map_to_list (professionaldomainrelation w)))
        (map_to_list (professionaluser w))
  end.

Definition spec_auth_utils : AuthUtils :=
  {| user_is_admin_in_domain w user domain_id :=
       inr (is_active_admin w user domain_id) |}.

(** An admin check that fails with an internal error. *)
Definition failing_auth_utils : AuthUtils :=
  {| user_is_admin_in_domain _ _ _ := inl (OtherError "database unavailable") |}.

(** A practice with a subscription of three seats, its admin (user 1,
    professional 1) and an applicant (user 2, professional 2) whose
    membership is pending. *)
Definition clinic : World :=
  mkWorld
    {[ 1 := User.mk "alice" "alice@clinic.example" "pw1" true;
       2 := User.mk "bob" "bob@clinic.example" "pw2" true ]}
    {[ 1 := ProfessionalUser.mk 1 None true None;
       2 := ProfessionalUser.mk 2 None false None ]}
    ∅
    {[ "clinic" := UserDomain.mk (Some "sub_1") (Some "clinic.example") true
                     "Clinic" "555-0100" None ]}
    {[ 1 := ProfessionalDomainRelation.new 1 "clinic" true true false;
       2 := ProfessionalDomainRelation.new 2 "clinic" false false true ]}
    ∅ ∅ ∅ ∅ ∅ ∅ ∅
    {[ "sub_1" := Stripe.mkSubscription [Stripe.mkItem "si_1" 3] ]}
    [].

(** The admin accepts the applicant. *)
Definition accept_bob : RestAuthViews.ProfessionalUserViewSet.Request :=
  RestAuthViews.ProfessionalUserViewSet.mkRequest (Some 1) 2 "clinic".

(** The applicant tries to accept himself. *)
Definition bob_accepts_bob : RestAuthViews.ProfessionalUserViewSet.Request :=
  RestAuthViews.ProfessionalUserViewSet.mkRequest (Some 2) 2 "clinic".

(** A request without a session. *)
Definition anonymous_accepts_bob : RestAuthViews.ProfessionalUserViewSet.Request :=
  RestAuthViews.ProfessionalUserViewSet.mkRequest None 2 "clinic".

(** A signup whose activation link (token 1 of user 5) ran out at time
    1000, and a password reset (token 1 of user 6) that ran out then too. *)
Definition signup : World :=
  mkWorld
    {[ 5 := User.mk "erin" "erin@clinic.example" "pw5" false;
       6 := User.mk "frank" "frank@clinic.example" "pw6" true ]}
    ∅ ∅ ∅ ∅ ∅ ∅
    {[ 1 := VerificationToken.mk 5 "activate-erin" 0 1000 ]}
    {[ 1 := ResetToken.mk 6 "reset-frank" 0 1000 ]}
    ∅ ∅ ∅ ∅ [].

Definition erin_verifies : RestAuthViews.VerifyEmailViewSet.Request :=
  RestAuthViews.VerifyEmailViewSet.mkRequest 5 "activate-erin".

Definition erin_mistypes : RestAuthViews.VerifyEmailViewSet.Request :=
  RestAuthViews.VerifyEmailViewSet.mkRequest 5 "activate-eirn".

Definition frank_resets : RestAuthViews.PasswordResetViewSet.Request :=
  RestAuthViews.PasswordResetViewSet.mkRequest "reset-frank" "new-pw6".

(** A visibility rule for the examples: the user is the patient on the
    row, or its primary or creating professional. *)
Definition is_patient (w : World) (user : option Z) (patient : option Z) : bool :=
  match patient ≫= λ pk, patientuser w !! pk with
  | Some p => bool_decide (Some (PatientUser.user p) = user)
  | None => false
  end.

Definition is_professional (w : World) (user : option Z) (professional : option Z)
    : bool :=
  match professional ≫= λ pk, professionaluser w !! pk with
  | Some p => bool_decide (Some (ProfessionalUser.user p) = user)
  | None => false
  end.

Definition lower (c : ascii) : ascii :=
  let n := nat_of_ascii c in
  if ((65 <=? n) && (n <=? 90))%nat then ascii_of_nat (n + 32) else c.

Fixpoint lowercase (s : string) : string :=
  match s with
  | EmptyString => EmptyString
  | String c s' => String (lower c) (lowercase s')
  end.

Fixpoint contains (needle hay : string) : bool :=
  String.prefix needle hay
  || match hay with
     | EmptyString => false
     | String _ hay' => contains needle hay'
     end.

Definition sample_queries : FhiQueries :=
  {| allowed_appeal w user _ a :=
       is_patient w user (Appeal.patient_user a)
       || is_professional w user (Appeal.primary_professional a)
       || is_professional w user (Appeal.creating_professional a);
     allowed_denial w user _ d :=
       is_patient w user (Denial.patient_user d)
       || is_professional w user (Denial.primary_professional d)
       || is_professional w user (Denial.creating_professional d);
     allowed_attachment w user _ t :=
       match appeal w !! AppealAttachment.appeal t with
       | Some a =>
           is_patient w user (Appeal.patient_user a)
           || is_professional w user (Appeal.primary_professional a)
           || is_professional w user (Appeal.creating_professional a)
       | None => false
       end;
     icontains text q := contains (lowercase q) (lowercase text) |}.

(** Modelled from the spec: [create_or_update_denial] "upserts a Denial by
    identifier".  The helper's body is missing; this one updates the given
    denial, or inserts a new one under the identifier [fresh]. *)
Definition upsert_denial (fresh : string) (existing : option (Z * Denial.t))
    (creating_professional : Z) (data : DenialData)
    : Handler DenialResponseInfo :=
  match existing with
  | Some (pk, d) =>
      modify (upd_denial
                <[pk:=Denial.mk (Denial.uuid d) (data_patient_user data)
                        (data_primary_professional data)
                        (Denial.creating_professional d)
                        (Denial.professional_to_finish d)
                        (Denial.qa_context d) (Denial.fax_phone d)]>);;
      ret (mkDenialResponseInfo (Denial.uuid d) pk None)
  | None =>
      let* pk := gets (λ w, next_pk (denial w)) in
      modify (upd_denial
                <[pk:=Denial.mk fresh (data_patient_user data)
                        (data_primary_professional data)
                        (Some creating_professional) false None None]>);;
      ret (mkDenialResponseInfo fresh pk None)
  end.

Definition sample_view_logic (fresh : string) : CommonViewLogic :=
  {| format_denial_response_info pk d :=
       mkDenialResponseInfo (Denial.uuid d) pk None;
     create_or_update_denial := upsert_denial fresh;
     decrypted content := content |}.

(** A calendar of thirty-day months for the examples. *)
Definition day : Z := 24 * 3600 * 1000000.

Definition sample_dateutil : Dateutil :=
  {| add_months t n := t + n * 30 * day;
     date t := t `div` day |}.

Definition an_appeal (uuid : string) (for_denial : Z) (patient_user : option Z)
    (pending sent success : bool) (response_date : option Z) (mod_date : Z)
    : Appeal.t :=
  Appeal.mk uuid for_denial patient_user (Some 1) (Some 1) pending false false
    sent success false None (Some "Dear insurer") None response_date mod_date
    (mod_date `div` day).

(** A practice: the professional carol (user 1, professional 1), the
    professional dave (user 4, professional 2) who is on no record, and
    the patient pat (user 3, patient 1).
    - Denial 1 has no patient and is marked "professional must finish";
      appeal 1 is its pending appeal.
    - Denial 2 is pat's, marked the same; appeal 2 is its pending appeal.
    - Denial 3 has two appeals: appeal 3, sent and won, and appeal 4, sent
      and answered without success. *)
Definition practice : World :=
  mkWorld
    {[ 1 := User.mk "carol" "carol@practice.example" "pw1" true;
       3 := User.mk "pat" "pat@home.example" "pw3" true;
       4 := User.mk "dave" "dave@practice.example" "pw4" true ]}
    {[ 1 := ProfessionalUser.mk 1 None true None;
       2 := ProfessionalUser.mk 4 None true None ]}
    {[ 1 := PatientUser.mk 3 true None ]}
    ∅ ∅ ∅ ∅ ∅ ∅
    {[ 1 := Denial.mk "d-1" None (Some 1) (Some 1) true None None;
       2 := Denial.mk "d-2" (Some 1) (Some 1) (Some 1) true None None;
       3 := Denial.mk "d-3" (Some 1) (Some 1) (Some 1) false None None ]}
    {[ 1 := an_appeal "a-1" 1 None true false false None (100 * day);
       2 := an_appeal "a-2" 2 (Some 1) true false false None (101 * day);
       3 := an_appeal "a-3" 3 (Some 1) false true true (Some (90 * day))
              (80 * day);
       4 := an_appeal "a-4" 3 (Some 1) false true false (Some (95 * day))
              (85 * day) ]}
    {[ 1 := AppealAttachment.mk 1 "ciphertext" "denial.pdf" "application/pdf" ]}
    ∅ [].

(** carol sends the fax of appeal 1. *)
Definition carol_sends_fax : RestViews.AppealViewSet.SendFaxRequest :=
  RestViews.AppealViewSet.mkSendFaxRequest (Some 1) 1 "555-0199".

(** pat sends the fax of appeal 2; carol sends it. *)
Definition pat_sends_fax : RestViews.AppealViewSet.SendFaxRequest :=
  RestViews.AppealViewSet.mkSendFaxRequest (Some 3) 2 "555-0199".

Definition carol_sends_fax_2 : RestViews.AppealViewSet.SendFaxRequest :=
  RestViews.AppealViewSet.mkSendFaxRequest (Some 1) 2 "555-0199".

(** carol updates denial 3. *)
Definition carol_updates_denial_3 : RestViews.DenialViewSet.Request :=
  RestViews.DenialViewSet.mkRequest (Some 1) (Some 1) (Some 3) (Some 1) "updated".

(** carol updates denial 2; carol files a new denial. *)
Definition carol_updates_denial_2 : RestViews.DenialViewSet.Request :=
  RestViews.DenialViewSet.mkRequest (Some 1) (Some 1) (Some 2) (Some 1) "updated".

Definition carol_files_denial : RestViews.DenialViewSet.Request :=
  RestViews.DenialViewSet.mkRequest (Some 1) (Some 1) None (Some 1) "new".

Definition noon : Ambient := mkAmbient (120 * day) 120 "a-new".

(** Fifteen appeals of carol, modified on fifteen different days. *)
Definition archive : World :=
  mkWorld
    {[ 1 := User.mk "carol" "carol@practice.example" "pw1" true ]}
    {[ 1 := ProfessionalUser.mk 1 None true None ]}
    ∅ ∅ ∅ ∅ ∅ ∅ ∅ ∅
    (list_to_map
       ((λ i, (i, an_appeal "appeal" 1 None true false false None (i * day)))
          <$> seqZ 1 15))
    ∅ ∅ [].

Definition second_page : RestViews.AppealViewSet.SearchRequest :=
  RestViews.AppealViewSet.mkSearchRequest (Some 1) (Some "APPEAL")
    (RestViews.AppealViewSet.IntText 10) (RestViews.AppealViewSet.IntText 2).

End Examples.

(** ** More example worlds *)

Module MoreExamples.

Import Examples.

(** The practice of [clinic], whose subscription the payment provider has
    lost. *)
Definition clinic_without_subscription : World :=
  upd_stripe_subscriptions (λ _, ∅) clinic.

End MoreExamples.

(** ** More specification vocabulary *)

Module MoreSpec.

(** [pk] holds [row], and it is the only row of the table that satisfies
    [P]: what [QuerySet.get] needs to answer. *)
Definition only_row {K A} `{Countable K}
    (P : K → A → bool) (table : gmap K A) (pk : K) (row : A) : Prop :=
  table !! pk = Some row
  ∧ P pk row = true
  ∧ ∀ pk' row', table !! pk' = Some row' → P pk' row' = true → pk' = pk.

(** The activation token of user [uid] with text [token]. *)
Definition is_verification_token (uid : Z) (token : string)
    (pk : Z) (t : VerificationToken.t) : bool :=
  (VerificationToken.user t =? uid)%Z
  && String.eqb (VerificationToken.token t) token.

(** The reset token with text [token]. *)
Definition is_reset_token (token : string) (pk : Z) (t : ResetToken.t) : bool :=
  String.eqb (ResetToken.token t) token.

End MoreSpec.

(** ** fhi_users/auth/rest_auth_views.py, the other actions

    The history keeps the writes the handlers above log; a write to another
    table shows in the table. *)

(** The helpers [resolve_domain_id] and [combine_domain_and_username] of
    [fhi_users.auth.auth_utils], the mailer of [fhi_users.emails] and the
    text [str(e)] of an exception are not part of the sources examined.
    The first reads the world and answers or raises; the mailer sends or
    raises, and writes nothing. *)
Class LoginUtils : Type := {
  resolve_domain_id : World → option string → option string → exn + string;
  combine_domain_and_username : string → option string → string → exn + string;
  send_password_reset_email : string → string → exn + unit;
  str : exn → string;
}.

Module RestAuthViewsMore.

Import RestAuthViews.

Module PasswordResetViewSet.

(** The validated data of [RequestPasswordResetFormSerializer]. *)
Record Request : Type := mkRequest {
  username : string;
  domain : option string;
  phone : option string;
}.

(** [ResetToken.objects.filter(user=user).delete()]: every token of the
    user goes, each deletion logged. *)
Definition ResetToken_delete_of (upk : Z) : Handler unit :=
  modify (λ w,
    foldr (λ row w', record (DeleteResetToken row.1) w')
      (upd_resettoken
         (filter (λ kv, ResetToken.user kv.2 ≠ upk)) w)
      (map_to_list
         (objects_filter (λ _ t, (ResetToken.user t =? upk)%Z) (resettoken w)))).

(** [ResetToken.objects.create(user=user)]: the token text is a fresh
    [uuid4]; [save] finds no expiry and no creation time yet and sets the
    expiry a day from now. *)
Definition ResetToken_create (env : Ambient) (upk : Z)
    : Handler (Z * ResetToken.t) :=
  let* pk := gets (λ w, next_pk (resettoken w)) in
  let row :=
    ResetToken.mk upk (uuid4 env) (now env)
      (default_expires_at None None (now env)) in
  modify (upd_resettoken <[pk:=row]>);;
  ret (pk, row).

Definition reset_requested : Response :=
  mkResponse (StatusResponseSerializer "reset_requested" None) HTTP_200_OK.

Definition reset_request_failed `{LoginUtils} (e : exn) : Response :=
  mkResponse (StatusResponseSerializer "failure" (Some (str e)))
    HTTP_400_BAD_REQUEST.

Definition request_reset `{LoginUtils} (env : Ambient) (request : Request)
    : Handler Response :=
  try_except
    (let* domain_id :=
       query (λ w, resolve_domain_id w (domain request) (phone request)) in
     let* username :=
       query (λ _, combine_domain_and_username (username request)
                     (phone request) domain_id) in
     let* (upk, user) :=
       query (λ w, objects_get "User"
                     (λ _ u, String.eqb (User.username u) username)
                     (auth_user w)) in
     ResetToken_delete_of upk;;
     let* (_, reset_token) := ResetToken_create env upk in
     query (λ _, send_password_reset_email (User.email user)
                   (ResetToken.token reset_token));;
     ret reset_requested)
    (λ e, Some (ret (reset_request_failed e))).

End PasswordResetViewSet.

End RestAuthViewsMore.

(** ** Example collaborators and worlds for the other actions *)

Module MoreExamples2.

Import Examples.

(** Example helpers: the domain is the one stored under the given name or
    visible phone number, the login name is the raw user name, and the
    mailer delivers. *)
Definition sample_login_utils : LoginUtils :=
  {| resolve_domain_id w domain phone :=
       match objects_get "UserDomain"
               (λ _ d, bool_decide (UserDomain.name d = domain)
                       || bool_decide (Some (UserDomain.visible_phone_number d)
                                       = phone))
               (userdomain w) with
       | inr (pk, _) => inr pk
       | inl e => inl e
       end;
     combine_domain_and_username raw _ _ := inr raw;
     send_password_reset_email _ _ := inr tt;
     str _ := "error" |}.

(** The same, with a mailer that is down. *)
Definition mailer_down : LoginUtils :=
  {| resolve_domain_id := @resolve_domain_id sample_login_utils;
     combine_domain_and_username := @combine_domain_and_username sample_login_utils;
     send_password_reset_email _ _ := inl (OtherError "SMTP");
     str _ := "error" |}.

(** The practice of [clinic], where bob holds an old reset token and alice
    holds one too. *)
Definition reset_desk : World :=
  upd_resettoken
    (λ _, {[ 1 := ResetToken.mk 2 "old-bob" 0 1000;
             2 := ResetToken.mk 1 "alice-token" 0 5000 ]})
    clinic.

Definition bob_requests_reset : RestAuthViewsMore.PasswordResetViewSet.Request :=
  RestAuthViewsMore.PasswordResetViewSet.mkRequest "bob" (Some "clinic.example")
    None.

Definition zoe_requests_reset : RestAuthViewsMore.PasswordResetViewSet.Request :=
  RestAuthViewsMore.PasswordResetViewSet.mkRequest "zoe" (Some "clinic.example")
    None.

Definition morning : Ambient := mkAmbient 2000 0 "new-bob".

End MoreExamples2.

(** ** Vocabulary for the search pages *)

Module SearchSpec.

Import RestViews RestViews.AppealViewSet.

(** The rows a search answers with; none when it answers anything else. *)
Definition search_results `{FhiQueries} (request : SearchRequest) (w : World)
    : list SearchResult :=
  match (search request w).1 with
  | inr (mkResponse (SearchResultSerializer page) _) => results page
  | _ => []
  end.

(** The same search, asking for page [p]. *)
Definition with_page (p : Z) (request : SearchRequest) : SearchRequest :=
  mkSearchRequest (search_user request) (q request) (page_size request)
    (IntText p).

End SearchSpec.

(** ** More searches *)

Module SearchExamples.

Import RestViews RestViews.AppealViewSet Examples.

(** carol asks for the third page of five among her fifteen appeals. *)
Definition third_page_of_five : SearchRequest :=
  mkSearchRequest (Some 1) (Some "APPEAL") (IntText 5) (IntText 3).

(** carol searches without a query. *)
Definition no_query : SearchRequest :=
  mkSearchRequest (Some 1) None Absent Absent.

End SearchExamples.

(** ** More fax requests *)

Module FaxExamples.

Import RestViews RestViews.AppealViewSet Examples.

(** dave, who is on no record, sends the fax of appeal 2. *)
Definition dave_sends_fax_2 : SendFaxRequest :=
  mkSendFaxRequest (Some 4) 2 "555-0100".

End FaxExamples.

(** ** Vocabulary for the patient profiles *)

Module PatientSpec.

(** [PatientUser.user] is a one-to-one field: a user has at most one
    patient profile. *)
Definition one_profile_per_user (w : World) : Prop :=
  ∀ pk1 pk2 p1 p2,
    patientuser w !! pk1 = Some p1 → patientuser w !! pk2 = Some p2 →
    PatientUser.user p1 = PatientUser.user p2 → pk1 = pk2.

End PatientSpec.

(** ** More denial requests *)

Module DenialExamples.

Import RestViews RestViews.DenialViewSet Examples.

(** dave, who is on no record, updates denial 2. *)
Definition dave_updates_denial_2 : Request :=
  mkRequest (Some 4) None (Some 2) None "mine now".

(** pat, who has no professional profile, files a denial. *)
Definition pat_files_denial : Request :=
  mkRequest (Some 3) None None None "new".

End DenialExamples.

(** ** fhi_users/models.py, the methods of [UserDomain] *)

Definition upd_userdomain
    (f : gmap string UserDomain.t → gmap string UserDomain.t) (w : World) : World :=
  mkWorld (auth_user w) (professionaluser w) (patientuser w) (f (userdomain w))
    (professionaldomainrelation w) (patientdomainrelation w)
    (extrauserproperties w) (verificationtoken w) (resettoken w) (denial w)
    (appeal w) (appealattachment w) (stripe_subscriptions w) (history w).

Module UserDomainMethods.

Definition set_name (n : option string) (d : UserDomain.t) : UserDomain.t :=
  UserDomain.mk (UserDomain.stripe_subscription_id d) n (UserDomain.active d)
    (UserDomain.display_name d) (UserDomain.visible_phone_number d)
    (UserDomain.cover_template_string d).

(** The text after [prefix], when [s] starts with it. *)
Fixpoint strip_prefix (prefix s : string) : option string :=
  match prefix, s with
  | EmptyString, _ => Some s
  | String a prefix', String b s' =>
      if Ascii.eqb a b then strip_prefix prefix' s' else None
  | String _ _, EmptyString => None
  end.

(** [re.sub(r"^https?://(?:www\.)?|^www\.", "", name)].  Both alternatives
    are anchored at the start of the text, so at most one match is
    replaced: a scheme with the [www.] that may follow it, or a leading
    [www.].  The match is case sensitive. *)
Definition _clean_name (name : string) : string :=
  if String.eqb name "" then name
  else
    let scheme :=
      match strip_prefix "https://" name with
      | Some rest => Some rest
      | None => strip_prefix "http://" name
      end in
    match scheme with
    | Some rest => default rest (strip_prefix "www." rest)
    | None => default name (strip_prefix "www." name)
    end.

(** The two [unique=True] columns [name] and [visible_phone_number]: no
    other row holds the name of [self] (null names never clash) or its
    visible phone number. *)
Definition unique_among (pk : string) (self : UserDomain.t)
    (table : gmap string UserDomain.t) : Prop :=
  map_Forall
    (λ k d, k = pk
            ∨ (¬ (is_Some (UserDomain.name self)
                  ∧ UserDomain.name d = UserDomain.name self)
               ∧ UserDomain.visible_phone_number d
                 ≠ UserDomain.visible_phone_number self))
    table.

#[global] Instance unique_among_dec pk self table :
  Decision (unique_among pk self table).
Proof. unfold unique_among. apply _. Defined.

(** [UserDomain.save]: the name is cleaned when it is set, then the row is
    written under its primary key; the database refuses a row that breaks
    a [unique] column. *)
Definition save (pk : string) (self : UserDomain.t) : Handler UserDomain.t :=
  let self :=
    if truthy (UserDomain.name self)
    then set_name (Some (_clean_name (default "" (UserDomain.name self)))) self
    else self in
  let* free := gets (λ w, bool_decide (unique_among pk self (userdomain w))) in
  if free then
    modify (upd_userdomain <[pk:=self]>);;
    ret self
  else raise (OtherError "IntegrityError").

(** [UserDomain.find_by_name]. *)
Definition find_by_name (name : option string) (w : World)
    : gmap string UserDomain.t :=
  if truthy name then
    let cleaned_name := _clean_name (default "" name) in
    objects_filter
      (λ _ d, bool_decide (UserDomain.name d = Some cleaned_name))
      (userdomain w)
  else ∅.

(** [UserDomain.get_professional_users] with its relation filters: the
    professional of each relation of the domain that passes the filters,
    one entry per relation. *)
Definition get_professional_users (w : World) (domain : string)
    (relation_filters : ProfessionalDomainRelation.t → bool)
    : exn + list (Z * ProfessionalUser.t) :=
  let relations :=
    objects_filter
      (λ _ r, String.eqb (ProfessionalDomainRelation.domain r) domain
              && relation_filters r)
      (professionaldomainrelation w) in
  foldr
    (λ relation rest,
       match professionaluser w !! ProfessionalDomainRelation.professional relation,
             rest with
       | Some p, inr l =>
           inr ((ProfessionalDomainRelation.professional relation, p) :: l)
       | None, _ => inl (DoesNotExist "ProfessionalUser")
       | _, inl e => inl e
       end)
    (inr []) (map_to_list relations).*2.

End UserDomainMethods.

Module UserRole.

Inductive t : Type := NONE | PATIENT | PROFESSIONAL | ADMIN.

Definition value (role : t) : string :=
  match role with
  | NONE => "none"
  | PATIENT => "patient"
  | PROFESSIONAL => "professional"
  | ADMIN => "admin"
  end.

Definition get_highest_role (is_patient is_professional is_admin : bool) : t :=
  if is_admin then ADMIN
  else if is_professional then PROFESSIONAL
  else if is_patient then PATIENT
  else NONE.

End UserRole.

Module DomainExamples.

Import Examples UserDomainMethods.

(** A practice that signs up under a web address. *)
Definition riverside : UserDomain.t :=
  UserDomain.mk None (Some "https://www.riverside.example") false "Riverside"
    "555-0142" None.

(** A practice whose name starts with [www.] twice. *)
Definition mirror : UserDomain.t :=
  UserDomain.mk None (Some "www.www.mirror.example") false "Mirror"
    "555-0143" None.

End DomainExamples.

(** ** fhi_users/auth/rest_auth_views.py, who am I and the listings *)

Module RestAuthViewsLists.

Import UserDomainMethods.

(** One row of [WhoAmiSerializer]. *)
Record WhoAmi : Type := mkWhoAmi {
  whoami_email : string;
  whoami_domain_name : option string;
  whoami_patient : bool;
  whoami_professional : bool;
  whoami_current_professional_id : option Z;
  whoami_highest_role : string;
  whoami_admin : bool;
}.

Inductive payload : Type :=
| ProfessionalSummary (professionals : list (Z * ProfessionalUser.t))
| PendingProfessionals (pending_professionals : list (Z * ProfessionalUser.t))
| WhoAmiSerializer (rows : list WhoAmi)
| ErrorSerializer (error : string).

Record Response : Type := mkResponse {
  data : payload;
  status : Z;
}.

Definition HTTP_200_OK : Z := 200.
Definition HTTP_400_BAD_REQUEST : Z := 400.
Definition HTTP_401_UNAUTHORIZED : Z := 401.

(** The session of a request: its user ([None] is the anonymous user) and
    its [domain_id] entry ([None] when the key is absent). *)
Record Request : Type := mkRequest {
  user : option Z;
  session_domain_id : option string;
}.

(** [request.session["domain_id"]]. *)
Definition session_item (request : Request) : exn + string :=
  match session_domain_id request with
  | Some domain_id => inr domain_id
  | None => inl (OtherError "KeyError")
  end.

(** [get_object_or_404(queryset)]: the queryset's [get()], whose
    [DoesNotExist] becomes an [Http404]; several rows still raise
    [MultipleObjectsReturned]. *)
Definition get_object_or_404_of {K A} `{Countable K}
    (model : string) (queryset : gmap K A) : exn + (K * A) :=
  match objects_get model (λ _ _, true) queryset with
  | inl (DoesNotExist _) => inl Http404
  | other => other
  end.

(** [ProfessionalUser.objects.get(user=current_user)]. *)
Definition professional_of (current_user : option Z) (w : World)
    : exn + (Z * ProfessionalUser.t) :=
  objects_get "ProfessionalUser"
    (λ _ p, bool_decide (Some (ProfessionalUser.user p) = current_user))
    (professionaluser w).

(** The filter [professional=..., domain=..., active=True] both listings
    check the caller by. *)
Definition active_relation_of (professional : Z) (domain : string)
    (pk : Z) (r : ProfessionalDomainRelation.t) : bool :=
  (ProfessionalDomainRelation.professional r =? professional)%Z
  && String.eqb (ProfessionalDomainRelation.domain r) domain
  && ProfessionalDomainRelation.active r.

Module ProfessionalUserViewSet.

Definition list_active_in_domain (request : Request) : Handler Response :=
  let* domain_id := query (λ _, session_item request) in
  let* (domain, _) :=
    query (λ w, objects_get "UserDomain" (λ k _, String.eqb k domain_id)
                  (userdomain w)) in
  let current_user := user request in
  let* professional_user := query (professional_of current_user) in
  let* (professional, _) := query (professional_of current_user) in
  query (λ w, get_object_or_404_of "ProfessionalDomainRelation"
                (objects_filter (active_relation_of professional domain)
                   (professionaldomainrelation w)));;
  let* professionals :=
    query (λ w, get_professional_users w domain
                  ProfessionalDomainRelation.active) in
  ret (mkResponse (ProfessionalSummary professionals) HTTP_200_OK).

Definition list_pending_in_domain (request : Request) : Handler Response :=
  let* domain_id := query (λ _, session_item request) in
  let* (domain, _) :=
    query (λ w, objects_get "UserDomain" (λ k _, String.eqb k domain_id)
                  (userdomain w)) in
  let current_user := user request in
  let* (professional, _) := query (professional_of current_user) in
  query (λ w, get_object_or_404_of "ProfessionalDomainRelation"
                (objects_filter (active_relation_of professional domain)
                   (professionaldomainrelation w)));;
  let* professionals :=
    query (λ w, get_professional_users w domain
                  ProfessionalDomainRelation.pending) in
  ret (mkResponse (PendingProfessionals professionals) HTTP_200_OK).

End ProfessionalUserViewSet.

Module WhoAmIViewSet.

Definition no_domain_in_session : Response :=
  mkResponse (ErrorSerializer "Domain ID not found in session")
    HTTP_400_BAD_REQUEST.

Definition not_authenticated : Response :=
  mkResponse (ErrorSerializer "User is not authenticated") HTTP_401_UNAUTHORIZED.

Definition list (request : Request) : Handler Response :=
  match user request with
  | Some uid =>
      let domain_id := session_domain_id request in
      if negb (truthy domain_id) then ret no_domain_in_session
      else
        let* (domain, user_domain) :=
          query (λ w, objects_get "UserDomain"
                        (λ k _, String.eqb k (default "" domain_id))
                        (userdomain w)) in
        let* patient :=
          try_except
            (query (λ w, objects_get "PatientUser"
                           (λ _ p, (PatientUser.user p =? uid)%Z
                                   && PatientUser.active p)
                           (patientuser w));;
             ret true)
            (catch_only (DoesNotExist "PatientUser") (ret false)) in
        let* (professional, professional_id, admin) :=
          try_except
            (let* (_professional, _) :=
               query (λ w, objects_get "ProfessionalUser"
                             (λ _ p, (ProfessionalUser.user p =? uid)%Z
                                     && ProfessionalUser.active p)
                             (professionaluser w)) in
             let* admin :=
               try_except
                 (query (λ w, objects_get "ProfessionalDomainRelation"
                                (λ pk r, active_relation_of _professional domain pk r
                                         && ProfessionalDomainRelation.admin r)
                                (professionaldomainrelation w));;
                  ret true)
                 (catch_only (DoesNotExist "ProfessionalDomainRelation")
                    (ret false)) in
             ret (true, Some _professional, admin))
            (catch_only (DoesNotExist "ProfessionalUser")
               (ret (false, None, false))) in
        let highest_role :=
          UserRole.get_highest_role patient professional admin in
        let* email :=
          query (λ w, match auth_user w !! uid with
                      | Some u => inr (User.email u)
                      | None => inl AttributeError
                      end) in
        ret (mkResponse
               (WhoAmiSerializer
                  [mkWhoAmi email (UserDomain.name user_domain) patient
                     professional professional_id
                     (UserRole.value highest_role) admin])
               HTTP_200_OK)
  | None => ret not_authenticated
  end.

End WhoAmIViewSet.

End RestAuthViewsLists.

(** ** Vocabulary for the listings *)

Module ListSpec.

(** Every relation names a stored professional: the foreign key
    [ProfessionalDomainRelation.professional]. *)
Definition relations_have_professionals (w : World) : Prop :=
  map_Forall
    (λ _ r, is_Some (professionaluser w
                       !! ProfessionalDomainRelation.professional r))
    (professionaldomainrelation w).

#[global] Instance relations_have_professionals_dec w :
  Decision (relations_have_professionals w).
Proof. unfold relations_have_professionals. apply _. Defined.

(** The professional [pid] has a relation to [domain] that passes
    [relation_filters]. *)
Definition has_relation (w : World) (domain : string)
    (relation_filters : ProfessionalDomainRelation.t → bool) (pid : Z) : Prop :=
  ∃ pk r,
    professionaldomainrelation w !! pk = Some r
    ∧ ProfessionalDomainRelation.domain r = domain
    ∧ relation_filters r = true
    ∧ ProfessionalDomainRelation.professional r = pid.

End ListSpec.

Module ListExamples.

Import Examples RestAuthViewsLists.

(** alice, the admin of the clinic, and bob, whose membership is pending,
    each with the clinic in their session. *)
Definition alice_lists : Request := mkRequest (Some 1) (Some "clinic").

Definition bob_lists : Request := mkRequest (Some 2) (Some "clinic").

End ListExamples.

(** ** fighthealthinsurance/rest_views.py, the attachments of an appeal *)

Definition upd_appealattachment
    (f : gmap Z AppealAttachment.t → gmap Z AppealAttachment.t) (w : World)
    : World :=
  mkWorld (auth_user w) (professionaluser w) (patientuser w) (userdomain w)
    (professionaldomainrelation w) (patientdomainrelation w)
    (extrauserproperties w) (verificationtoken w) (resettoken w) (denial w)
    (appeal w) (f (appealattachment w)) (stripe_subscriptions w) (history w).

(** What the file field of [AppealAttachment], a model that is not part of
    the sources examined, keeps of an uploaded file. *)
Class FileStorage : Type := {
  stored : string → string;
}.

Module RestViewsAttachments.

Inductive payload : Type :=
| NoData
| ErrorSerializer (error : string)
| AppealAttachmentSerializer (pk : Z) (row : AppealAttachment.t)
| AppealAttachmentsSerializer (rows : list (Z * AppealAttachment.t)).

Record Response : Type := mkResponse {
  data : payload;
  status : Z;
}.

Definition HTTP_200_OK : Z := 200.
Definition HTTP_201_CREATED : Z := 201.
Definition HTTP_204_NO_CONTENT : Z := 204.
Definition HTTP_400_BAD_REQUEST : Z := 400.

(** The validated data of [AppealAttachmentUploadSerializer]. *)
Record Upload : Type := mkUpload {
  upload_appeal_id : Z;
  file_content : string;
  file_name : string;
  file_content_type : string;
}.

Module AppealAttachmentViewSet.

Definition appeal_id_required : Response :=
  mkResponse (ErrorSerializer "appeal_id required") HTTP_400_BAD_REQUEST.

(** [appeal_id] is the query parameter: [None] when it is absent or
    empty. *)
Definition list `{FhiQueries} (current_user : option Z) (appeal_id : option Z)
    : Handler Response :=
  match appeal_id with
  | None => ret appeal_id_required
  | Some appeal_id =>
      let* (appeal, _) :=
        query (λ w, get_object_or_404
                      (filter_to_allowed_appeals w current_user) appeal_id) in
      let* attachments :=
        gets (λ w, objects_filter
                     (λ _ t, (AppealAttachment.appeal t =? appeal)%Z)
                     (appealattachment w)) in
      ret (mkResponse (AppealAttachmentsSerializer (map_to_list attachments))
             HTTP_200_OK)
  end.

Definition create `{FhiQueries} `{FileStorage}
    (current_user : option Z) (upload : Upload) : Handler Response :=
  let* (appeal, _) :=
    query (λ w, get_object_or_404
                  (filter_to_allowed_appeals w current_user)
                  (upload_appeal_id upload)) in
  let* pk := gets (λ w, next_pk (appealattachment w)) in
  let attachment :=
    AppealAttachment.mk appeal (stored (file_content upload))
      (file_name upload) (file_content_type upload) in
  modify (upd_appealattachment <[pk:=attachment]>);;
  ret (mkResponse (AppealAttachmentSerializer pk attachment) HTTP_201_CREATED).

Definition destroy `{FhiQueries} (current_user : option Z) (pk : Z)
    : Handler Response :=
  let* (pk, _) :=
    query (λ w, get_object_or_404
                  (filter_to_allowed_attachments w current_user) pk) in
  modify (upd_appealattachment (delete pk));;
  ret (mkResponse NoData HTTP_204_NO_CONTENT).

End AppealAttachmentViewSet.

End RestViewsAttachments.

Module AttachmentExamples.

Import RestViewsAttachments.

(** Files are kept as they come. *)
Definition plain_storage : FileStorage := {| stored content := content |}.

(** A letter for appeal 2. *)
Definition letter : Upload := mkUpload 2 "Dear insurer" "letter.txt" "text/plain".

End AttachmentExamples.

(** ** fighthealthinsurance/rest_views.py, the answers to a denial's questions

    [DenialQA] is a model that is not part of the sources examined; the
    record carries the columns [QAResponseViewSet] reads and writes.  Its
    table is kept beside the world. *)

Module DenialQA.
Record t : Type := mk {
  denial : Z;
  question : string;
  text_answer : string;
}.
Definition set_text_answer (value : string) (dqa : t) : t :=
  mk (denial dqa) (question dqa) value.
End DenialQA.

Record QAWorld : Type := mkQAWorld {
  world : World;
  denialqa : gmap Z DenialQA.t;
}.

Definition upd_world (f : World → World) (s : QAWorld) : QAWorld :=
  mkQAWorld (f (world s)) (denialqa s).

Definition upd_denialqa (f : gmap Z DenialQA.t → gmap Z DenialQA.t)
    (s : QAWorld) : QAWorld :=
  mkQAWorld (world s) (f (denialqa s)).

Definition Denial_set_qa_context (qa_context : option string) (d : Denial.t)
    : Denial.t :=
  Denial.mk (Denial.uuid d) (Denial.patient_user d)
    (Denial.primary_professional d) (Denial.creating_professional d)
    (Denial.professional_to_finish d) qa_context (Denial.fax_phone d).

Module QAResponseViewSet.

Import RestViews.

(** The validated data of [QAResponsesSerializer]: [qa] is the dictionary,
    in the order of its keys. *)
Record Request : Type := mkRequest {
  user : option Z;
  denial_id : Z;
  qa : list (string * string);
}.

Definition newline : string := String (ascii_of_nat 10) EmptyString.

(** The body of the loop over the dictionary, for a key and a value that
    are not blank: the answer of the denial to the question is updated, or
    created when there is none. *)
Definition upsert_answer (denial : Z) (key value : string) : M QAWorld unit :=
  try_except
    (let* (pk, dqa) :=
       query (λ s, objects_get "DenialQA"
                     (λ _ q, String.eqb (DenialQA.question q) key)
                     (objects_filter (λ _ q, (DenialQA.denial q =? denial)%Z)
                        (denialqa s))) in
     let dqa := DenialQA.set_text_answer value dqa in
     modify (upd_denialqa <[pk:=dqa]>))
    (catch_only (DoesNotExist "DenialQA")
       (let* pk := gets (λ s, next_pk (denialqa s)) in
        modify (upd_denialqa <[pk:=DenialQA.mk denial key value]>))).

Fixpoint upsert_answers (denial : Z) (qa : list (string * string))
    : M QAWorld unit :=
  match qa with
  | [] => ret tt
  | (key, value) :: rest =>
      (if String.eqb key "" || String.eqb value "" then ret tt
       else upsert_answer denial key value);;
      upsert_answers denial rest
  end.

(** The order of the primary keys. *)
Definition by_pk (x y : Z * DenialQA.t) : Prop := x.1 ≤ y.1.

#[global] Instance by_pk_dec x y : Decision (by_pk x y).
Proof. unfold by_pk. apply _. Defined.

(** The text built from [values_list("question", "text_answer")].  The
    queryset has no ordering of its own; the rows are taken in the order
    of their primary keys. *)
Definition qa_context_of (denial : Z) (table : gmap Z DenialQA.t) : string :=
  foldl
    (λ qa_context row,
       String.append qa_context
         (String.append (DenialQA.question row)
            (String.append ": "
               (String.append (DenialQA.text_answer row) newline))))
    ""
    (merge_sort by_pk
       (map_to_list
          (objects_filter (λ _ q, (DenialQA.denial q =? denial)%Z) table))).*2.

Definition no_content : Response := mkResponse NoData HTTP_204_NO_CONTENT.

Definition perform_create `{FhiQueries} (request : Request)
    : M QAWorld Response :=
  let* (pk, denial) :=
    query (λ s, objects_get "Denial" (λ k _, (k =? denial_id request)%Z)
                  (filter_to_allowed_denials (world s) (user request))) in
  upsert_answers pk (qa request);;
  let* qa_context := gets (λ s, qa_context_of pk (denialqa s)) in
  let denial := Denial_set_qa_context (Some qa_context) denial in
  modify (upd_world (upd_denial <[pk:=denial]>));;
  ret no_content.

End QAResponseViewSet.

(** ** Vocabulary for the answers *)

Module QASpec.

(** The pair (denial, question) is a key of the table: what the upsert of
    [QAResponseViewSet] keeps. *)
Definition qa_wf (table : gmap Z DenialQA.t) : Prop :=
  ∀ pk1 pk2 q1 q2,
    table !! pk1 = Some q1 → table !! pk2 = Some q2 →
    DenialQA.denial q1 = DenialQA.denial q2 →
    DenialQA.question q1 = DenialQA.question q2 →
    pk1 = pk2.

(** The stored answer of a denial to a question. *)
Definition has_answer (table : gmap Z DenialQA.t) (denial : Z)
    (question value : string) : Prop :=
  ∃ pk, table !! pk = Some (DenialQA.mk denial question value).

(** The entry is one the loop skips. *)
Definition blank (entry : string * string) : Prop :=
  entry.1 = "" ∨ entry.2 = "".

End QASpec.

Module QAExamples.

Import Examples QAResponseViewSet.

(** The practice, with one answer on denial 2. *)
Definition intake : QAWorld :=
  mkQAWorld practice {[ 1 := DenialQA.mk 2 "Diagnosis" "unknown" ]}.

(** carol answers two questions of denial 2, and leaves one blank. *)
Definition carol_answers : Request :=
  mkRequest (Some 1) 2
    [("Diagnosis", "asthma"); ("Medication", ""); ("Urgent", "yes")].

End QAExamples.

(** ** fighthealthinsurance/rest_views.py, notifying the patient

    The first and last name of a user are columns of the framework's user
    model that no handler here writes; they are given by the user's key.
    The mails of [PatientNotificationHelper] are kept in an outbox beside
    the world. *)

Class UserNames : Type := {
  first_name : Z → string;
  last_name : Z → string;
}.

Module ProfessionalUserMethods.

(** [ProfessionalUser.get_display_name]. *)
Definition get_display_name `{UserNames} (w : World) (self : ProfessionalUser.t)
    : exn + string :=
  if truthy (ProfessionalUser.display_name self) then
    inr (default "" (ProfessionalUser.display_name self))
  else
    match auth_user w !! ProfessionalUser.user self with
    | Some u =>
        if (0 <? String.length (first_name (ProfessionalUser.user self)))%nat
        then inr (String.append (first_name (ProfessionalUser.user self))
                    (String.append " " (last_name (ProfessionalUser.user self))))
        else inr (User.email u)
    | None => inl (DoesNotExist "User")
    end.

End ProfessionalUserMethods.

Definition Appeal_set_patient_visible (b : bool) (a : Appeal.t) : Appeal.t :=
  Appeal.mk (Appeal.uuid a) (Appeal.for_denial a) (Appeal.patient_user a)
    (Appeal.primary_professional a) (Appeal.creating_professional a)
    (Appeal.pending a) (Appeal.pending_patient a) (Appeal.pending_professional a)
    (Appeal.sent a) (Appeal.success a) b (Appeal.fax_number a)
    (Appeal.appeal_text a) (Appeal.response_text a) (Appeal.response_date a)
    (Appeal.mod_date a) (Appeal.creation_date a).

Module RestViewsNotify.

Import ProfessionalUserMethods.

(** A mail of [PatientNotificationHelper]. *)
Inductive Notice : Type :=
| SignupInvitation (email : string) (professional_name : option string)
    (practice_number : string)
| DraftAppeal (email : string) (professional_name : option string)
    (practice_number : string).

Record Outbox : Type := mkOutbox {
  box_world : World;
  notices : list Notice;
}.

(** A handler of the world, run beside the outbox. *)
Definition lift {A} (m : Handler A) : M Outbox A :=
  λ s, let (result, w) := m (box_world s) in (result, mkOutbox w (notices s)).

Definition send (notice : Notice) : M Outbox unit :=
  modify (λ s, mkOutbox (box_world s) (notices s ++ [notice])).

Inductive payload : Type :=
| SuccessSerializer (message : string)
| ErrorSerializer (error : string).

Record Response : Type := mkResponse {
  data : payload;
  status : Z;
}.

Definition HTTP_200_OK : Z := 200.
Definition HTTP_404_NOT_FOUND : Z := 404.

(** The validated data of [NotifyPatientRequestSerializer], with the
    session's user and [domain_id] entry; [include_professional] is false
    when the key is absent. *)
Record Request : Type := mkRequest {
  user : option Z;
  session_domain_id : option string;
  id : Z;
  include_professional : bool;
}.

Module AppealViewSet.

Definition patient_not_found : Response :=
  mkResponse (ErrorSerializer "Patient not found") HTTP_404_NOT_FOUND.

Definition notification_sent : Response :=
  mkResponse (SuccessSerializer "Notification sent") HTTP_200_OK.

(** [ProfessionalUser.objects.get(user=current_user).get_display_name()]
    when the professional is to be named. *)
Definition professional_name_of `{UserNames} (request : Request) (w : World)
    : exn + option string :=
  if include_professional request then
    match objects_get "ProfessionalUser"
            (λ _ p, bool_decide (Some (ProfessionalUser.user p) = user request))
            (professionaluser w) with
    | inr (_, professional) =>
        match get_display_name w professional with
        | inr name => inr (Some name)
        | inl e => inl e
        end
    | inl e => inl e
    end
  else inr None.

(** [UserDomain.objects.get(id=request.session["domain_id"])
    .visible_phone_number]. *)
Definition practice_number_of (request : Request) (w : World) : exn + string :=
  match session_domain_id request with
  | Some domain_id =>
      match objects_get "UserDomain" (λ k _, String.eqb k domain_id)
              (userdomain w) with
      | inr (_, domain) => inr (UserDomain.visible_phone_number domain)
      | inl e => inl e
      end
  | None => inl (OtherError "KeyError")
  end.

Definition notify_patient `{FhiQueries} `{UserNames} (request : Request)
    : M Outbox Response :=
  let current_user := user request in
  let* (pk, appeal) :=
    lift (query (λ w, get_object_or_404
                        (filter_to_allowed_appeals w current_user)
                        (id request))) in
  (if negb (Appeal.patient_visible appeal) then
     lift (Appeal_save pk (Appeal_set_patient_visible true appeal))
   else ret tt);;
  match Appeal.patient_user appeal with
  | None => ret patient_not_found
  | Some patient =>
      let* (_, patient_user) :=
        lift (query (λ w, objects_get "PatientUser" (λ k _, (k =? patient)%Z)
                            (patientuser w))) in
      let* professional_name := lift (query (professional_name_of request)) in
      let* (_, user) :=
        lift (query (λ w, objects_get "User"
                            (λ k _, (k =? PatientUser.user patient_user)%Z)
                            (auth_user w))) in
      let* practice_number := lift (query (practice_number_of request)) in
      (if negb (User.is_active user) then
         send (SignupInvitation (User.email user) professional_name
                 practice_number)
       else
         send (DraftAppeal (User.email user) professional_name
                 practice_number));;
      ret notification_sent
  end.

End AppealViewSet.

End RestViewsNotify.

Module NotifyExamples.

Import Examples RestViewsNotify.

Definition no_names : UserNames :=
  {| first_name _ := ""; last_name _ := "" |}.

(** The practice, registered as a domain, with an empty outbox. *)
Definition practice_desk : Outbox :=
  mkOutbox
    (upd_userdomain
       <["practice" := UserDomain.mk None (Some "practice.example") true
                         "Practice" "555-0177" None]> practice)
    [].

(** carol notifies the patient of appeal 2, which is pat's, and of appeal
    1, which has no patient. *)
Definition carol_notifies_pat : Request :=
  mkRequest (Some 1) (Some "practice") 2 true.

Definition carol_notifies_nobody : Request :=
  mkRequest (Some 1) (Some "practice") 1 false.

End NotifyExamples.

(** ** fhi_users/auth/rest_auth_views.py, logging in

    The session of the request is kept beside the world. *)

Module RestLogin.

Import RestAuthViews.

(** The session of the browser, by its keys: [domain_id], which is the
    view's own, and Django's [SESSION_KEY], [BACKEND_SESSION_KEY] and
    [HASH_SESSION_KEY].  The key of the session itself (the cookie) and
    the CSRF token, which a login renews, hold no data of the application
    and are left out. *)
Record Session : Type := mkSession {
  session_domain_id : option string;
  session_user : option Z;
  session_backend : option string;
  session_auth_hash : option string;
}.

(** What [request.session.flush()] leaves. *)
Definition empty_session : Session := mkSession None None None None.

(** What a login reads and writes: the tables of the world, the
    [last_login] column of [auth_user], which no other handler reads or
    writes and which is kept beside the rows, and the session. *)
Record Browser : Type := mkBrowser {
  site : World;
  last_login : gmap Z Z;
  session : Session;
}.

Definition ModelBackend : string := "django.contrib.auth.backends.ModelBackend".

(** [user.get_session_auth_hash()]: an HMAC of the password column under
    the secret key of the site.  It is modelled by the column itself: two
    hashes are equal exactly when the password columns are. *)
Definition get_session_auth_hash (u : User.t) : string := User.password u.

(** [django.contrib.auth.authenticate] with the model backend: the user of
    that name, when the password is theirs and they are active.  The
    password column is taken to be in the format of the current hasher, so
    that checking it rewrites nothing. *)
Definition authenticate (w : World) (username password : string)
    : exn + option (Z * User.t) :=
  match objects_get "User" (λ _ u, String.eqb (User.username u) username)
          (auth_user w) with
  | inr (pk, user) =>
      if String.eqb (User.password user) password && User.is_active user
      then inr (Some (pk, user))
      else inr None
  | inl (DoesNotExist _) => inr None
  | inl e => inl e
  end.

(** [django.contrib.auth.login].  A session that has a user is flushed
    when that user is another one, or when its hash is not the hash of
    this user's password: all its data is lost.  A session without a user
    only changes its key and keeps its data.  Then the three keys of the
    login are set, and the [user_logged_in] signal runs
    [update_last_login], which saves the current time in the [last_login]
    of the user. *)
Definition login (env : Ambient) (uid : Z) (user : User.t) : M Browser unit :=
  let session_auth_hash' := get_session_auth_hash user in
  modify (λ s,
    let kept :=
      match session_user (session s) with
      | Some owner =>
          if bool_decide (owner ≠ uid)
             || bool_decide (session_auth_hash (session s)
                             ≠ Some session_auth_hash')
          then empty_session
          else session s
      | None => session s
      end in
    mkBrowser (site s) (<[uid := now env]> (last_login s))
      (mkSession (session_domain_id kept) (Some uid) (Some ModelBackend)
         (Some session_auth_hash'))).

Module RestLoginView.

(** The validated data of [LoginFormSerializer]. *)
Record Request : Type := mkRequest {
  username : string;
  password : string;
  domain : option string;
  phone : option string;
}.

Definition domain_not_found `{LoginUtils} (e : exn) : Response :=
  mkResponse
    (StatusResponseSerializer "failure"
       (Some (String.append "Domain or phone number not found -- " (str e))))
    HTTP_400_BAD_REQUEST.

Definition logged_in : Response :=
  mkResponse (StatusResponseSerializer "success" None) HTTP_200_OK.

Definition user_is_inactive : Response :=
  mkResponse
    (StatusResponseSerializer "failure"
       (Some "User is inactive -- please verify your e-mail"))
    HTTP_401_UNAUTHORIZED.

Definition invalid_credentials : Response :=
  mkResponse (StatusResponseSerializer "failure" (Some "Invalid credentials"))
    HTTP_401_UNAUTHORIZED.

(** [request.session["domain_id"] = domain_id]. *)
Definition set_session_domain_id (domain_id : string) : M Browser unit :=
  modify (λ s,
    mkBrowser (site s) (last_login s)
      (mkSession (Some domain_id) (session_user (session s))
         (session_backend (session s)) (session_auth_hash (session s)))).

(** The view stores the domain in the session before it calls Django's
    [login]. *)
Definition login `{LoginUtils} (env : Ambient) (request : Request)
    : M Browser Response :=
  let* resolved :=
    try_except
      (let* domain_id :=
         query (λ s, resolve_domain_id (site s) (domain request)
                       (phone request)) in
       let* username :=
         query (λ _, combine_domain_and_username (username request)
                       (phone request) domain_id) in
       ret (inr (domain_id, username) : Response + string * string))
      (λ e, Some (ret (inl (domain_not_found e)))) in
  match resolved with
  | inl response => ret response
  | inr (domain_id, username) =>
      let* user :=
        query (λ s, authenticate (site s) username (password request)) in
      match user with
      | Some (uid, user) =>
          set_session_domain_id domain_id;;
          RestLogin.login env uid user;;
          ret logged_in
      | None =>
          let* inactive :=
            try_except
              (let* (_, user) :=
                 query (λ s, objects_get "User"
                               (λ _ u, String.eqb (User.username u) username)
                               (auth_user (site s))) in
               ret (negb (User.is_active user)))
              (catch_only (DoesNotExist "User") (ret false)) in
          if inactive then ret user_is_inactive
          else ret invalid_credentials
      end
  end.

End RestLoginView.

End RestLogin.

(** ** Vocabulary for logging in *)

Module LoginSpec.

Import RestLogin.

(** The session is of another login: of another user, or of this user
    under another password. *)
Definition of_another_login (sess : Session) (uid : Z) (u : User.t) : Prop :=
  ∃ owner,
    session_user sess = Some owner
    ∧ (owner ≠ uid ∨ session_auth_hash sess ≠ Some (get_session_auth_hash u)).

End LoginSpec.

Module LoginExamples.

Import Examples MoreExamples2 RestLogin RestLogin.RestLoginView.

(** The clinic, where bob has not verified his e-mail yet, and a browser
    without a session. *)
Definition front_door : Browser :=
  mkBrowser
    (upd_auth_user <[2 := User.mk "bob" "bob@clinic.example" "pw2" false]> clinic)
    ∅ empty_session.

(** The same clinic, in a browser where user 3 is logged in on the domain
    "other". *)
Definition shared_desk : Browser :=
  mkBrowser (site front_door) {[3 := 1000]}
    (mkSession (Some "other") (Some 3) (Some ModelBackend) (Some "pw3")).

Definition alice_logs_in : Request :=
  mkRequest "alice" "pw1" (Some "clinic.example") None.

(** Someone tries bob's account with a guessed password. *)
Definition guess_bob : Request :=
  mkRequest "bob" "guess" (Some "clinic.example") None.

End LoginExamples.

(** * Properties *)

(** ** Querysets *)

Section querysets.
Context {K A : Type} `{Countable K}.
Implicit Types (P : K → A → bool) (table : gmap K A).

Lemma objects_filter_lookup_Some P table k row :
  objects_filter P table !! k = Some row ↔ table !! k = Some row ∧ P k row = true.
Proof.
  unfold objects_filter. rewrite map_lookup_filter_Some. simpl.
  by rewrite Is_true_true.
Qed.

Lemma objects_filter_lookup_None P table k :
  objects_filter P table !! k = None ↔
  ∀ row, table !! k = Some row → P k row = false.
Proof.
  unfold objects_filter. rewrite map_lookup_filter_None. simpl. split.
  - intros [Hnone | Hno] row Hrow; [congruence |].
    specialize (Hno row Hrow). by destruct (P k row).
  - intros Hno. destruct (table !! k) as [row |] eqn:Hrow; [right | by left].
    intros row' [= <-]. rewrite (Hno row eq_refl). by intros [].
Qed.

Lemma objects_get_found model P table k row :
  table !! k = Some row → P k row = true →
  (∀ k' row', table !! k' = Some row' → P k' row' = true → k' = k) →
  objects_get model P table = inr (k, row).
Proof.
  intros Hrow HP Huniq. unfold objects_get.
  assert (objects_filter P table = {[k := row]}) as ->.
  { apply map_eq. intros k'. destruct (decide (k' = k)) as [-> | Hne].
    - rewrite lookup_singleton_eq. by apply objects_filter_lookup_Some.
    - rewrite lookup_singleton_ne by done.
      apply objects_filter_lookup_None. intros row' Hrow'.
      destruct (P k' row') eqn:HP'; [| done].
      exfalso. apply Hne. by eapply Huniq. }
  by rewrite map_to_list_singleton.
Qed.

Lemma objects_get_missing model P table :
  (∀ k row, table !! k = Some row → P k row = false) →
  objects_get model P table = inl (DoesNotExist model).
Proof.
  intros Hno. unfold objects_get.
  assert (objects_filter P table = ∅) as ->.
  { apply map_eq. intros k. rewrite lookup_empty.
    apply objects_filter_lookup_None. eauto. }
  by rewrite map_to_list_empty.
Qed.

Lemma objects_get_inr model P table k row :
  objects_get model P table = inr (k, row) →
  table !! k = Some row ∧ P k row = true
  ∧ ∀ k' row', table !! k' = Some row' → P k' row' = true → k' = k.
Proof.
  unfold objects_get. intros Hget.
  destruct (map_to_list (objects_filter P table)) as [| kv [| kv' l]] eqn:Hl;
    simplify_eq.
  assert (objects_filter P table = {[k := row]}) as Hf.
  { rewrite <- (list_to_map_to_list (objects_filter P table)), Hl. simpl.
    by rewrite insert_empty. }
  assert (∀ k' row', objects_filter P table !! k' = Some row' →
                     k' = k ∧ row' = row) as Hone.
  { intros k' row'. rewrite Hf. intros Hk'.
    by apply lookup_singleton_Some in Hk' as [-> ->]. }
  assert (objects_filter P table !! k = Some row) as Hk
    by (by rewrite Hf, lookup_singleton_eq).
  apply objects_filter_lookup_Some in Hk as [Hk HP].
  split_and!; [done | done |].
  intros k' row' Hk' HP'.
  by destruct (Hone k' row') as [-> _];
    [apply objects_filter_lookup_Some |].
Qed.

Lemma objects_get_DoesNotExist model model' P table :
  objects_get model P table = inl (DoesNotExist model') →
  ∀ k row, table !! k = Some row → P k row = false.
Proof.
  unfold objects_get. intros Hget k row Hrow.
  destruct (map_to_list (objects_filter P table)) as [| kv [| kv' l]] eqn:Hl;
    simplify_eq.
  apply map_to_list_empty_iff in Hl.
  assert (objects_filter P table !! k = None) as Hk
    by (by rewrite Hl, lookup_empty).
  rewrite objects_filter_lookup_None in Hk. eauto.
Qed.

End querysets.

(** A lookup by primary key. *)
Lemma objects_get_pk {A} model (table : gmap Z A) (pk : Z) :
  objects_get model (λ k _, (k =? pk)%Z) table =
  match table !! pk with
  | Some row => inr (pk, row)
  | None => inl (DoesNotExist model)
  end.
Proof.
  destruct (table !! pk) as [row |] eqn:Hrow.
  - apply objects_get_found; [done | by apply Z.eqb_refl |].
    intros k' _ _ Hk'. by apply Z.eqb_eq.
  - apply objects_get_missing. intros k row Hk.
    destruct (k =? pk)%Z eqn:Heq; [| done].
    apply Z.eqb_eq in Heq. congruence.
Qed.

Lemma objects_get_string_pk {A} model (table : gmap string A) (pk : string) :
  objects_get model (λ k _, String.eqb k pk) table =
  match table !! pk with
  | Some row => inr (pk, row)
  | None => inl (DoesNotExist model)
  end.
Proof.
  destruct (table !! pk) as [row |] eqn:Hrow.
  - apply objects_get_found; [done | by apply String.eqb_refl |].
    intros k' _ _ Hk'. by apply String.eqb_eq.
  - apply objects_get_missing. intros k row Hk.
    destruct (String.eqb k pk) eqn:Heq; [| done].
    apply String.eqb_eq in Heq. congruence.
Qed.

(** ** Membership: the derived flag *)

Section derived_flag.
Import Spec.

Lemma presave_derived instance :
  active_is_derived (professional_domain_relation_presave instance).
Proof. by destruct instance. Qed.

Lemma presave_ignores_active b instance :
  professional_domain_relation_presave
    (ProfessionalDomainRelation.set_active b instance)
  = professional_domain_relation_presave instance.
Proof. by destruct instance. Qed.

Lemma presave_active instance :
  ProfessionalDomainRelation.active (professional_domain_relation_presave instance)
  = negb (ProfessionalDomainRelation.pending instance)
    && negb (ProfessionalDomainRelation.suspended instance)
    && negb (ProfessionalDomainRelation.rejected instance).
Proof. by destruct instance. Qed.

Lemma memberships_derived_insert w w' pk instance :
  memberships_derived w →
  professionaldomainrelation w'
  = <[pk:=professional_domain_relation_presave instance]>
      (professionaldomainrelation w) →
  memberships_derived w'.
Proof.
  intros Hinv Heq pk' row. rewrite Heq, lookup_insert_Some.
  intros [[_ <-] | [_ Hrow]]; [apply presave_derived | by eapply Hinv].
Qed.

Lemma memberships_derived_same w w' :
  memberships_derived w →
  professionaldomainrelation w' = professionaldomainrelation w →
  memberships_derived w'.
Proof. intros Hinv Heq pk row. rewrite Heq. apply Hinv. Qed.

Lemma memberships_derived_list w :
  Forall (λ kv, active_is_derived kv.2)
    (map_to_list (professionaldomainrelation w)) →
  memberships_derived w.
Proof.
  rewrite Forall_forall. intros Hall pk row Hrow.
  apply (Hall (pk, row)). by apply elem_of_map_to_list.
Qed.

End derived_flag.

(** ** Membership: accept and reject *)

Section membership.
Import RestAuthViews RestAuthViews.ProfessionalUserViewSet Spec.
Context `{AuthUtils}.

Ltac run :=
  unfold bind, try_except, query, gets, modify, ret, raise,
    catch_all, catch_only, catch_among; simpl.

Ltac run_accept :=
  unfold accept, ProfessionalDomainRelation_save, ProfessionalUser_save,
    Subscription_retrieve, Subscription_modify; run.

Ltac run_reject :=
  unfold reject, ProfessionalDomainRelation_save; run.

Lemma accept_relations request w :
  professionaldomainrelation (accept request w).2 = professionaldomainrelation w
  ∨ ∃ pk instance,
      professionaldomainrelation (accept request w).2
      = <[pk:=professional_domain_relation_presave instance]>
          (professionaldomainrelation w).
Proof. run_accept. repeat (case_match; simplify_eq; simpl in *); eauto. Qed.

Lemma reject_relations request w :
  professionaldomainrelation (reject request w).2 = professionaldomainrelation w
  ∨ ∃ pk instance,
      professionaldomainrelation (reject request w).2
      = <[pk:=professional_domain_relation_presave instance]>
          (professionaldomainrelation w).
Proof. run_reject. repeat (case_match; simplify_eq; simpl in *); eauto. Qed.

Lemma accept_not_admin request w :
  user_is_admin_in_domain w (user request) (domain_id request) = inr false →
  accept request w = (inr accept_forbidden, w).
Proof. intros Hcheck. run_accept. by rewrite Hcheck. Qed.

Lemma accept_check_raises request w e :
  user_is_admin_in_domain w (user request) (domain_id request) = inl e →
  accept request w = (inr authentication_error, w).
Proof. intros Hcheck. run_accept. by rewrite Hcheck. Qed.

Lemma reject_not_admin request w :
  user_is_admin_in_domain w (user request) (domain_id request) = inr false →
  reject request w = (inr reject_forbidden, w).
Proof. intros Hcheck. run_reject. by rewrite Hcheck. Qed.

Lemma reject_check_raises request w e :
  user_is_admin_in_domain w (user request) (domain_id request) = inl e →
  reject request w = (inl e, w).
Proof. intros Hcheck. run_reject. by rewrite Hcheck. Qed.

Lemma accept_no_pending_relation request w :
  user_is_admin_in_domain w (user request) (domain_id request) = inr true →
  (∀ pk r, professionaldomainrelation w !! pk = Some r →
           pending_relation_of (professional_user_id request)
             (domain_id request) pk r = false) →
  accept request w = (inr relation_not_found, w).
Proof.
  intros Hcheck Hnone. run_accept. rewrite Hcheck. simpl.
  by rewrite (objects_get_missing _ _ _ Hnone).
Qed.

Lemma pending_relation_of_domain pid did pk r :
  pending_relation_of pid did pk r = true →
  ProfessionalDomainRelation.professional r = pid
  ∧ ProfessionalDomainRelation.pending r = true
  ∧ ProfessionalDomainRelation.domain r = did.
Proof.
  unfold pending_relation_of. rewrite !andb_true_iff, Z.eqb_eq, String.eqb_eq.
  tauto.
Qed.

(** The writes of an accepted membership, whatever the payment provider
    answers afterwards. *)
Lemma accept_writes request w pk relation professional :
  user_is_admin_in_domain w (user request) (domain_id request) = inr true →
  objects_get "ProfessionalDomainRelation"
    (pending_relation_of (professional_user_id request) (domain_id request))
    (professionaldomainrelation w) = inr (pk, relation) →
  professionaluser w !! professional_user_id request = Some professional →
  let w2 :=
    after_accept_writes w (professional_user_id request)
      (ProfessionalUser.set_active true professional) pk
      (professional_domain_relation_presave
         (ProfessionalDomainRelation.set_pending false relation)) in
  ∃ tail,
    history (accept request w).2 = history w2 ++ tail
    ∧ professionaluser (accept request w).2 = professionaluser w2
    ∧ professionaldomainrelation (accept request w).2
      = professionaldomainrelation w2.
Proof.
  intros Hcheck Hget Hpro. run_accept.
  rewrite Hcheck. simpl. rewrite Hget. simpl.
  rewrite objects_get_pk, Hpro. simpl.
  repeat (case_match; simplify_eq; simpl in *);
    first [ by exists []; rewrite app_nil_r | by eexists [_] ].
Qed.

(** C1. For every membership relation, after any save, and so after the
    accept and reject actions, [active] equals
    [not pending and not suspended and not rejected]: the receiver
    recomputes it on every write, whatever value the instance carried. *)
Theorem active_recomputed_on_every_save (w : World) :
  memberships_derived w →
  (∀ pk instance b,
     let w' :=
       (ProfessionalDomainRelation_save pk
          (ProfessionalDomainRelation.set_active b instance) w).2 in
     memberships_derived w'
     ∧ ∃ row,
         professionaldomainrelation w' !! pk = Some row
         ∧ ProfessionalDomainRelation.active row
           = negb (ProfessionalDomainRelation.pending instance)
             && negb (ProfessionalDomainRelation.suspended instance)
             && negb (ProfessionalDomainRelation.rejected instance))
  ∧ (∀ instance,
       memberships_derived (ProfessionalDomainRelation_create instance w).2)
  ∧ (∀ request, memberships_derived (accept request w).2)
  ∧ (∀ request, memberships_derived (reject request w).2).
Proof.
  intros Hinv. split_and!.
  - intros pk instance b w'. split.
    + by eapply memberships_derived_insert.
    + eexists. split; [by apply lookup_insert_eq |].
      by rewrite presave_ignores_active, presave_active.
  - intros instance. by eapply memberships_derived_insert.
  - intros request.
    destruct (accept_relations request w) as [Heq | (pk & instance & Heq)].
    + by eapply memberships_derived_same.
    + by eapply memberships_derived_insert.
  - intros request.
    destruct (reject_relations request w) as [Heq | (pk & instance & Heq)].
    + by eapply memberships_derived_same.
    + by eapply memberships_derived_insert.
Qed.

Lemma seats_unchanged w w' sid :
  stripe_subscriptions w' = stripe_subscriptions w → seats w' sid = seats w sid.
Proof. unfold seats. by intros ->. Qed.

(** C2. An accept by a domain admin: when the pair has its pending
    relation, the relation stops being pending and becomes active, the
    subscription of the domain, if it has one, gains exactly one seat, and
    a second accept answers 404 and changes nothing; when the pair has no
    pending relation, the answer is 404 and nothing changes. *)
Theorem accept_once_then_not_found (request : Request) (w : World) :
  user_is_admin_in_domain w (user request) (domain_id request) = inr true →
  (∀ pk relation professional domain,
     professionaldomainrelation w !! pk = Some relation →
     pending_relation_of (professional_user_id request) (domain_id request)
       pk relation = true →
     (∀ pk' relation',
        professionaldomainrelation w !! pk' = Some relation' →
        pending_relation_of (professional_user_id request) (domain_id request)
          pk' relation' = true →
        pk' = pk) →
     ProfessionalDomainRelation.suspended relation = false →
     ProfessionalDomainRelation.rejected relation = false →
     professionaluser w !! professional_user_id request = Some professional →
     userdomain w !! domain_id request = Some domain →
     (∀ sid, subscription_reference domain = Some sid → is_Some (seats w sid)) →
     ∃ w' relation',
       accept request w = (inr accepted, w')
       ∧ professionaldomainrelation w' !! pk = Some relation'
       ∧ ProfessionalDomainRelation.pending relation' = false
       ∧ ProfessionalDomainRelation.active relation' = true
       ∧ (∀ sid, subscription_reference domain = Some sid →
                 seats w' sid = Z.succ <$> seats w sid)
       ∧ (subscription_reference domain = None →
          stripe_subscriptions w' = stripe_subscriptions w)
       ∧ (user_is_admin_in_domain w' (user request) (domain_id request)
          = inr true →
          accept request w' = (inr relation_not_found, w')))
  ∧ ((∀ pk relation,
        professionaldomainrelation w !! pk = Some relation →
        pending_relation_of (professional_user_id request) (domain_id request)
          pk relation = false) →
     accept request w = (inr relation_not_found, w)).
Proof.
  intros Hcheck. split; [| by apply accept_no_pending_relation].
  intros pk relation professional domain Hrow Hpending Honly Hsus Hrej Hpro Hdom
    Hsub.
  pose proof (objects_get_found "ProfessionalDomainRelation" _ _ _ _
                Hrow Hpending Honly) as Hget.
  destruct (pending_relation_of_domain _ _ _ _ Hpending) as (Hp & Hpe & Hd).
  set (relation' := professional_domain_relation_presave
                      (ProfessionalDomainRelation.set_pending false relation)).
  set (w2 := after_accept_writes w (professional_user_id request)
               (ProfessionalUser.set_active true professional) pk relation').
  assert (∀ wf, professionaldomainrelation wf = professionaldomainrelation w2 →
            ∀ pk0 r0, professionaldomainrelation wf !! pk0 = Some r0 →
              pending_relation_of (professional_user_id request)
                (domain_id request) pk0 r0 = false) as Hgone.
  { intros wf -> pk0 r0. simpl. rewrite lookup_insert_Some.
    intros [[<- <-] | [Hne Hr0]].
    - unfold pending_relation_of. simpl. by rewrite andb_false_r.
    - destruct (pending_relation_of _ _ pk0 r0) eqn:Hp0; [| done].
      by destruct Hne; symmetry; eapply Honly. }
  assert (accept request w
          = match subscription_reference domain with
            | Some sid =>
                match stripe_subscriptions w !! sid with
                | Some s =>
                    match Stripe.items s with
                    | item0 :: _ =>
                        (inr accepted,
                         record (SubscriptionModify sid (Stripe.item_id item0)
                                   (Stripe.quantity item0 + 1))
                           (upd_stripe_subscriptions
                              <[sid:=Stripe.set_quantity (Stripe.item_id item0)
                                       (Stripe.quantity item0 + 1) s]> w2))
                    | [] => (inl IndexError, w2)
                    end
                | None => (inl StripeError, w2)
                end
            | None => (inr accepted, w2)
            end) as Hrun.
  { run_accept. rewrite Hcheck. simpl. rewrite Hget. simpl.
    rewrite objects_get_pk, Hpro. simpl.
    rewrite objects_get_string_pk. simpl. rewrite Hd, Hdom. simpl.
    unfold subscription_reference.
    destruct (truthy (UserDomain.stripe_subscription_id domain)) eqn:Htruthy;
      [| done].
    destruct (UserDomain.stripe_subscription_id domain) as [sid |]; [| done].
    simpl. destruct (stripe_subscriptions w !! sid) as [s |] eqn:Hs; [| done].
    simpl. destruct (Stripe.items s); [done |].
    cbn. by rewrite Hs. }
  destruct (subscription_reference domain) as [sid |] eqn:Href.
  - destruct (Hsub sid eq_refl) as [q Hq]. unfold seats in Hq.
    destruct (stripe_subscriptions w !! sid) as [s |] eqn:Hs; [| done].
    simpl in Hq. destruct (Stripe.items s) as [| item0 rest] eqn:Hitems; [done |].
    simpl in Hq. injection Hq as <-.
    eexists _, relation'. split; [exact Hrun |]. split_and!.
    + simpl. by rewrite lookup_insert_eq.
    + done.
    + subst relation'. rewrite presave_active. simpl. by rewrite Hsus, Hrej.
    + intros sid' [= <-]. unfold seats. simpl.
      rewrite lookup_insert_eq, Hs. simpl. rewrite Hitems. simpl.
      by rewrite String.eqb_refl.
    + done.
    + intros Hcheck'. apply accept_no_pending_relation; [done |].
      by apply Hgone.
  - eexists _, relation'. split; [exact Hrun |]. split_and!.
    + simpl. by rewrite lookup_insert_eq.
    + done.
    + subst relation'. rewrite presave_active. simpl. by rewrite Hsus, Hrej.
    + done.
    + done.
    + intros Hcheck'. apply accept_no_pending_relation; [done |].
      by apply Hgone.
Qed.

(** C5, as amended.  For accept and for reject: a request without a session
    is answered [NotAuthenticated] by the permission check; a session user
    who is not an active admin of the domain is answered 403; when the
    admin check itself fails with an internal error, accept answers with a
    401 authentication failure, not with a 403.  In each of these cases the
    world is left as it was: no membership is changed. *)
Theorem admin_check_fails_closed (request : Request) (w : World) :
  (user request = None →
   dispatch "accept" request w = (inl NotAuthenticated, w)
   ∧ dispatch "reject" request w = (inl NotAuthenticated, w))
  ∧ (is_Some (user request) →
     user_is_admin_in_domain w (user request) (domain_id request) = inr false →
     dispatch "accept" request w = (inr accept_forbidden, w)
     ∧ dispatch "reject" request w = (inr reject_forbidden, w)
     ∧ status accept_forbidden = HTTP_403_FORBIDDEN
     ∧ status reject_forbidden = HTTP_403_FORBIDDEN)
  ∧ (is_Some (user request) →
     ∀ e,
       user_is_admin_in_domain w (user request) (domain_id request) = inl e →
       dispatch "accept" request w = (inr authentication_error, w)
       ∧ status authentication_error = HTTP_401_UNAUTHORIZED
       ∧ (dispatch "reject" request w).2 = w).
Proof.
  split_and!.
  - intros Hanon. unfold dispatch, check_permissions. simpl. by rewrite Hanon.
  - intros [u Hu] Hcheck. unfold dispatch, check_permissions. simpl.
    rewrite Hu. simpl. unfold bind. simpl.
    by rewrite accept_not_admin, reject_not_admin.
  - intros [u Hu] e Hcheck. unfold dispatch, check_permissions. simpl.
    rewrite Hu. simpl. unfold bind. simpl.
    by rewrite (accept_check_raises _ _ e), (reject_check_raises _ _ e).
Qed.

(** C10. An accept that finds the pending relation first saves the
    professional's own row with [active = True], whatever the domain, and
    only then saves the relation with [pending = False]; no other
    professional and no other relation is written. *)
Theorem accept_activates_professional_first
    (request : Request) (w : World) (pk : Z)
    (relation : ProfessionalDomainRelation.t)
    (professional : ProfessionalUser.t) :
  user_is_admin_in_domain w (user request) (domain_id request) = inr true →
  professionaldomainrelation w !! pk = Some relation →
  pending_relation_of (professional_user_id request) (domain_id request)
    pk relation = true →
  (∀ pk' relation',
     professionaldomainrelation w !! pk' = Some relation' →
     pending_relation_of (professional_user_id request) (domain_id request)
       pk' relation' = true →
     pk' = pk) →
  professionaluser w !! professional_user_id request = Some professional →
  let w' := (accept request w).2 in
  ∃ professional' relation' tail,
    history w'
    = history w
      ++ SaveProfessionalUser (professional_user_id request) professional'
         :: SaveProfessionalDomainRelation pk relation' :: tail
    ∧ ProfessionalUser.active professional' = true
    ∧ ProfessionalDomainRelation.pending relation = true
    ∧ ProfessionalDomainRelation.pending relation' = false
    ∧ professionaluser w' !! professional_user_id request = Some professional'
    ∧ professionaldomainrelation w' !! pk = Some relation'
    ∧ (∀ ppk, ppk ≠ professional_user_id request →
              professionaluser w' !! ppk = professionaluser w !! ppk)
    ∧ (∀ pk', pk' ≠ pk →
              professionaldomainrelation w' !! pk'
              = professionaldomainrelation w !! pk').
Proof.
  intros Hcheck Hrow Hpending Honly Hpro w'.
  pose proof (objects_get_found "ProfessionalDomainRelation" _ _ _ _
                Hrow Hpending Honly) as Hget.
  destruct (pending_relation_of_domain _ _ _ _ Hpending) as (_ & Hpe & _).
  destruct (accept_writes request w pk relation professional Hcheck Hget Hpro)
    as (tail & Hhist & Hpros & Hrels).
  exists (ProfessionalUser.set_active true professional),
    (professional_domain_relation_presave
       (ProfessionalDomainRelation.set_pending false relation)), tail.
  subst w'. rewrite Hhist, Hpros, Hrels. simpl. split_and!; try done.
  - by rewrite <- !app_assoc.
  - by rewrite lookup_insert_eq.
  - by rewrite lookup_insert_eq.
  - intros ppk Hne. by rewrite lookup_insert_ne.
  - intros pk' Hne. by rewrite lookup_insert_ne.
Qed.

End membership.

(** *** The membership properties on the example practice *)

Section membership_examples.
Import RestAuthViews RestAuthViews.ProfessionalUserViewSet Spec Examples.

Lemma clinic_memberships_derived : memberships_derived clinic.
Proof. apply memberships_derived_list. vm_compute. by repeat constructor. Qed.

Lemma active_recomputed_on_every_save_witness :
  memberships_derived clinic
  ∧ memberships_derived (@accept spec_auth_utils accept_bob clinic).2
  ∧ memberships_derived (@reject spec_auth_utils accept_bob clinic).2.
Proof.
  pose proof clinic_memberships_derived as Hclinic.
  destruct (@active_recomputed_on_every_save spec_auth_utils clinic Hclinic)
    as (_ & _ & Haccept & Hreject).
  split; [exact Hclinic |]. split; [apply Haccept | apply Hreject].
Defined.

Lemma clinic_pending_relation_of_bob :
  objects_get "ProfessionalDomainRelation" (pending_relation_of 2 "clinic")
    (professionaldomainrelation clinic)
  = inr (2, ProfessionalDomainRelation.new 2 "clinic" false false true).
Proof. vm_compute; reflexivity. Qed.

Lemma accept_once_then_not_found_witness :
  ∃ w' relation',
    @accept spec_auth_utils accept_bob clinic = (inr accepted, w')
    ∧ professionaldomainrelation w' !! 2 = Some relation'
    ∧ ProfessionalDomainRelation.pending relation' = false
    ∧ ProfessionalDomainRelation.active relation' = true
    ∧ seats clinic "sub_1" = Some 3
    ∧ seats w' "sub_1" = Some 4
    ∧ @accept spec_auth_utils accept_bob w' = (inr relation_not_found, w').
Proof.
  destruct (objects_get_inr _ _ _ _ _ clinic_pending_relation_of_bob)
    as (Hrow & Hpending & Honly).
  assert (@user_is_admin_in_domain spec_auth_utils clinic (Some 1) "clinic"
          = inr true) as Hadmin by (vm_compute; reflexivity).
  destruct (proj1 (@accept_once_then_not_found spec_auth_utils accept_bob clinic
                     Hadmin)
              2 (ProfessionalDomainRelation.new 2 "clinic" false false true)
              (ProfessionalUser.mk 2 None false None)
              (UserDomain.mk (Some "sub_1") (Some "clinic.example") true
                 "Clinic" "555-0100" None))
    as (w' & relation' & Hrun & Hrow' & Hpe' & Hact' & Hseats & _ & Hagain).
  - exact Hrow.
  - exact Hpending.
  - exact Honly.
  - reflexivity.
  - reflexivity.
  - vm_compute; reflexivity.
  - vm_compute; reflexivity.
  - intros sid [= <-]. exists 3. vm_compute; reflexivity.
  - exists w', relation'.
    split; [exact Hrun |]. split; [exact Hrow' |].
    split; [exact Hpe' |]. split; [exact Hact' |].
    split; [vm_compute; reflexivity |].
    split; [rewrite (Hseats "sub_1" eq_refl); vm_compute; reflexivity |].
    apply Hagain.
    assert (w' = (@accept spec_auth_utils accept_bob clinic).2) as ->
      by (rewrite Hrun; reflexivity).
    vm_compute; reflexivity.
Defined.

(** C5, as the claim states it, fails: an internal error in the admin check
    of accept is not answered 403. *)
Lemma internal_error_is_not_forbidden :
  @user_is_admin_in_domain failing_auth_utils clinic (Some 1) "clinic"
  = inl (OtherError "database unavailable")
  ∧ ¬ ∃ response w',
        @dispatch failing_auth_utils "accept" accept_bob clinic
        = (inr response, w')
        ∧ status response = HTTP_403_FORBIDDEN.
Proof.
  split; [reflexivity |]. intros (response & w' & Hrun & Hstatus).
  vm_compute in Hrun. injection Hrun as <- _. discriminate Hstatus.
Qed.

Lemma admin_check_fails_closed_witness :
  @dispatch spec_auth_utils "accept" anonymous_accepts_bob clinic
  = (inl NotAuthenticated, clinic)
  ∧ @dispatch spec_auth_utils "accept" bob_accepts_bob clinic
    = (inr accept_forbidden, clinic)
  ∧ @dispatch spec_auth_utils "reject" bob_accepts_bob clinic
    = (inr reject_forbidden, clinic)
  ∧ @dispatch failing_auth_utils "accept" accept_bob clinic
    = (inr authentication_error, clinic)
  ∧ (@dispatch failing_auth_utils "reject" accept_bob clinic).2 = clinic.
Proof.
  destruct (@admin_check_fails_closed spec_auth_utils anonymous_accepts_bob clinic)
    as (Hanon & _ & _).
  destruct (@admin_check_fails_closed spec_auth_utils bob_accepts_bob clinic)
    as (_ & Hforbidden & _).
  destruct (@admin_check_fails_closed failing_auth_utils accept_bob clinic)
    as (_ & _ & Hraise).
  destruct (Hanon eq_refl) as (Ha & _).
  assert (@user_is_admin_in_domain spec_auth_utils clinic (Some 2) "clinic"
          = inr false) as Hbob by (vm_compute; reflexivity).
  destruct (Hforbidden (mk_is_Some _ _ eq_refl) Hbob) as (Hf1 & Hf2 & _).
  destruct (Hraise (mk_is_Some _ _ eq_refl) _ eq_refl) as (Hr1 & _ & Hr2).
  split; [exact Ha |]. split; [exact Hf1 |]. split; [exact Hf2 |].
  split; [exact Hr1 | exact Hr2].
Defined.

Lemma accept_activates_professional_first_witness :
  ∃ professional' relation' tail,
    history (@accept spec_auth_utils accept_bob clinic).2
    = history clinic
      ++ SaveProfessionalUser 2 professional'
         :: SaveProfessionalDomainRelation 2 relation' :: tail
    ∧ ProfessionalUser.active professional' = true
    ∧ ProfessionalDomainRelation.pending relation' = false.
Proof.
  destruct (objects_get_inr _ _ _ _ _ clinic_pending_relation_of_bob)
    as (Hrow & Hpending & Honly).
  destruct (@accept_activates_professional_first spec_auth_utils accept_bob
              clinic 2
              (ProfessionalDomainRelation.new 2 "clinic" false false true)
              (ProfessionalUser.mk 2 None false None))
    as (professional' & relation' & tail & Hhist & Hact & _ & Hpe & _);
    [vm_compute; reflexivity | exact Hrow | exact Hpending | exact Honly
    | vm_compute; reflexivity |].
  exists professional', relation', tail.
  split; [exact Hhist |]. split; [exact Hact | exact Hpe].
Defined.

End membership_examples.

(** ** Verification and reset tokens *)

Section tokens.
Import RestAuthViews Examples.
Import VerifyEmailViewSet PasswordResetViewSet.

Ltac run :=
  unfold bind, try_except, query, gets, modify, ret, raise,
    catch_all, catch_only, catch_among; simpl.

(** A presented activation token that is past its expiry: the answer is
    the expiry failure, and the world, the token included, stays as it
    was. *)
Lemma verify_expired now request w user tpk verification_token :
  auth_user w !! user_id request = Some user →
  objects_get "VerificationToken"
    (λ _ t, (VerificationToken.user t =? user_id request)%Z
            && String.eqb (VerificationToken.token t)
                 (VerifyEmailViewSet.token request))
    (verificationtoken w) = inr (tpk, verification_token) →
  VerificationToken.expires_at verification_token < now →
  verify now request w = (inr activation_expired, w).
Proof.
  intros Huser Htoken Hlate. unfold verify. run.
  rewrite objects_get_pk, Huser. simpl. rewrite Htoken. simpl.
  by rewrite (proj2 (Z.gtb_lt _ _) Hlate).
Qed.

(** A token the user does not have. *)
Lemma verify_unknown_token now request w user :
  auth_user w !! user_id request = Some user →
  (∀ tpk t, verificationtoken w !! tpk = Some t →
     (VerificationToken.user t =? user_id request)%Z
     && String.eqb (VerificationToken.token t) (VerifyEmailViewSet.token request)
     = false) →
  verify now request w = (inr activation_invalid, w).
Proof.
  intros Huser Hnone. unfold verify. run.
  rewrite objects_get_pk, Huser. simpl.
  by rewrite (objects_get_missing _ _ _ Hnone).
Qed.

(** A presented reset token that is past its expiry is deleted, and the
    password stays. *)
Lemma finish_reset_expired now request w tpk reset_token :
  objects_get "ResetToken"
    (λ _ t, String.eqb (ResetToken.token t) (PasswordResetViewSet.token request))
    (resettoken w) = inr (tpk, reset_token) →
  ResetToken.expires_at reset_token < now →
  finish_reset now request w
  = (inr reset_expired,
     record (DeleteResetToken tpk) (upd_resettoken (delete tpk) w)).
Proof.
  intros Htoken Hlate. unfold finish_reset, ResetToken_delete. run.
  rewrite Htoken. simpl. by rewrite (proj2 (Z.gtb_lt _ _) Hlate).
Qed.

Lemma finish_reset_unknown_token now request w :
  (∀ tpk t, resettoken w !! tpk = Some t →
     String.eqb (ResetToken.token t) (PasswordResetViewSet.token request) = false) →
  finish_reset now request w = (inr reset_invalid, w).
Proof.
  intros Hnone. unfold finish_reset. run.
  by rewrite (objects_get_missing _ _ _ Hnone).
Qed.

(** C4, at the failing input.  erin presents her activation token after
    its expiry: [verify] reports the expiry, which differs from the answer
    to a token she does not have, and does not activate her; but the
    expired token is still stored afterwards.  [finish_reset], on frank's
    expired reset token, does delete it. *)
Theorem verify_keeps_the_expired_token :
  verificationtoken signup !! 1
  = Some (VerificationToken.mk 5 "activate-erin" 0 1000)
  ∧ verify 2000 erin_verifies signup = (inr activation_expired, signup)
  ∧ verificationtoken (verify 2000 erin_verifies signup).2 !! 1
    = Some (VerificationToken.mk 5 "activate-erin" 0 1000)
  ∧ verify 2000 erin_mistypes signup = (inr activation_invalid, signup)
  ∧ activation_expired ≠ activation_invalid
  ∧ (finish_reset 2000 frank_resets signup).1 = inr reset_expired
  ∧ resettoken (finish_reset 2000 frank_resets signup).2 !! 1 = None
  ∧ reset_expired ≠ reset_invalid.
Proof.
  assert (verify 2000 erin_verifies signup = (inr activation_expired, signup))
    as Hverify.
  { eapply verify_expired;
      [vm_compute; reflexivity | vm_compute; reflexivity | simpl; lia]. }
  assert (finish_reset 2000 frank_resets signup
          = (inr reset_expired,
             record (DeleteResetToken 1) (upd_resettoken (delete 1) signup)))
    as Hreset.
  { eapply finish_reset_expired; [vm_compute; reflexivity | simpl; lia]. }
  split; [vm_compute; reflexivity |].
  split; [exact Hverify |].
  split; [rewrite Hverify; vm_compute; reflexivity |].
  split; [vm_compute; reflexivity |].
  split; [discriminate |].
  split; [by rewrite Hreset |].
  split; [rewrite Hreset; vm_compute; reflexivity | discriminate].
Qed.

End tokens.

(** ** Sending the fax *)

Section send_fax.
Import RestViews RestViews.AppealViewSet Spec.
Context `{FhiQueries}.

Ltac run :=
  unfold bind, try_except, query, gets, modify, ret, raise,
    catch_all, catch_only, catch_among; simpl.

(** What [send_fax] does on a visible appeal whose denial is stored, for a
    caller with a user row. *)
Lemma send_fax_run request w a d u :
  filter_to_allowed_appeals w (user request) !! appeal_id request = Some a →
  denial w !! Appeal.for_denial a = Some d →
  (user request ≫= λ pk, auth_user w !! pk) = Some u →
  let pk := appeal_id request in
  let a0 :=
    Appeal.set_fax_number (Some (BoundField_str (fax_number request))) a in
  let w0 := record (SaveAppeal pk a0) (upd_appeal <[pk:=a0]> w) in
  send_fax request w
  = if bool_decide (Appeal.patient_user a = patient_of w (user request))
       && Denial.professional_to_finish d
    then (inr pending_professional_response,
          record (SaveAppeal pk (handed_off a0))
            (upd_appeal <[pk:=handed_off a0]> w0))
    else (inr fax_sent,
          record (RemoteSendFax pk)
            (record (StageAppealAsFax pk (User.email u))
               (record (SaveAppeal pk (cleared a0))
                  (upd_appeal <[pk:=cleared a0]> w0)))).
Proof.
  intros Hvisible Hdenial Huser pk a0 w0.
  unfold send_fax, get_object_or_404, Appeal_save, email_of,
    stage_appeal_as_fax, remote_send_fax. run.
  rewrite Hvisible. simpl. unfold patient_of.
  destruct (objects_get "PatientUser" _ (patientuser w)) as [e | [ppk p]];
    simpl.
  - destruct (decide (Appeal.patient_user a = None)) as [Hp | Hp].
    + rewrite bool_decide_eq_true_2 by done. simpl.
      rewrite objects_get_pk, Hdenial. simpl.
      destruct (Denial.professional_to_finish d); simpl; [done |].
      by rewrite Huser.
    + rewrite bool_decide_eq_false_2 by done. simpl. by rewrite Huser.
  - destruct (decide (Appeal.patient_user a = Some ppk)) as [Hp | Hp].
    + rewrite bool_decide_eq_true_2 by done. simpl.
      rewrite objects_get_pk, Hdenial. simpl.
      destruct (Denial.professional_to_finish d); simpl; [done |].
      by rewrite Huser.
    + rewrite bool_decide_eq_false_2 by done. simpl. by rewrite Huser.
Qed.

(** The hand-off when the caller is the patient on the appeal. *)
Lemma send_fax_by_patient request w a d u ppk :
  filter_to_allowed_appeals w (user request) !! appeal_id request = Some a →
  denial w !! Appeal.for_denial a = Some d →
  (user request ≫= λ pk, auth_user w !! pk) = Some u →
  Appeal.patient_user a = Some ppk →
  patient_of w (user request) = Some ppk →
  Denial.professional_to_finish d = true →
  ∃ a',
    (send_fax request w).1 = inr pending_professional_response
    ∧ appeal (send_fax request w).2 !! appeal_id request = Some a'
    ∧ Appeal.pending_professional a' = true
    ∧ Appeal.pending_patient a' = false
    ∧ Appeal.pending a' = true
    ∧ ∀ pk, RemoteSendFax pk ∈ history (send_fax request w).2 →
            RemoteSendFax pk ∈ history w.
Proof.
  intros Hvisible Hdenial Huser Hpatient Hcaller Hfinish.
  rewrite (send_fax_run request w a d u Hvisible Hdenial Huser).
  rewrite Hpatient, Hcaller, Hfinish, bool_decide_eq_true_2 by done. simpl.
  eexists. split; [done |]. split; [by rewrite lookup_insert_eq |].
  split_and!; try done.
  intros pk. rewrite !elem_of_app, !list_elem_of_singleton.
  intros [[Hin | Heq] | Heq]; [done | discriminate | discriminate].
Qed.

(** The dispatch when the appeal has a patient and the caller is someone
    else, or the denial is not marked for the professional. *)
Lemma send_fax_dispatches request w a d u ppk :
  filter_to_allowed_appeals w (user request) !! appeal_id request = Some a →
  denial w !! Appeal.for_denial a = Some d →
  (user request ≫= λ pk, auth_user w !! pk) = Some u →
  Appeal.patient_user a = Some ppk →
  patient_of w (user request) ≠ Some ppk
  ∨ Denial.professional_to_finish d = false →
  ∃ a',
    (send_fax request w).1 = inr fax_sent
    ∧ appeal (send_fax request w).2 !! appeal_id request = Some a'
    ∧ Appeal.pending_professional a' = false
    ∧ Appeal.pending_patient a' = false
    ∧ Appeal.pending a' = false
    ∧ RemoteSendFax (appeal_id request) ∈ history (send_fax request w).2.
Proof.
  intros Hvisible Hdenial Huser Hpatient Hother.
  rewrite (send_fax_run request w a d u Hvisible Hdenial Huser).
  assert (bool_decide (Appeal.patient_user a = patient_of w (user request))
          && Denial.professional_to_finish d = false) as ->.
  { destruct Hother as [Hne | ->]; [| by rewrite andb_false_r].
    rewrite bool_decide_eq_false_2; [done |]. congruence. }
  simpl. eexists. split; [done |]. split; [by rewrite lookup_insert_eq |].
  split_and!; try done.
  rewrite elem_of_app, list_elem_of_singleton. by right.
Qed.

(** The hand-off also happens when the appeal has no patient and the
    caller has no patient profile: the two absent values compare equal. *)
Lemma send_fax_without_patient request w a d u :
  filter_to_allowed_appeals w (user request) !! appeal_id request = Some a →
  denial w !! Appeal.for_denial a = Some d →
  (user request ≫= λ pk, auth_user w !! pk) = Some u →
  Appeal.patient_user a = None →
  patient_of w (user request) = None →
  Denial.professional_to_finish d = true →
  (send_fax request w).1 = inr pending_professional_response
  ∧ ¬ caller_is_patient_on w (user request) a
  ∧ ∀ pk, RemoteSendFax pk ∈ history (send_fax request w).2 →
          RemoteSendFax pk ∈ history w.
Proof.
  intros Hvisible Hdenial Huser Hpatient Hcaller Hfinish.
  rewrite (send_fax_run request w a d u Hvisible Hdenial Huser).
  rewrite Hpatient, Hcaller, Hfinish, bool_decide_eq_true_2 by done. simpl.
  split; [done |]. split.
  - intros (ppk & p & Hsome & _). congruence.
  - intros pk. rewrite !elem_of_app, !list_elem_of_singleton.
    intros [[Hin | Heq] | Heq]; [done | discriminate | discriminate].
Qed.

End send_fax.

Section send_fax_examples.
Import RestViews RestViews.AppealViewSet Spec Examples.

(** C3, at the failing input.  carol, a professional without a patient
    profile, sends the fax of appeal 1, which has no patient and whose
    denial is marked "professional must finish".  She is not the patient
    on the appeal, yet the appeal is handed off to the professional and no
    fax is dispatched: the comparison of the appeal's absent patient with
    the caller's absent patient profile succeeds. *)
Theorem send_fax_hands_off_without_patient :
  (Appeal.patient_user <$> appeal practice !! 1) = Some None
  ∧ patient_of practice (Some 1) = None
  ∧ (∀ a, appeal practice !! 1 = Some a →
          ¬ caller_is_patient_on practice (Some 1) a)
  ∧ (@send_fax sample_queries carol_sends_fax practice).1
    = inr pending_professional_response
  ∧ (Appeal.pending_professional
       <$> appeal (@send_fax sample_queries carol_sends_fax practice).2 !! 1)
    = Some true
  ∧ (Appeal.pending
       <$> appeal (@send_fax sample_queries carol_sends_fax practice).2 !! 1)
    = Some true
  ∧ ∀ pk, RemoteSendFax pk
          ∉ history (@send_fax sample_queries carol_sends_fax practice).2.
Proof.
  split; [vm_compute; reflexivity |].
  split; [vm_compute; reflexivity |].
  split.
  { intros a Ha (ppk & p & Hpatient & _).
    assert ((Appeal.patient_user <$> appeal practice !! 1) = Some None) as Hnone
      by (vm_compute; reflexivity).
    rewrite Ha in Hnone. simpl in Hnone. congruence. }
  split; [vm_compute; reflexivity |].
  split; [vm_compute; reflexivity |].
  split; [vm_compute; reflexivity |].
  intros pk Hin.
  assert (length (history (@send_fax sample_queries carol_sends_fax practice).2)
          = 2%nat) as Hlen by (vm_compute; reflexivity).
  assert (Forall (λ e, ∃ apk row, e = SaveAppeal apk row)
            (history (@send_fax sample_queries carol_sends_fax practice).2))
    as Hall by (vm_compute; repeat constructor; eauto).
  rewrite Forall_forall in Hall.
  destruct (Hall _ Hin) as (apk & row & Heq). discriminate Heq.
Qed.

End send_fax_examples.

(** ** Retrieval by identifier *)

Section retrieval.
Import RestViews.
Context `{FhiQueries} `{CommonViewLogic}.


Lemma get_object_or_404_inside {A} (P : Z → A → bool) (table : gmap Z A) pk row :
  table !! pk = Some row → P pk row = true →
  get_object_or_404 (objects_filter P table) pk = inr (pk, row).
Proof.
  intros Hrow HP. unfold get_object_or_404.
  by rewrite (proj2 (objects_filter_lookup_Some P table pk row) (conj Hrow HP)).
Qed.


(** A visible record is returned. *)
Lemma visible_appeal_is_returned w user pk a :
  appeal w !! pk = Some a → allowed_appeal w user pk a = true →
  AppealViewSet.retrieve user pk w
  = (inr (mkResponse (AppealDetailSerializer pk a) HTTP_200_OK), w).
Proof.
  intros Ha Hvisible.
  unfold AppealViewSet.retrieve, filter_to_allowed_appeals, bind, query.
  by rewrite (get_object_or_404_inside _ _ _ _ Ha Hvisible).
Qed.

End retrieval.

Section retrieval_examples.
Import RestViews Examples.


End retrieval_examples.

(** ** Creating or updating a denial *)

Section next_pk.

Lemma next_pk_above {A} (table : gmap Z A) k :
  is_Some (table !! k) → k < next_pk table.
Proof.
  unfold next_pk.
  apply (map_fold_weak_ind
           (λ r (m : gmap Z A), ∀ k, is_Some (m !! k) → k < 1 + r)).
  - intros k' [x Hx]. by rewrite lookup_empty in Hx.
  - intros i x m r Hfresh IH k' [y Hy].
    apply lookup_insert_Some in Hy as [[<- _] | [_ Hy]]; [lia |].
    specialize (IH k' (mk_is_Some _ _ Hy)). lia.
Qed.

Lemma next_pk_fresh {A} (table : gmap Z A) : table !! next_pk table = None.
Proof.
  destruct (table !! next_pk table) as [x |] eqn:Hx; [| done].
  pose proof (next_pk_above table _ (mk_is_Some _ _ Hx)). lia.
Qed.

End next_pk.

Section denial_create.
Import RestViews RestViews.DenialViewSet Spec.
Context `{FhiQueries} `{CommonViewLogic}.

Ltac run :=
  unfold bind, try_except, query, gets, modify, ret, raise,
    catch_all, catch_only, catch_among; simpl.

(** What a [perform_create] that returns has done: the helper ran on the
    world as it was, the denial was read back by its identifier, and then
    either the lookup of its appeal found exactly one and nothing more was
    written, or the lookup failed and a pending appeal was created. *)
Lemma perform_create_inv env request w info w' :
  perform_create env request w = (inr info, w') →
  ∃ existing cpk data info0 w1 dpk d,
    create_or_update_denial existing cpk data w = (inr info0, w1)
    ∧ objects_get "Denial"
        (λ _ d, String.eqb (Denial.uuid d) (info_uuid info0)) (denial w1)
      = inr (dpk, d)
    ∧ ((∃ found,
          objects_get "Appeal" (λ _ a, (Appeal.for_denial a =? dpk)%Z) (appeal w1)
          = inr found
          ∧ info = info0 ∧ w' = w1)
       ∨ (∃ e,
            objects_get "Appeal" (λ _ a, (Appeal.for_denial a =? dpk)%Z)
              (appeal w1)
            = inl e
            ∧ let apk := next_pk (appeal w1) in
              let new :=
                Appeal.new (uuid4 env) dpk (Denial.patient_user d)
                  (Denial.primary_professional d)
                  (Denial.creating_professional d) true (now env) (today env) in
              info = set_appeal_id apk info0
              ∧ w' = record (SaveAppeal apk new) (upd_appeal <[apk:=new]> w1))).
Proof.
  unfold perform_create, Appeal_create, Appeal_save. run. intros Hrun.
  repeat (case_match; simplify_eq; simpl in *);
    repeat eexists; eauto.
Qed.

End denial_create.

Section denial_create_examples.
Import RestViews RestViews.DenialViewSet Spec Examples.

(** C9, at the failing input.  Denial 3 already has two appeals.  carol
    updates it: the lookup of "the" appeal of the denial fails because
    there are several, the bare [except] takes that for "none", and a
    third appeal is created.  On denial 2, which has exactly one appeal,
    the same request creates nothing; on a new denial it creates the one
    pending appeal with the denial's patient and professionals. *)
Theorem update_of_denial_with_two_appeals_adds_a_third :
  size (appeals_of practice 3) = 2%nat
  ∧ objects_get "Appeal" (λ _ a, (Appeal.for_denial a =? 3)%Z) (appeal practice)
    = inl (MultipleObjectsReturned "Appeal")
  ∧ (@perform_create sample_queries (sample_view_logic "d-new") noon
       carol_updates_denial_3 practice).1
    = inr (mkDenialResponseInfo "d-3" 3 (Some 5))
  ∧ size (appeals_of
            (@perform_create sample_queries (sample_view_logic "d-new") noon
               carol_updates_denial_3 practice).2 3) = 3%nat
  ∧ size (appeals_of practice 2) = 1%nat
  ∧ (@perform_create sample_queries (sample_view_logic "d-new") noon
       carol_updates_denial_2 practice).1
    = inr (mkDenialResponseInfo "d-2" 2 None)
  ∧ appeal (@perform_create sample_queries (sample_view_logic "d-new") noon
              carol_updates_denial_2 practice).2
    = appeal practice
  ∧ (@perform_create sample_queries (sample_view_logic "d-new") noon
       carol_files_denial practice).1
    = inr (mkDenialResponseInfo "d-new" 4 (Some 5))
  ∧ appeal (@perform_create sample_queries (sample_view_logic "d-new") noon
              carol_files_denial practice).2
    = <[5:=Appeal.new "a-new" 4 (Some 1) (Some 1) (Some 1) true (120 * day) 120]>
        (appeal practice).
Proof.
  split; [vm_compute; reflexivity |].
  split; [vm_compute; reflexivity |].
  split; [vm_compute; reflexivity |].
  split; [vm_compute; reflexivity |].
  split; [vm_compute; reflexivity |].
  split; [vm_compute; reflexivity |].
  split; [vm_compute; reflexivity |].
  split; [vm_compute; reflexivity |].
  vm_compute; reflexivity.
Qed.

End denial_create_examples.

(** ** Floats *)

Section float64.
Import Float64.

Lemma digits2_pos_bounds p :
  2 ^ (Zpos (digits2_pos p) - 1) ≤ Zpos p < 2 ^ Zpos (digits2_pos p).
Proof.
  induction p as [p IH | p IH |]; simpl digits2_pos.
  - rewrite Pos2Z.inj_succ.
    replace (Z.succ (Zpos (digits2_pos p)) - 1) with (Z.succ (Zpos (digits2_pos p) - 1)) by lia.
    rewrite !Z.pow_succ_r by lia. lia.
  - rewrite Pos2Z.inj_succ.
    replace (Z.succ (Zpos (digits2_pos p)) - 1) with (Z.succ (Zpos (digits2_pos p) - 1)) by lia.
    rewrite !Z.pow_succ_r by lia. lia.
  - simpl. lia.
Qed.

Lemma Zdigits2_nonneg m : 0 ≤ Zdigits2 m.
Proof. destruct m; simpl; lia. Qed.

Lemma Zdigits2_le m k : 0 ≤ m < 2 ^ k → 0 ≤ k → Zdigits2 m ≤ k.
Proof.
  intros [Hm Hlt] Hk. destruct m as [| p | p]; simpl; [lia | | lia].
  pose proof (digits2_pos_bounds p) as [Hlow _].
  destruct (decide (Zpos (digits2_pos p) ≤ k)) as [| Hgt]; [done |].
  exfalso.
  assert (2 ^ k ≤ 2 ^ (Zpos (digits2_pos p) - 1)) by (apply Z.pow_le_mono_r; lia).
  lia.
Qed.

Lemma Zdigits2_lt m : 0 ≤ m → m < 2 ^ Zdigits2 m.
Proof.
  intros Hm. destruct m as [| p | p]; simpl; [lia | | lia].
  apply digits2_pos_bounds.
Qed.

Lemma shr_1_digits r :
  0 ≤ shr_m r →
  0 ≤ shr_m (shr_1 r)
  ∧ Zdigits2 (shr_m (shr_1 r)) = Z.max 0 (Zdigits2 (shr_m r) - 1).
Proof.
  destruct r as [m b s]. simpl. intros Hm.
  destruct m as [| [p | p |] | p]; simpl; try lia.
Qed.

Lemma iter_shr_1_digits p r :
  0 ≤ shr_m r →
  0 ≤ shr_m (iter_pos shr_1 p r)
  ∧ Zdigits2 (shr_m (iter_pos shr_1 p r))
    = Z.max 0 (Zdigits2 (shr_m r) - Zpos p).
Proof.
  revert r. induction p as [p IH | p IH |]; intros r Hr; simpl.
  - destruct (shr_1_digits r Hr) as [H1 D1].
    destruct (IH _ H1) as [H2 D2]. destruct (IH _ H2) as [H3 D3].
    split; [done |]. rewrite D3, D2, D1. lia.
  - destruct (IH _ Hr) as [H2 D2]. destruct (IH _ H2) as [H3 D3].
    split; [done |]. rewrite D3, D2. lia.
  - destruct (shr_1_digits r Hr) as [H1 D1]. split; [done |]. rewrite D1. lia.
Qed.

Lemma shr_m_record_of_loc m l : shr_m (shr_record_of_loc m l) = m.
Proof. by destruct l as [| []]. Qed.

Lemma shr_fexp_digits m e l :
  0 ≤ m →
  let '(r', e') := shr_fexp prec emax m e l in
  0 ≤ shr_m r'
  ∧ e' = Z.max e (fexp prec emax (Zdigits2 m + e))
  ∧ Zdigits2 (shr_m r') = Z.max 0 (Zdigits2 m - (e' - e)).
Proof.
  intros Hm. unfold shr_fexp, shr.
  pose proof (Zdigits2_nonneg m).
  destruct (fexp prec emax (Zdigits2 m + e) - e) as [| n | n] eqn:Hn.
  - rewrite shr_m_record_of_loc. lia.
  - destruct (iter_shr_1_digits n (shr_record_of_loc m l)) as [H1 D1];
      [by rewrite shr_m_record_of_loc |].
    rewrite shr_m_record_of_loc in D1. lia.
  - rewrite shr_m_record_of_loc. lia.
Qed.

Lemma round_nearest_even_bounds m l :
  0 ≤ m → 0 ≤ round_nearest_even m l ≤ m + 1.
Proof.
  intros Hm. unfold round_nearest_even.
  destruct l as [| []]; try destruct (Z.even m); lia.
Qed.

(** Rounding a number that is not negative and well inside the exponent
    range gives a zero or a finite double. *)
Lemma binary_round_aux_finite sx mx ex lx K :
  0 ≤ mx → Zdigits2 mx + ex ≤ K → ex ≤ 971 → K ≤ 1022 →
  match binary_round_aux prec emax sx mx ex lx with
  | S754_zero _ => True
  | S754_finite _ m e => e ≤ Z.max (Z.max ex (K - 52)) (-1074)
                         ∧ Zpos (digits2_pos m) + e ≤ Z.max (Z.max ex (K + 1)) (-1073)
  | _ => False
  end.
Proof.
  intros Hmx HK Hex HKmax. unfold binary_round_aux.
  pose proof (shr_fexp_digits mx ex lx Hmx) as H1.
  destruct (shr_fexp prec emax mx ex lx) as [r1 e1].
  destruct H1 as (Hr1 & He1 & Hd1).
  pose proof (round_nearest_even_bounds (shr_m r1) (loc_of_shr_record r1) Hr1)
    as Hround.
  set (m1 := round_nearest_even (shr_m r1) (loc_of_shr_record r1)) in *.
  assert (Zdigits2 m1 ≤ Zdigits2 (shr_m r1) + 1) as Hm1.
  { apply Zdigits2_le; [| pose proof (Zdigits2_nonneg (shr_m r1)); lia].
    pose proof (Zdigits2_lt (shr_m r1) Hr1).
    rewrite Z.pow_add_r, Z.pow_1_r by (pose proof (Zdigits2_nonneg (shr_m r1)); lia).
    lia. }
  pose proof (shr_fexp_digits m1 e1 loc_Exact ltac:(lia)) as H2.
  destruct (shr_fexp prec emax m1 e1 loc_Exact) as [r2 e2].
  destruct H2 as (Hr2 & He2 & Hd2).
  unfold fexp, emin, prec, emax in *.
  pose proof (Zdigits2_nonneg mx). pose proof (Zdigits2_nonneg m1).
  destruct (shr_m r2) as [| m | m] eqn:Hm2; [done | | lia].
  simpl in Hd2.
  destruct (e2 <=? 1024 - 53) eqn:Hfit.
  - lia.
  - apply Z.leb_gt in Hfit. lia.
Qed.

Lemma binary_round_aux_not_nan sx mx ex lx :
  0 ≤ mx → is_nan (binary_round_aux prec emax sx mx ex lx) = false.
Proof.
  intros Hmx. unfold binary_round_aux.
  pose proof (shr_fexp_digits mx ex lx Hmx) as H1.
  destruct (shr_fexp prec emax mx ex lx) as [r1 e1].
  destruct H1 as (Hr1 & _ & _).
  pose proof (round_nearest_even_bounds (shr_m r1) (loc_of_shr_record r1) Hr1)
    as [Hround _].
  pose proof (shr_fexp_digits _ e1 loc_Exact Hround) as H2.
  destruct (shr_fexp prec emax _ e1 loc_Exact) as [r2 e2].
  destruct H2 as (Hr2 & _ & _).
  destruct (shr_m r2); [done | by case_match | lia].
Qed.

Lemma SFdiv_core_binary_quotient m1 m2 :
  let '(q, e, _) := SFdiv_core_binary prec emax (Zpos m1) 0 (Zpos m2) 0 in
  0 ≤ q
  ∧ e ≤ 0
  ∧ (Zpos m1 < 2 ^ 63 → Zpos m2 < 2 ^ 63 → Zdigits2 q + e ≤ 63).
Proof.
  unfold SFdiv_core_binary.
  set (d1 := Zdigits2 (Zpos m1)). set (d2 := Zdigits2 (Zpos m2)).
  set (e := Z.min (fexp prec emax (d1 + 0 - (d2 + 0))) (0 - 0)).
  set (m' := match 0 - 0 - e with
             | 0 => Zpos m1 | Zpos _ => Z.shiftl (Zpos m1) (0 - 0 - e)
             | Zneg _ => 0 end).
  assert (e ≤ 0) as He by (unfold e; lia).
  assert (m' = Zpos m1 * 2 ^ (- e)) as Hm'.
  { unfold m'. replace (0 - 0 - e) with (- e) by lia.
    destruct (- e) as [| s | s] eqn:Hs; [lia | | lia].
    by rewrite Z.shiftl_mul_pow2. }
  pose proof (Z.div_eucl_eq m' (Zpos m2) ltac:(done)) as Heucl.
  pose proof (Z.mod_pos_bound m' (Zpos m2) ltac:(done)) as Hmod.
  unfold Z.modulo in Hmod.
  destruct (Z.div_eucl m' (Z.pos m2)) as [q r].
  assert (0 ≤ m') as Hm'0 by (rewrite Hm'; apply Z.mul_nonneg_nonneg; [done | apply Z.pow_nonneg; lia]).
  assert (0 ≤ q) as Hq by nia.
  split_and!; [done | done |].
  intros H1 H2.
  assert (1 ≤ d1 ≤ 63) as Hd1.
  { split; [unfold d1; simpl; lia | by apply Zdigits2_le]. }
  assert (1 ≤ d2 ≤ 63) as Hd2.
  { split; [unfold d2; simpl; lia | by apply Zdigits2_le]. }
  assert (e = Z.min (d1 - d2 - 53) 0) as He'.
  { unfold e, fexp, emin, prec, emax. lia. }
  assert (Zdigits2 q ≤ d1 - e - d2 + 1); [| lia].
  apply Zdigits2_le; [| lia].
  split; [done |].
  pose proof (digits2_pos_bounds m1) as [_ Hm1].
  pose proof (digits2_pos_bounds m2) as [Hm2 _].
  fold (Zdigits2 (Zpos m1)) in Hm1. fold (Zdigits2 (Zpos m2)) in Hm2.
  fold d1 in Hm1. fold d2 in Hm2.
  replace (d1 - e - d2 + 1) with ((d1 - d2 + 1 - e)) by lia.
  destruct (decide (q < 2 ^ (d1 - d2 + 1 - e))) as [| Hge]; [done |].
  exfalso.
  assert (2 ^ (d1 - d2 + 1 - e) * 2 ^ (d2 - 1) = 2 ^ d1 * 2 ^ (- e)) as Hpow.
  { rewrite <- !Z.pow_add_r by lia. f_equal. lia. }
  assert (0 < 2 ^ (- e)) by (apply Z.pow_pos_nonneg; lia).
  assert (0 < 2 ^ (d2 - 1)) by (apply Z.pow_pos_nonneg; lia).
  assert (0 < 2 ^ (d1 - d2 + 1 - e)) by (apply Z.pow_pos_nonneg; lia).
  assert (2 ^ (d1 - d2 + 1 - e) * 2 ^ (d2 - 1) ≤ q * Zpos m2) by nia.
  assert (Zpos m1 * 2 ^ (- e) < 2 ^ d1 * 2 ^ (- e)) by nia.
  lia.
Qed.

Lemma of_int_100 : of_int 100 = S754_finite false 7036874417766400 (-46).
Proof. vm_compute. reflexivity. Qed.

Lemma exact_sign z : 0 ≤ z →
  exact z = S754_zero false ∨ ∃ m, z = Zpos m ∧ exact z = S754_finite false m 0.
Proof. destruct z; [by left | right; by eexists | lia]. Qed.

(** The percentage of one count in another is never NaN. *)
Lemma percentage_not_nan s r :
  0 < r → is_nan (mul (int_truediv s r) (of_int 100)) = false.
Proof.
  intros Hr. rewrite of_int_100. unfold int_truediv, mul.
  destruct r as [| m2 | m2]; [lia | | lia]. simpl exact.
  assert (∀ sx m1, is_nan (SFmul prec emax
            (SFdiv prec emax (S754_finite sx m1 0) (S754_finite false m2 0))
            (S754_finite false 7036874417766400 (-46))) = false) as Hfin.
  { intros sx m1. unfold SFdiv.
    pose proof (SFdiv_core_binary_quotient m1 m2) as Hcore.
    destruct (SFdiv_core_binary prec emax (Zpos m1) 0 (Zpos m2) 0) as [[q e] l].
    destruct Hcore as (Hq & _ & _).
    pose proof (binary_round_aux_not_nan (xorb sx false) q e l Hq) as Hnan.
    destruct (binary_round_aux prec emax (xorb sx false) q e l); try done.
    unfold SFmul. by apply binary_round_aux_not_nan. }
  destruct s as [| m1 | m1]; [done | apply Hfin | apply Hfin].
Qed.

(** For counts that fit a machine word it is a finite double. *)
Lemma percentage_finite s r :
  0 ≤ s < 2 ^ 63 → 0 < r < 2 ^ 63 →
  is_finite (mul (int_truediv s r) (of_int 100)) = true.
Proof.
  intros [Hs0 Hs] [Hr0 Hr]. rewrite of_int_100. unfold int_truediv, mul.
  destruct r as [| m2 | m2]; [lia | | lia].
  destruct s as [| m1 | m1]; [done | | lia]. simpl exact. unfold SFdiv.
  pose proof (SFdiv_core_binary_quotient m1 m2) as Hcore.
  destruct (SFdiv_core_binary prec emax (Zpos m1) 0 (Zpos m2) 0) as [[q e] l].
  destruct Hcore as (Hq & He & Hd). specialize (Hd Hs Hr).
  pose proof (binary_round_aux_finite (xorb false false) q e l 63
                Hq Hd ltac:(lia) ltac:(lia)) as Hquot.
  destruct (binary_round_aux prec emax (xorb false false) q e l)
    as [| | | sq mq eq]; try done.
  destruct Hquot as [Heq Hdq]. unfold SFmul.
  assert (Zdigits2 (Zpos (mq * 7036874417766400)) ≤ Zpos (digits2_pos mq) + 53)
    as Hprod.
  { apply Zdigits2_le; [| lia].
    split; [done |].
    pose proof (digits2_pos_bounds mq) as [_ Hmq].
    rewrite Z.pow_add_r by lia. rewrite Pos2Z.inj_mul.
    assert (7036874417766400 < 2 ^ 53) by done. nia. }
  pose proof (binary_round_aux_finite (xorb sq false)
                (Zpos (mq * 7036874417766400)) (eq + -46) loc_Exact 71
                ltac:(done) ltac:(lia) ltac:(lia) ltac:(lia)) as Hres.
  by destruct (binary_round_aux prec emax (xorb sq false)
                 (Zpos (mq * 7036874417766400)) (eq + -46) loc_Exact).
Qed.

(** A count of zero gives the percentage zero. *)
Lemma percentage_zero r :
  0 < r → mul (int_truediv 0 r) (of_int 100) = zero.
Proof. intros Hr. rewrite of_int_100. by destruct r. Qed.
End float64.

(** ** Statistics *)

Section statistics.
Import RestViews RestViews.AppealViewSet Spec.
Context `{FhiQueries} `{Dateutil}.

Ltac run :=
  unfold bind, try_except, query, gets, modify, ret, raise,
    catch_all, catch_only, catch_among; simpl.

Lemma count_rows_nonneg {A} (rows : gmap Z A) : 0 ≤ count_rows rows.
Proof. unfold count_rows. lia. Qed.

(** The guarded expression never raises, and is the percentage as Python
    rounds it. *)
Lemma success_rate_of_total s r zero :
  0 ≤ r →
  ∃ rate, success_rate_of s r zero = inr rate ∧ rate_is rate s r zero.
Proof.
  intros Hr. unfold success_rate_of, truediv, rate_is.
  destruct r as [| p | p]; [| | lia].
  - by eexists.
  - eexists. split; [reflexivity |]. eexists. split; [reflexivity |].
    split; [reflexivity |]. split.
    + by apply percentage_not_nan.
    + intros Hs Hp. by apply percentage_finite.
Qed.

(** C7, as amended.  [stats] and [absolute_stats] always answer 200 and
    never raise; each success rate they report is 0 (the integer in
    [stats], the float 0.0 in [absolute_stats]) when no appeal of its set
    has a response, and otherwise the float Python computes for the number
    of successful appeals divided by the number of appeals with a
    response, times 100: the quotient rounded to the nearest double, and
    its product with 100.0 rounded again.  That float is never NaN, and it
    is finite for counts below 2^63. *)
Theorem success_rate_is_a_guarded_percentage
    (env : Ambient) (user : option Z) (delta domain_id : option string)
    (w : World) :
  let visible := filter_to_allowed_appeals w user in
  let current :=
    created_in (periods (default "MoM" delta) (now env)).1.1.1
      (periods (default "MoM" delta) (now env)).1.1.2 visible in
  let previous :=
    created_in (periods (default "MoM" delta) (now env)).1.2
      (periods (default "MoM" delta) (now env)).2 visible in
  (∃ st,
     stats env user delta w
     = (inr (mkResponse (StatisticsSerializer st) HTTP_200_OK), w)
     ∧ rate_is (current_success_rate st)
         (successful current) (with_response current) (PyInt 0)
     ∧ rate_is (previous_success_rate st)
         (successful previous) (with_response previous) (PyInt 0))
  ∧ (∃ st,
       absolute_stats user domain_id w
       = (inr (mkResponse (AbsoluteStatisticsSerializer st) HTTP_200_OK), w)
       ∧ rate_is (success_rate st)
           (successful visible) (with_response visible)
           (PyFloat Float64.zero)).
Proof.
  intros visible current previous. split.
  - destruct (success_rate_of_total (successful current) (with_response current)
                (PyInt 0) (count_rows_nonneg _)) as (rc & Hrc & Hc).
    destruct (success_rate_of_total (successful previous)
                (with_response previous) (PyInt 0) (count_rows_nonneg _))
      as (rp & Hrp & Hp).
    subst current previous visible. unfold stats.
    destruct (periods (default "MoM" delta) (now env)) as [[[cs ce] ps] pe].
    simpl in *. run.
    unfold successful, with_response in Hrc, Hrp. rewrite Hrc, Hrp.
    eexists. split; [reflexivity |]. by split.
  - destruct (success_rate_of_total (successful visible) (with_response visible)
                (PyFloat Float64.zero) (count_rows_nonneg _))
      as (r & Hr & Hrate).
    subst visible. unfold absolute_stats. run.
    unfold successful, with_response in Hr.
    destruct (truthy domain_id); simpl.
    + rewrite objects_get_string_pk.
      destruct (userdomain w !! default "" domain_id); simpl; rewrite Hr;
        (eexists; split; [reflexivity | done]).
    + rewrite Hr. eexists. split; [reflexivity | done].
Qed.

End statistics.

Section statistics_examples.
Import RestViews RestViews.AppealViewSet Spec Examples.

(** The two roundings show.  For 29 successes among 100 answered appeals
    the rate is 28.999999999999996, the double just below 29: the quotient
    0.29 is not a double, and the product of its rounding with 100.0 is
    rounded again. *)
Lemma percentage_is_rounded_twice :
  ∃ f q,
    success_rate_of 29 100 (PyInt 0) = inr (PyFloat f)
    ∧ Float64.value f = Some q
    ∧ (29 - q == 1 # 281474976710656)%Q.
Proof.
  eexists _, _. split; [vm_compute; reflexivity |].
  split; [vm_compute; reflexivity |].
  vm_compute. reflexivity.
Qed.

(** C7, as the claim states it, fails.  Of the appeals carol sees, two
    have a response and one of them succeeded: the rate reported is the
    float 50.0, not the quotient 1/2. *)
Lemma success_rate_is_not_the_quotient :
  successful (@filter_to_allowed_appeals sample_queries practice (Some 1)) = 1
  ∧ with_response (@filter_to_allowed_appeals sample_queries practice (Some 1))
    = 2
  ∧ ∃ st f q,
      (@absolute_stats sample_queries (Some 1) None practice).1
      = inr (mkResponse (AbsoluteStatisticsSerializer st) HTTP_200_OK)
      ∧ success_rate st = PyFloat f
      ∧ Float64.value f = Some q
      ∧ (q == 50 # 1)%Q
      ∧ ¬ (q == 1 # 2)%Q.
Proof.
  split; [vm_compute; reflexivity |].
  split; [vm_compute; reflexivity |].
  eexists _, _, _. split; [vm_compute; reflexivity |].
  split; [reflexivity |]. split; [vm_compute; reflexivity |].
  split; [vm_compute; reflexivity |].
  vm_compute. discriminate.
Qed.

End statistics_examples.

(** ** Search *)

Section search.
Import RestViews RestViews.AppealViewSet Spec.
Context `{FhiQueries}.

Lemma insert_newest_perm x l : insert_newest x l ≡ₚ x :: l.
Proof.
  induction l as [| y l IH]; simpl; [done |].
  destruct (result_mod_date y <=? result_mod_date x); [done |].
  by rewrite IH, Permutation_swap.
Qed.

Lemma sort_newest_first_perm l : sort_newest_first l ≡ₚ l.
Proof.
  induction l as [| x l IH]; simpl; [done |].
  by rewrite insert_newest_perm, IH.
Qed.

#[local] Instance newest_first_trans : Transitive newest_first.
Proof. unfold newest_first. intros x y z ? ?. lia. Qed.

Lemma insert_newest_sorted x l :
  Sorted newest_first l → Sorted newest_first (insert_newest x l).
Proof.
  induction 1 as [| y l Hsorted IH Hhd]; simpl.
  - by repeat constructor.
  - destruct (result_mod_date y <=? result_mod_date x) eqn:Hle.
    + apply Z.leb_le in Hle. by repeat constructor.
    + apply Z.leb_gt in Hle. constructor; [done |].
      destruct Hhd as [| z l Hyz]; simpl.
      * constructor. unfold newest_first. lia.
      * destruct (result_mod_date z <=? result_mod_date x);
          constructor; [unfold newest_first; lia | done].
Qed.

Lemma sort_newest_first_sorted l :
  StronglySorted newest_first (sort_newest_first l).
Proof.
  apply Sorted_StronglySorted; [apply _ |].
  induction l as [| x l IH]; simpl; [constructor |].
  by apply insert_newest_sorted.
Qed.

(** A slice with a non-negative start and length. *)
Lemma py_slice_window {A} (l : list A) (start n : Z) :
  0 ≤ start → 0 ≤ n →
  py_slice l start (start + n) = take (Z.to_nat n) (drop (Z.to_nat start) l).
Proof.
  intros Hstart Hn. unfold py_slice, slice_index.
  rewrite (proj2 (Z.ltb_ge start 0)), (proj2 (Z.ltb_ge (start + n) 0)) by lia.
  destruct (decide (Z.of_nat (length l) ≤ start)) as [Hout | Hin].
  - rewrite !Z.min_r by lia. rewrite Z.sub_diag. simpl.
    rewrite (drop_ge l (Z.to_nat start)) by lia. by rewrite take_nil.
  - rewrite (Z.min_l start) by lia.
    destruct (decide (start + n ≤ Z.of_nat (length l))) as [Hfit | Hcut].
    + rewrite Z.min_l by lia. f_equal. lia.
    + rewrite Z.min_r by lia.
      rewrite !take_ge; [done | |]; rewrite length_drop; lia.
Qed.

(** C8. A search with a query orders the matching rows newest first and
    returns the rows of the requested page: with page size [ps] (10 when
    absent) and the 1-indexed page [p] (1 when absent), the [ps] rows after
    the first [(p - 1) * ps]; [previous] says whether [p > 1].  Over
    fifteen matching rows, page 2 of size 10 has exactly five rows,
    [previous] is true and [next] is false. *)
Theorem search_sorts_and_paginates
    (request : SearchRequest) (w : World) (text : string) (ps p : Z) :
  q request = Some text → text ≠ "" →
  int_or 10 (page_size request) = inr ps →
  int_or 1 (page request) = inr p →
  1 ≤ ps → 1 ≤ p →
  let all := hits w (search_user request) text in
  StronglySorted newest_first all
  ∧ all ≡ₚ to_search_result
             <$> map_to_list (matching_appeals w (search_user request) text)
  ∧ int_or 10 Absent = inr 10
  ∧ int_or 1 Absent = inr 1
  ∧ ∃ page,
      search request w
      = (inr (mkResponse (SearchResultSerializer page) HTTP_200_OK), w)
      ∧ RestViews.count page = Z.of_nat (length all)
      ∧ results page = take (Z.to_nat ps) (drop (Z.to_nat ((p - 1) * ps)) all)
      ∧ previous page = bool_decide (1 < p)
      ∧ (length all = 15%nat → ps = 10 → p = 2 →
         length (results page) = 5%nat
         ∧ previous page = true ∧ next page = false).
Proof.
  intros Hq Hne Hps Hp Hps1 Hp1 all.
  split; [apply sort_newest_first_sorted |].
  split; [apply sort_newest_first_perm |].
  split; [done |]. split; [done |].
  unfold search, bind, query, gets, ret, raise. rewrite Hq. simpl.
  rewrite (proj2 (String.eqb_neq text "") Hne). simpl.
  rewrite Hps, Hp. simpl.
  rewrite (proj2 (Z.eqb_neq ps 0)) by lia.
  eexists. split; [reflexivity |]. simpl.
  unfold hits in all. subst all.
  split; [done |].
  set (all := sort_newest_first _).
  assert (py_slice all ((p - 1) * ps) ((p - 1) * ps + ps)
          = take (Z.to_nat ps) (drop (Z.to_nat ((p - 1) * ps)) all)) as Hslice
    by (apply py_slice_window; nia).
  split; [exact Hslice |].
  split.
  { destruct (p >? 1) eqn:Hgt.
    - apply Z.gtb_lt in Hgt. by rewrite bool_decide_eq_true_2.
    - rewrite bool_decide_eq_false_2; [done |]. rewrite Z.gtb_ltb in Hgt.
      apply Z.ltb_ge in Hgt. lia. }
  rewrite Hslice. intros Hlen -> ->.
  split; [rewrite length_take, length_drop, Hlen; reflexivity |].
  split; [reflexivity |]. by rewrite Hlen.
Qed.

End search.

Section search_examples.
Import RestViews RestViews.AppealViewSet Spec Examples.

(** carol asks for the second page of ten among her fifteen appeals. *)
Lemma search_sorts_and_paginates_witness :
  length (@hits sample_queries archive (Some 1) "APPEAL") = 15%nat
  ∧ ∃ page,
      @search sample_queries second_page archive
      = (inr (mkResponse (SearchResultSerializer page) HTTP_200_OK), archive)
      ∧ length (results page) = 5%nat
      ∧ previous page = true
      ∧ next page = false.
Proof.
  assert (length (@hits sample_queries archive (Some 1) "APPEAL") = 15%nat)
    as Hlen by (vm_compute; reflexivity).
  split; [exact Hlen |].
  destruct (@search_sorts_and_paginates sample_queries second_page archive
              "APPEAL" 10 2)
    as (_ & _ & _ & _ & page & Hrun & _ & _ & _ & Hpage);
    [reflexivity | discriminate | reflexivity | reflexivity | lia | lia |].
  destruct (Hpage Hlen eq_refl eq_refl) as (Hfive & Hprevious & Hnext).
  exists page. split; [exact Hrun |]. split; [exact Hfive |].
  split; [exact Hprevious | exact Hnext].
Defined.

End search_examples.

(** ** Membership: the states signup, accept and reject can reach *)

Section membership_wf.
Import RestAuthViews RestAuthViews.ProfessionalUserViewSet Spec.
Context `{AuthUtils}.

Ltac run :=
  unfold bind, try_except, query, gets, modify, ret, raise,
    catch_all, catch_only, catch_among; simpl.

Lemma presave_pending instance :
  ProfessionalDomainRelation.pending (professional_domain_relation_presave instance)
  = ProfessionalDomainRelation.pending instance.
Proof. by destruct instance. Qed.

(** Writing a row that is not pending keeps the memberships well formed. *)
Lemma memberships_wf_settle w w' pk row :
  memberships_wf w →
  ProfessionalDomainRelation.pending row = false →
  professionaldomainrelation w' = <[pk:=row]> (professionaldomainrelation w) →
  memberships_wf w'.
Proof.
  intros [Hstatus Hone] Hsettled Heq. split.
  - intros pk1 r1. rewrite Heq, lookup_insert_Some.
    intros [[_ <-] | [_ Hr1]] Hpending; [congruence | by eapply Hstatus].
  - intros pk1 pk2 r1 r2. rewrite Heq, !lookup_insert_Some.
    intros [[_ <-] | [_ Hr1]] [[_ <-] | [_ Hr2]] Hp1 Hp2; try congruence.
    by eapply Hone.
Qed.

Lemma accept_settles request w :
  professionaldomainrelation (accept request w).2 = professionaldomainrelation w
  ∨ ∃ pk row,
      ProfessionalDomainRelation.pending row = false
      ∧ professionaldomainrelation (accept request w).2
        = <[pk:=row]> (professionaldomainrelation w).
Proof.
  unfold accept, ProfessionalDomainRelation_save, ProfessionalUser_save,
    Subscription_retrieve, Subscription_modify. run.
  repeat (case_match; simplify_eq; simpl in * );
    first [by left | right; do 2 eexists; split; [| reflexivity]; reflexivity].
Qed.

Lemma reject_settles request w :
  professionaldomainrelation (reject request w).2 = professionaldomainrelation w
  ∨ ∃ pk row,
      ProfessionalDomainRelation.pending row = false
      ∧ professionaldomainrelation (reject request w).2
        = <[pk:=row]> (professionaldomainrelation w).
Proof.
  unfold reject, ProfessionalDomainRelation_save. run.
  repeat (case_match; simplify_eq; simpl in * );
    first [by left | right; do 2 eexists; split; [| reflexivity]; reflexivity].
Qed.

Lemma memberships_wf_same w w' :
  memberships_wf w →
  professionaldomainrelation w' = professionaldomainrelation w →
  memberships_wf w'.
Proof. unfold memberships_wf. by intros Hwf ->. Qed.

Lemma memberships_wf_accept request w :
  memberships_wf w → memberships_wf (accept request w).2.
Proof.
  intros Hwf.
  destruct (accept_settles request w) as [Heq | (pk & row & Hsettled & Heq)].
  - by eapply memberships_wf_same.
  - by eapply memberships_wf_settle.
Qed.

Lemma memberships_wf_reject request w :
  memberships_wf w → memberships_wf (reject request w).2.
Proof.
  intros Hwf.
  destruct (reject_settles request w) as [Heq | (pk & row & Hsettled & Heq)].
  - by eapply memberships_wf_same.
  - by eapply memberships_wf_settle.
Qed.

(** The relation signup creates for a professional who has none yet. *)
Lemma memberships_wf_signup w professional domain admin :
  memberships_wf w →
  (∀ pk r, professionaldomainrelation w !! pk = Some r →
           ProfessionalDomainRelation.professional r ≠ professional) →
  memberships_wf
    (ProfessionalDomainRelation_create
       (ProfessionalDomainRelation.new professional domain false admin true) w).2.
Proof.
  intros [Hstatus Hone] Hnew. simpl. split.
  - intros pk r. simpl. rewrite lookup_insert_Some.
    intros [[_ <-] | [_ Hr]] Hpending; [done | by eapply Hstatus].
  - intros pk1 pk2 r1 r2. simpl. rewrite !lookup_insert_Some.
    intros [[<- <-] | [_ Hr1]] [[<- <-] | [_ Hr2]] Hp1 Hp2 Hpro Hdom;
      simpl in *; [done | | | by eapply Hone].
    + by destruct (Hnew _ _ Hr2).
    + by destruct (Hnew _ _ Hr1).
Qed.

Lemma memberships_wf_empty : memberships_wf empty_world.
Proof.
  split.
  - intros pk r Hr. simpl in Hr. by rewrite lookup_empty in Hr.
  - intros pk1 pk2 r1 r2 Hr. simpl in Hr. by rewrite lookup_empty in Hr.
Qed.

(** In a well-formed world the pending relation of a pair, if there is one,
    is the only one, and is neither suspended nor rejected: the
    assumptions under which accept was followed above. *)
Lemma memberships_wf_pending w pid did pk relation :
  memberships_wf w →
  professionaldomainrelation w !! pk = Some relation →
  pending_relation_of pid did pk relation = true →
  (∀ pk' relation',
     professionaldomainrelation w !! pk' = Some relation' →
     pending_relation_of pid did pk' relation' = true → pk' = pk)
  ∧ ProfessionalDomainRelation.suspended relation = false
  ∧ ProfessionalDomainRelation.rejected relation = false.
Proof.
  intros [Hstatus Hone] Hrow Hpending.
  destruct (pending_relation_of_domain _ _ _ _ Hpending) as (Hp & Hpe & Hd).
  split; [| by eapply Hstatus].
  intros pk' relation' Hrow' Hpending'.
  destruct (pending_relation_of_domain _ _ _ _ Hpending') as (Hp' & Hpe' & Hd').
  eapply Hone; eauto; congruence.
Qed.

End membership_wf.

(** * Further properties of the handlers *)

(** ** Rejecting a membership, and an accept the payment provider fails *)

Section membership_more.
Import RestAuthViews RestAuthViews.ProfessionalUserViewSet Spec.
Context `{AuthUtils}.

Ltac run :=
  unfold bind, try_except, query, gets, modify, ret, raise,
    catch_all, catch_only, catch_among; simpl.

Lemma reject_no_pending_relation request w :
  user_is_admin_in_domain w (user request) (domain_id request) = inr true →
  (∀ pk r, professionaldomainrelation w !! pk = Some r →
           pending_relation_of (professional_user_id request)
             (domain_id request) pk r = false) →
  reject request w = (inl (DoesNotExist "ProfessionalDomainRelation"), w).
Proof.
  intros Hcheck Hnone. unfold reject, ProfessionalDomainRelation_save. run.
  rewrite Hcheck. simpl. by rewrite (objects_get_missing _ _ _ Hnone).
Qed.

(** After a row that is not pending is written over the pair's only
    pending relation, the pair has no pending relation. *)
Lemma pending_relation_settled pid did (table : gmap Z ProfessionalDomainRelation.t)
    pk row :
  (∀ pk' r', table !! pk' = Some r' →
             pending_relation_of pid did pk' r' = true → pk' = pk) →
  ProfessionalDomainRelation.pending row = false →
  ∀ pk0 r0, <[pk:=row]> table !! pk0 = Some r0 →
            pending_relation_of pid did pk0 r0 = false.
Proof.
  intros Honly Hsettled pk0 r0. rewrite lookup_insert_Some.
  intros [[<- <-] | [Hne Hr0]].
  - unfold pending_relation_of. by rewrite Hsettled, andb_false_r.
  - destruct (pending_relation_of pid did pk0 r0) eqn:Hp0; [| done].
    exfalso. apply Hne. symmetry. by eapply Honly.
Qed.

(** X1. A reject by a domain admin of the pair's pending relation answers
    204 and stores the relation as not pending, rejected and not active;
    it writes no professional and no subscription.  From then on the
    relation cannot be brought back: an accept of the pair answers 404 and
    a second reject raises [DoesNotExist], both without a write. *)
Theorem reject_is_final (request : Request) (w : World) (pk : Z)
    (relation : ProfessionalDomainRelation.t) :
  user_is_admin_in_domain w (user request) (domain_id request) = inr true →
  professionaldomainrelation w !! pk = Some relation →
  pending_relation_of (professional_user_id request) (domain_id request)
    pk relation = true →
  (∀ pk' relation',
     professionaldomainrelation w !! pk' = Some relation' →
     pending_relation_of (professional_user_id request) (domain_id request)
       pk' relation' = true →
     pk' = pk) →
  ∃ w' relation',
    reject request w = (inr rejected, w')
    ∧ professionaldomainrelation w' = <[pk:=relation']> (professionaldomainrelation w)
    ∧ ProfessionalDomainRelation.pending relation' = false
    ∧ ProfessionalDomainRelation.rejected relation' = true
    ∧ ProfessionalDomainRelation.active relation' = false
    ∧ professionaluser w' = professionaluser w
    ∧ stripe_subscriptions w' = stripe_subscriptions w
    ∧ (user_is_admin_in_domain w' (user request) (domain_id request) = inr true →
       accept request w' = (inr relation_not_found, w')
       ∧ reject request w'
         = (inl (DoesNotExist "ProfessionalDomainRelation"), w')).
Proof.
  intros Hcheck Hrow Hpending Honly.
  pose proof (objects_get_found "ProfessionalDomainRelation" _ _ _ _
                Hrow Hpending Honly) as Hget.
  set (relation' :=
         professional_domain_relation_presave
           (ProfessionalDomainRelation.set_active false
              (ProfessionalDomainRelation.set_rejected true
                 (ProfessionalDomainRelation.set_pending false relation)))).
  exists (record (SaveProfessionalDomainRelation pk relation')
            (upd_professionaldomainrelation <[pk:=relation']> w)), relation'.
  split.
  { unfold reject, ProfessionalDomainRelation_save. run.
    rewrite Hcheck. simpl. by rewrite Hget. }
  split; [done |]. split; [done |]. split; [done |].
  split; [subst relation'; rewrite presave_active; simpl; by rewrite andb_false_r |].
  split; [done |]. split; [done |].
  intros Hcheck'.
  assert (∀ pk0 r0,
            <[pk:=relation']> (professionaldomainrelation w) !! pk0 = Some r0 →
            pending_relation_of (professional_user_id request)
              (domain_id request) pk0 r0 = false) as Hgone
    by (by apply pending_relation_settled).
  split.
  - by apply accept_no_pending_relation.
  - by apply reject_no_pending_relation.
Qed.

(** X2. A reject by a domain admin for a pair that has no pending relation
    does not answer 404 as accept does: the lookup's [DoesNotExist] leaves
    the handler, and nothing is written. *)
Theorem reject_without_pending_relation_raises (request : Request) (w : World) :
  user_is_admin_in_domain w (user request) (domain_id request) = inr true →
  (∀ pk r, professionaldomainrelation w !! pk = Some r →
           pending_relation_of (professional_user_id request)
             (domain_id request) pk r = false) →
  reject request w = (inl (DoesNotExist "ProfessionalDomainRelation"), w)
  ∧ accept request w = (inr relation_not_found, w).
Proof.
  intros Hcheck Hnone. split.
  - by apply reject_no_pending_relation.
  - by apply accept_no_pending_relation.
Qed.

(** X3. When the domain names a subscription the payment provider does not
    have, accept raises the provider's error after its two writes: the
    professional is active and the relation is no longer pending, no seat
    was added, and a retry answers 404, so the seat is never added. *)
Theorem accept_survives_a_failed_seat_update (request : Request) (w : World)
    (pk : Z) (relation : ProfessionalDomainRelation.t)
    (professional : ProfessionalUser.t) (domain : UserDomain.t) (sid : string) :
  user_is_admin_in_domain w (user request) (domain_id request) = inr true →
  professionaldomainrelation w !! pk = Some relation →
  pending_relation_of (professional_user_id request) (domain_id request)
    pk relation = true →
  (∀ pk' relation',
     professionaldomainrelation w !! pk' = Some relation' →
     pending_relation_of (professional_user_id request) (domain_id request)
       pk' relation' = true →
     pk' = pk) →
  professionaluser w !! professional_user_id request = Some professional →
  userdomain w !! domain_id request = Some domain →
  subscription_reference domain = Some sid →
  stripe_subscriptions w !! sid = None →
  ∃ w' relation',
    accept request w = (inl StripeError, w')
    ∧ professionaldomainrelation w' !! pk = Some relation'
    ∧ ProfessionalDomainRelation.pending relation' = false
    ∧ (ProfessionalUser.active <$> professionaluser w' !! professional_user_id request)
      = Some true
    ∧ stripe_subscriptions w' = stripe_subscriptions w
    ∧ (user_is_admin_in_domain w' (user request) (domain_id request) = inr true →
       accept request w' = (inr relation_not_found, w')).
Proof.
  intros Hcheck Hrow Hpending Honly Hpro Hdom Href Hsub.
  pose proof (objects_get_found "ProfessionalDomainRelation" _ _ _ _
                Hrow Hpending Honly) as Hget.
  destruct (pending_relation_of_domain _ _ _ _ Hpending) as (Hp & Hpe & Hd).
  set (relation' := professional_domain_relation_presave
                      (ProfessionalDomainRelation.set_pending false relation)).
  exists (after_accept_writes w (professional_user_id request)
            (ProfessionalUser.set_active true professional) pk relation'),
    relation'.
  split.
  { unfold accept, ProfessionalDomainRelation_save, ProfessionalUser_save,
      Subscription_retrieve, Subscription_modify. run.
    rewrite Hcheck. simpl. rewrite Hget. simpl.
    rewrite objects_get_pk, Hpro. simpl.
    rewrite objects_get_string_pk. simpl. rewrite Hd, Hdom. simpl.
    unfold subscription_reference in Href.
    destruct (truthy (UserDomain.stripe_subscription_id domain)); [| done].
    rewrite Href. simpl. by rewrite Hsub. }
  split; [by simpl; rewrite lookup_insert_eq |].
  split; [done |].
  split; [by simpl; rewrite lookup_insert_eq |].
  split; [done |].
  intros Hcheck'. apply accept_no_pending_relation; [done |].
  simpl. by apply pending_relation_settled.
Qed.

End membership_more.

Section membership_more_examples.
Import RestAuthViews RestAuthViews.ProfessionalUserViewSet Spec Examples.

Lemma reject_is_final_witness :
  ∃ w' relation',
    @reject spec_auth_utils accept_bob clinic = (inr rejected, w')
    ∧ professionaldomainrelation w' !! 2 = Some relation'
    ∧ ProfessionalDomainRelation.rejected relation' = true
    ∧ ProfessionalDomainRelation.active relation' = false
    ∧ @accept spec_auth_utils accept_bob w' = (inr relation_not_found, w').
Proof.
  destruct (objects_get_inr _ _ _ _ _ clinic_pending_relation_of_bob)
    as (Hrow & Hpending & Honly).
  assert (@user_is_admin_in_domain spec_auth_utils clinic (Some 1) "clinic"
          = inr true) as Hadmin by (vm_compute; reflexivity).
  destruct (@reject_is_final spec_auth_utils accept_bob clinic 2
              (ProfessionalDomainRelation.new 2 "clinic" false false true)
              Hadmin Hrow Hpending Honly)
    as (w' & relation' & Hrun & Hrows & _ & Hrej & Hact & _ & _ & Hagain).
  exists w', relation'.
  split; [exact Hrun |].
  split; [rewrite Hrows; apply lookup_insert_eq |].
  split; [exact Hrej |]. split; [exact Hact |].
  apply Hagain.
  assert (w' = (@reject spec_auth_utils accept_bob clinic).2) as ->
    by (rewrite Hrun; reflexivity).
  vm_compute; reflexivity.
Defined.

Lemma reject_without_pending_relation_raises_witness :
  @reject spec_auth_utils accept_bob
    (@accept spec_auth_utils accept_bob clinic).2
  = (inl (DoesNotExist "ProfessionalDomainRelation"),
     (@accept spec_auth_utils accept_bob clinic).2).
Proof.
  apply (@reject_without_pending_relation_raises spec_auth_utils accept_bob).
  - vm_compute; reflexivity.
  - intros pk r Hr.
    assert (objects_get "ProfessionalDomainRelation"
              (pending_relation_of 2 "clinic")
              (professionaldomainrelation
                 (@accept spec_auth_utils accept_bob clinic).2)
            = inl (DoesNotExist "ProfessionalDomainRelation")) as Hnone
      by (vm_compute; reflexivity).
    exact (objects_get_DoesNotExist _ _ _ _ Hnone pk r Hr).
Defined.

End membership_more_examples.

Section membership_more_examples_2.
Import RestAuthViews RestAuthViews.ProfessionalUserViewSet Spec Examples.
Import MoreExamples.

Lemma accept_survives_a_failed_seat_update_witness :
  ∃ w' relation',
    @accept spec_auth_utils accept_bob clinic_without_subscription
    = (inl StripeError, w')
    ∧ professionaldomainrelation w' !! 2 = Some relation'
    ∧ ProfessionalDomainRelation.pending relation' = false
    ∧ @accept spec_auth_utils accept_bob w' = (inr relation_not_found, w').
Proof.
  assert (objects_get "ProfessionalDomainRelation"
            (pending_relation_of 2 "clinic")
            (professionaldomainrelation clinic_without_subscription)
          = inr (2, ProfessionalDomainRelation.new 2 "clinic" false false true))
    as Hget by (vm_compute; reflexivity).
  destruct (objects_get_inr _ _ _ _ _ Hget) as (Hrow & Hpending & Honly).
  destruct (@accept_survives_a_failed_seat_update spec_auth_utils accept_bob
              clinic_without_subscription 2
              (ProfessionalDomainRelation.new 2 "clinic" false false true)
              (ProfessionalUser.mk 2 None false None)
              (UserDomain.mk (Some "sub_1") (Some "clinic.example") true
                 "Clinic" "555-0100" None)
              "sub_1")
    as (w' & relation' & Hrun & Hrow' & Hpe' & _ & _ & Hagain);
    [vm_compute; reflexivity | exact Hrow | exact Hpending | exact Honly
    | vm_compute; reflexivity | vm_compute; reflexivity
    | vm_compute; reflexivity | vm_compute; reflexivity |].
  exists w', relation'.
  split; [exact Hrun |]. split; [exact Hrow' |]. split; [exact Hpe' |].
  apply Hagain.
  assert (w' = (@accept spec_auth_utils accept_bob
                  clinic_without_subscription).2) as ->
    by (rewrite Hrun; reflexivity).
  vm_compute; reflexivity.
Defined.

End membership_more_examples_2.

(** ** Consuming a token *)

Section tokens_more.
Import RestAuthViews Examples MoreSpec.
Import VerifyEmailViewSet PasswordResetViewSet.

Ltac run :=
  unfold bind, try_except, query, gets, modify, ret, raise,
    catch_all, catch_only, catch_among; simpl.

Lemma only_row_get {K A} `{Countable K} model (P : K → A → bool)
    (table : gmap K A) pk row :
  only_row P table pk row → objects_get model P table = inr (pk, row).
Proof. intros (Hrow & HP & Honly). by apply objects_get_found. Qed.

Lemma only_row_deleted {K A} `{Countable K} (P : K → A → bool)
    (table : gmap K A) pk row :
  only_row P table pk row →
  ∀ pk' row', delete pk table !! pk' = Some row' → P pk' row' = false.
Proof.
  intros (Hrow & HP & Honly) pk' row'. rewrite lookup_delete_Some.
  intros [Hne Hrow']. destruct (P pk' row') eqn:HP'; [| done].
  exfalso. apply Hne. symmetry. by eapply Honly.
Qed.

(** X4. A presented activation token that the user has and that has not
    run out activates the user, marks the email verified, deletes the
    token and answers 200; presented again, at any time, it is answered
    "Invalid activation link" and changes nothing. *)
Theorem verify_consumes_the_token (now : Z) (request : VerifyEmailViewSet.Request)
    (w : World) (user : User.t) (tpk : Z) (t : VerificationToken.t) :
  auth_user w !! user_id request = Some user →
  only_row
    (is_verification_token (user_id request) (VerifyEmailViewSet.token request))
    (verificationtoken w) tpk t →
  now ≤ VerificationToken.expires_at t →
  ∃ w' epk,
    verify now request w = (inr verified, w')
    ∧ auth_user w' !! user_id request = Some (User.set_is_active true user)
    ∧ extrauserproperties w' !! epk
      = Some (ExtraUserProperties.mk (user_id request) true)
    ∧ verificationtoken w' = delete tpk (verificationtoken w)
    ∧ ∀ later, verify later request w' = (inr activation_invalid, w').
Proof.
  intros Huser Htoken Hfresh.
  pose proof (only_row_get "VerificationToken" _ _ _ _ Htoken) as Hget.
  pose proof (only_row_deleted _ _ _ _ Htoken) as Hgone.
  unfold is_verification_token in Hget.
  assert ((now >? VerificationToken.expires_at t) = false) as Hnot_late.
  { rewrite Z.gtb_ltb. apply Z.ltb_ge. lia. }
  destruct (objects_get "ExtraUserProperties"
              (λ _ x, (ExtraUserProperties.user x =? user_id request)%Z)
              (extrauserproperties w)) as [e | [epk x]] eqn:Hextra.
  - eexists _, (next_pk (extrauserproperties w)). split.
    { unfold verify, update_is_active, User_save, ExtraUserProperties_create,
        ExtraUserProperties_save, VerificationToken_delete. run.
      rewrite objects_get_pk, Huser. simpl. rewrite Hget. simpl.
      rewrite Hnot_late. simpl. rewrite Hextra. simpl. reflexivity. }
    simpl. split; [by rewrite lookup_insert_eq |].
    split; [by rewrite lookup_insert_eq |]. split; [done |].
    intros later. apply (verify_unknown_token later request _
                           (User.set_is_active true user)).
    + simpl. by rewrite lookup_insert_eq.
    + simpl. intros tpk' t' Ht'. by apply (Hgone tpk' t').
  - destruct (objects_get_inr _ _ _ _ _ Hextra) as (_ & Hx & _).
    apply Z.eqb_eq in Hx.
    eexists _, epk. split.
    { unfold verify, update_is_active, User_save, ExtraUserProperties_create,
        ExtraUserProperties_save, VerificationToken_delete. run.
      rewrite objects_get_pk, Huser. simpl. rewrite Hget. simpl.
      rewrite Hnot_late. simpl. rewrite Hextra. simpl. reflexivity. }
    simpl. split; [by rewrite lookup_insert_eq |].
    split.
    { rewrite lookup_insert_eq. unfold ExtraUserProperties.set_email_verified.
      by rewrite Hx. }
    split; [done |].
    intros later. apply (verify_unknown_token later request _
                           (User.set_is_active true user)).
    + simpl. by rewrite lookup_insert_eq.
    + simpl. intros tpk' t' Ht'. by apply (Hgone tpk' t').
Qed.

(** X5. An activation request for a user that is not stored, or with a
    token that user does not have, is answered 400 and changes nothing: no
    user is activated. *)
Theorem verify_rejects_what_it_does_not_know (now : Z)
    (request : VerifyEmailViewSet.Request) (w : World) :
  auth_user w !! user_id request = None
  ∨ (∀ tpk t, verificationtoken w !! tpk = Some t →
       is_verification_token (user_id request)
         (VerifyEmailViewSet.token request) tpk t = false) →
  ∃ response,
    verify now request w = (inr response, w)
    ∧ status response = HTTP_400_BAD_REQUEST.
Proof.
  intros [Hnone | Hnone].
  - exists user_not_found. split; [| done]. unfold verify. run.
    by rewrite objects_get_pk, Hnone.
  - destruct (auth_user w !! user_id request) as [user |] eqn:Huser.
    + exists activation_invalid. split; [| done].
      by eapply verify_unknown_token.
    + exists user_not_found. split; [| done]. unfold verify. run.
      by rewrite objects_get_pk, Huser.
Qed.

(** X6. A presented reset token that is stored once and has not run out
    sets the password of its user, deletes the token and answers 200;
    presented again it is answered "Invalid reset token" and the password
    stays as set. *)
Theorem finish_reset_consumes_the_token (now : Z)
    (request : PasswordResetViewSet.Request) (w : World)
    (tpk : Z) (t : ResetToken.t) (user : User.t) :
  only_row (is_reset_token (PasswordResetViewSet.token request))
    (resettoken w) tpk t →
  now ≤ ResetToken.expires_at t →
  auth_user w !! ResetToken.user t = Some user →
  ∃ w',
    finish_reset now request w = (inr password_reset_complete, w')
    ∧ auth_user w' !! ResetToken.user t
      = Some (User.set_password (new_password request) user)
    ∧ (∀ upk, upk ≠ ResetToken.user t → auth_user w' !! upk = auth_user w !! upk)
    ∧ resettoken w' = delete tpk (resettoken w)
    ∧ ∀ later request',
        PasswordResetViewSet.token request' = PasswordResetViewSet.token request →
        finish_reset later request' w' = (inr reset_invalid, w').
Proof.
  intros Htoken Hfresh Huser.
  pose proof (only_row_get "ResetToken" _ _ _ _ Htoken) as Hget.
  pose proof (only_row_deleted _ _ _ _ Htoken) as Hgone.
  unfold is_reset_token in Hget.
  assert ((now >? ResetToken.expires_at t) = false) as Hnot_late.
  { rewrite Z.gtb_ltb. apply Z.ltb_ge. lia. }
  eexists. split.
  { unfold finish_reset, User_save, ResetToken_delete. run.
    rewrite Hget. simpl. rewrite Hnot_late. simpl.
    rewrite objects_get_pk, Huser. simpl. reflexivity. }
  simpl. split; [by rewrite lookup_insert_eq |].
  split; [by intros upk Hne; rewrite lookup_insert_ne |].
  split; [done |].
  intros later request' Hsame. apply finish_reset_unknown_token.
  simpl. intros tpk' t' Ht'. rewrite Hsame. by apply (Hgone tpk' t').
Qed.

End tokens_more.

Section tokens_more_examples.
Import RestAuthViews Examples MoreSpec.
Import VerifyEmailViewSet PasswordResetViewSet.

Lemma signup_token_of_erin :
  only_row (is_verification_token 5 "activate-erin") (verificationtoken signup) 1
    (VerificationToken.mk 5 "activate-erin" 0 1000).
Proof.
  assert (objects_get "VerificationToken"
            (is_verification_token 5 "activate-erin") (verificationtoken signup)
          = inr (1, VerificationToken.mk 5 "activate-erin" 0 1000)) as Hget
    by (vm_compute; reflexivity).
  exact (objects_get_inr _ _ _ _ _ Hget).
Qed.

Lemma signup_token_of_frank :
  only_row (is_reset_token "reset-frank") (resettoken signup) 1
    (ResetToken.mk 6 "reset-frank" 0 1000).
Proof.
  assert (objects_get "ResetToken" (is_reset_token "reset-frank")
            (resettoken signup)
          = inr (1, ResetToken.mk 6 "reset-frank" 0 1000)) as Hget
    by (vm_compute; reflexivity).
  exact (objects_get_inr _ _ _ _ _ Hget).
Qed.

(** erin presents her token in time (at 500), then once more. *)
Lemma verify_consumes_the_token_witness :
  ∃ w',
    verify 500 erin_verifies signup = (inr verified, w')
    ∧ (User.is_active <$> auth_user w' !! 5) = Some true
    ∧ verificationtoken w' !! 1 = None
    ∧ verify 600 erin_verifies w' = (inr activation_invalid, w').
Proof.
  destruct (verify_consumes_the_token 500 erin_verifies signup
              (User.mk "erin" "erin@clinic.example" "pw5" false) 1
              (VerificationToken.mk 5 "activate-erin" 0 1000))
    as (w' & epk & Hrun & Huser & _ & Htokens & Hagain);
    [vm_compute; reflexivity | exact signup_token_of_erin | simpl; lia |].
  exists w'. split; [exact Hrun |].
  split; [exact (f_equal (fmap User.is_active) Huser) |].
  split; [rewrite Htokens; apply lookup_delete_eq | apply Hagain].
Defined.

Lemma verify_rejects_what_it_does_not_know_witness :
  ∃ response,
    verify 500 erin_mistypes signup = (inr response, signup)
    ∧ status response = HTTP_400_BAD_REQUEST.
Proof.
  apply verify_rejects_what_it_does_not_know. right.
  assert (objects_get "VerificationToken"
            (is_verification_token 5 "activate-eirn") (verificationtoken signup)
          = inl (DoesNotExist "VerificationToken")) as Hnone
    by (vm_compute; reflexivity).
  exact (objects_get_DoesNotExist _ _ _ _ Hnone).
Defined.

(** frank presents his reset token in time (at 500), then once more. *)
Lemma finish_reset_consumes_the_token_witness :
  ∃ w',
    finish_reset 500 frank_resets signup = (inr password_reset_complete, w')
    ∧ (User.password <$> auth_user w' !! 6) = Some "new-pw6"
    ∧ resettoken w' !! 1 = None
    ∧ finish_reset 600 frank_resets w' = (inr reset_invalid, w').
Proof.
  destruct (finish_reset_consumes_the_token 500 frank_resets signup 1
              (ResetToken.mk 6 "reset-frank" 0 1000)
              (User.mk "frank" "frank@clinic.example" "pw6" true))
    as (w' & Hrun & Huser & _ & Htokens & Hagain);
    [exact signup_token_of_frank | simpl; lia | vm_compute; reflexivity |].
  exists w'. split; [exact Hrun |].
  split; [exact (f_equal (fmap User.password) Huser) |].
  split; [rewrite Htokens; apply lookup_delete_eq |].
  apply Hagain. reflexivity.
Defined.

End tokens_more_examples.

(** ** Requesting a password reset *)

Section request_reset.
Import RestAuthViews RestAuthViewsMore MoreSpec.
Import RestAuthViewsMore.PasswordResetViewSet.
Context `{LoginUtils}.

Ltac run :=
  unfold bind, try_except, query, gets, modify, ret, raise,
    catch_all, catch_only, catch_among; simpl.

Lemma logged_deletions_tables (rows : list (Z * ResetToken.t)) (w : World) :
  resettoken (foldr (λ row w', record (DeleteResetToken row.1) w') w rows)
  = resettoken w
  ∧ auth_user (foldr (λ row w', record (DeleteResetToken row.1) w') w rows)
    = auth_user w.
Proof. induction rows as [| row rows [IH1 IH2]]; simpl; by split. Qed.

(** The tokens a reset request for user [upk] leaves: those of the other
    users, and the new one. *)
Lemma request_reset_run env request w did uname upk user :
  resolve_domain_id w (domain request) (phone request) = inr did →
  combine_domain_and_username (username request) (phone request) did
  = inr uname →
  only_row (λ _ u, String.eqb (User.username u) uname) (auth_user w) upk user →
  let others := filter (λ kv, ResetToken.user kv.2 ≠ upk) (resettoken w) in
  let new :=
    ResetToken.mk upk (uuid4 env) (now env) (now env + hours_24) in
  ∃ w',
    request_reset env request w
    = (inr match send_password_reset_email (User.email user) (uuid4 env) with
           | inr _ => reset_requested
           | inl e => reset_request_failed e
           end, w')
    ∧ resettoken w' = <[next_pk others:=new]> others
    ∧ auth_user w' = auth_user w.
Proof.
  intros Hresolve Hcombine Huser others new.
  pose proof (only_row_get "User" _ _ _ _ Huser) as Hget.
  unfold request_reset, ResetToken_delete_of, ResetToken_create. run.
  rewrite Hresolve. simpl. rewrite Hcombine. simpl. rewrite Hget. simpl.
  match goal with
  | |- context [foldr ?f ?base ?rows] =>
      destruct (logged_deletions_tables rows base) as [Htokens Husers];
      set (w1 := foldr f base rows) in *
  end.
  simpl in Htokens, Husers.
  destruct (send_password_reset_email (User.email user) (uuid4 env));
    simpl; eexists; (split; [reflexivity |]); simpl; rewrite Htokens, Husers;
    done.
Qed.

(** X7. A reset request for a stored user leaves that user exactly one
    reset token: the new one, with a fresh text, expiring a day from now.
    The user's earlier tokens are gone and the tokens of other users are
    untouched.  This holds whether or not the mail went out: when the
    mailer fails the answer is 400, and the tokens have been replaced all
    the same. *)
Theorem request_reset_leaves_one_token
    (env : Ambient) (request : Request) (w : World)
    (did uname : string) (upk : Z) (user : User.t) :
  resolve_domain_id w (domain request) (phone request) = inr did →
  combine_domain_and_username (username request) (phone request) did
  = inr uname →
  only_row (λ _ u, String.eqb (User.username u) uname) (auth_user w) upk user →
  ∃ w' response tpk,
    request_reset env request w = (inr response, w')
    ∧ (response = reset_requested
       ∨ status response = HTTP_400_BAD_REQUEST
         ∧ ∃ e, send_password_reset_email (User.email user) (uuid4 env) = inl e)
    ∧ resettoken w' !! tpk
      = Some (ResetToken.mk upk (uuid4 env) (now env) (now env + hours_24))
    ∧ (∀ pk t, resettoken w' !! pk = Some t → ResetToken.user t = upk → pk = tpk)
    ∧ (∀ pk t, ResetToken.user t ≠ upk →
         resettoken w' !! pk = Some t ↔ resettoken w !! pk = Some t).
Proof.
  intros Hresolve Hcombine Huser.
  destruct (request_reset_run env request w did uname upk user
              Hresolve Hcombine Huser) as (w' & Hrun & Htokens & _).
  set (others := filter (λ kv, ResetToken.user kv.2 ≠ upk) (resettoken w)) in *.
  eexists w', _, (next_pk others). split; [exact Hrun |].
  split.
  { destruct (send_password_reset_email (User.email user) (uuid4 env)) as [e |];
      [right | by left]. split; [done | by exists e]. }
  rewrite Htokens. split; [by rewrite lookup_insert_eq |].
  split.
  - intros pk t. rewrite lookup_insert_Some.
    intros [[Hpk _] | [_ Hother]] Hmine; [done |].
    apply map_lookup_filter_Some in Hother as [_ Hne]. simpl in Hne. done.
  - intros pk t Hne. rewrite lookup_insert_Some. split.
    + intros [[_ <-] | [_ Hother]]; [done |].
      by apply map_lookup_filter_Some in Hother as [Hrow _].
    + intros Hrow. right.
      assert (others !! pk = Some t) as Hother
        by (by apply map_lookup_filter_Some).
      split; [| done]. intros <-. by rewrite next_pk_fresh in Hother.
Qed.

(** X8. An identity that cannot be resolved, because the domain lookup or
    the user name helper raises or because no user has the name, is
    answered 400, and no token is deleted or created. *)
Theorem request_reset_for_unknown_identity
    (env : Ambient) (request : Request) (w : World) :
  (∃ e, resolve_domain_id w (domain request) (phone request) = inl e)
  ∨ (∃ did,
       resolve_domain_id w (domain request) (phone request) = inr did
       ∧ ((∃ e, combine_domain_and_username (username request) (phone request)
                  did = inl e)
          ∨ ∃ uname,
              combine_domain_and_username (username request) (phone request) did
              = inr uname
              ∧ ∀ upk u, auth_user w !! upk = Some u →
                         String.eqb (User.username u) uname = false)) →
  ∃ response,
    request_reset env request w = (inr response, w)
    ∧ status response = HTTP_400_BAD_REQUEST.
Proof.
  intros [[e Hresolve] | (did & Hresolve & [[e Hcombine] | (uname & Hcombine & Hnone)])];
    unfold request_reset; run; rewrite Hresolve; simpl.
  - by eexists.
  - rewrite Hcombine. simpl. by eexists.
  - rewrite Hcombine. simpl.
    rewrite (objects_get_missing _ _ _ Hnone). simpl. by eexists.
Qed.

Lemma finish_reset_run now request w tpk t user :
  only_row (is_reset_token (RestAuthViews.PasswordResetViewSet.token request))
    (resettoken w) tpk t →
  now ≤ ResetToken.expires_at t →
  auth_user w !! ResetToken.user t = Some user →
  RestAuthViews.PasswordResetViewSet.finish_reset now request w
  = (inr RestAuthViews.PasswordResetViewSet.password_reset_complete,
     record (DeleteResetToken tpk)
       (upd_resettoken (delete tpk)
          (record (SaveUser (ResetToken.user t)
                     (User.set_password
                        (RestAuthViews.PasswordResetViewSet.new_password request)
                        user))
             (upd_auth_user
                <[ResetToken.user t:=
                    User.set_password
                      (RestAuthViews.PasswordResetViewSet.new_password request)
                      user]> w)))).
Proof.
  intros Htoken Hfresh Huser.
  pose proof (only_row_get "ResetToken" _ _ _ _ Htoken) as Hget.
  unfold is_reset_token in Hget.
  assert ((now >? ResetToken.expires_at t) = false) as Hnot_late.
  { rewrite Z.gtb_ltb. apply Z.ltb_ge. lia. }
  unfold RestAuthViews.PasswordResetViewSet.finish_reset, User_save,
    ResetToken_delete. run.
  rewrite Hget. simpl. rewrite Hnot_late. simpl.
  by rewrite objects_get_pk, Huser.
Qed.

(** X9. Request, then finish.  After a reset request for a stored user,
    the mailed token, presented within a day, sets the user's password;
    an earlier token of that user, presented at any time, is answered
    "Invalid reset token" and sets nothing.  (The new text is assumed to be
    fresh: no other user's token carries it, and the earlier text is no
    other user's either.) *)
Theorem request_reset_replaces_the_token
    (env : Ambient) (request : Request) (w : World)
    (did uname : string) (upk : Z) (user : User.t)
    (later : Z) (old new_password : string) :
  resolve_domain_id w (domain request) (phone request) = inr did →
  combine_domain_and_username (username request) (phone request) did
  = inr uname →
  only_row (λ _ u, String.eqb (User.username u) uname) (auth_user w) upk user →
  (∀ pk t, resettoken w !! pk = Some t → ResetToken.user t ≠ upk →
           ResetToken.token t ≠ uuid4 env ∧ ResetToken.token t ≠ old) →
  old ≠ uuid4 env →
  later ≤ now env + hours_24 →
  let w' := (request_reset env request w).2 in
  (∃ w'',
     RestAuthViews.PasswordResetViewSet.finish_reset later
       (RestAuthViews.PasswordResetViewSet.mkRequest (uuid4 env) new_password) w'
     = (inr RestAuthViews.PasswordResetViewSet.password_reset_complete, w'')
     ∧ auth_user w'' !! upk = Some (User.set_password new_password user))
  ∧ RestAuthViews.PasswordResetViewSet.finish_reset later
      (RestAuthViews.PasswordResetViewSet.mkRequest old new_password) w'
    = (inr RestAuthViews.PasswordResetViewSet.reset_invalid, w').
Proof.
  intros Hresolve Hcombine Huser Hforeign Hold Hlater w'.
  destruct (request_reset_run env request w did uname upk user
              Hresolve Hcombine Huser) as (w1 & Hrun & Htokens & Husers).
  subst w'. rewrite Hrun. simpl.
  set (others := filter (λ kv, ResetToken.user kv.2 ≠ upk) (resettoken w)) in *.
  set (new := ResetToken.mk upk (uuid4 env) (now env) (now env + hours_24)) in *.
  assert (∀ pk t, others !! pk = Some t →
            ResetToken.token t ≠ uuid4 env ∧ ResetToken.token t ≠ old)
    as Hothers.
  { intros pk t Hother.
    apply map_lookup_filter_Some in Hother as [Hrow Hne]. by eapply Hforeign. }
  destruct Huser as (Hurow & _ & _).
  split.
  - eexists. split.
    + apply (finish_reset_run later _ w1 (next_pk others) new user).
      * split; [by rewrite Htokens, lookup_insert_eq |].
        split; [by unfold is_reset_token; simpl; rewrite String.eqb_refl |].
        intros pk t. rewrite Htokens, lookup_insert_Some.
        intros [[Hpk _] | [_ Hother]] Htext; [done |].
        unfold is_reset_token in Htext. simpl in Htext.
        apply String.eqb_eq in Htext. by destruct (Hothers pk t Hother).
      * done.
      * simpl. by rewrite Husers.
    + simpl. by rewrite lookup_insert_eq.
  - apply finish_reset_unknown_token. simpl.
    intros pk t. rewrite Htokens, lookup_insert_Some.
    intros [[_ <-] | [_ Hother]]; simpl.
    + by apply String.eqb_neq.
    + apply String.eqb_neq. by destruct (Hothers pk t Hother).
Qed.

End request_reset.

Section request_reset_examples.
Import RestAuthViews RestAuthViewsMore MoreSpec Examples MoreExamples2.
Import RestAuthViewsMore.PasswordResetViewSet.

Lemma reset_desk_bob :
  only_row (λ _ u, String.eqb (User.username u) "bob") (auth_user reset_desk) 2
    (User.mk "bob" "bob@clinic.example" "pw2" true).
Proof.
  assert (objects_get "User" (λ _ u, String.eqb (User.username u) "bob")
            (auth_user reset_desk)
          = inr (2, User.mk "bob" "bob@clinic.example" "pw2" true)) as Hget
    by (vm_compute; reflexivity).
  exact (objects_get_inr _ _ _ _ _ Hget).
Qed.

(** bob asks for a reset while the mailer is down. *)
Lemma request_reset_leaves_one_token_witness :
  ∃ w' response tpk,
    @request_reset mailer_down morning bob_requests_reset reset_desk
    = (inr response, w')
    ∧ status response = HTTP_400_BAD_REQUEST
    ∧ resettoken w' !! tpk = Some (ResetToken.mk 2 "new-bob" 2000 (2000 + hours_24))
    ∧ ∀ pk t, resettoken w' !! pk = Some t → ResetToken.user t = 2 → pk = tpk.
Proof.
  destruct (@request_reset_leaves_one_token mailer_down morning
              bob_requests_reset reset_desk "clinic" "bob" 2
              (User.mk "bob" "bob@clinic.example" "pw2" true))
    as (w' & response & tpk & Hrun & Hresponse & Hnew & Honly & _);
    [vm_compute; reflexivity | reflexivity | exact reset_desk_bob |].
  exists w', response, tpk.
  split; [exact Hrun |].
  split.
  { destruct Hresponse as [-> | [Hstatus _]]; [| exact Hstatus].
    assert ((@request_reset mailer_down morning bob_requests_reset reset_desk).1
            = inr (@reset_request_failed mailer_down (OtherError "SMTP")))
      as Hfailed by (vm_compute; reflexivity).
    rewrite Hrun in Hfailed. simpl in Hfailed. discriminate Hfailed. }
  split; [exact Hnew | exact Honly].
Defined.

Lemma request_reset_for_unknown_identity_witness :
  ∃ response,
    @request_reset sample_login_utils morning zoe_requests_reset reset_desk
    = (inr response, reset_desk)
    ∧ status response = HTTP_400_BAD_REQUEST.
Proof.
  apply (@request_reset_for_unknown_identity sample_login_utils).
  right. exists "clinic". split; [vm_compute; reflexivity |].
  right. exists "zoe". split; [reflexivity |].
  assert (objects_get "User" (λ _ u, String.eqb (User.username u) "zoe")
            (auth_user reset_desk)
          = inl (DoesNotExist "User")) as Hnone by (vm_compute; reflexivity).
  exact (objects_get_DoesNotExist _ _ _ _ Hnone).
Defined.

(** bob asks for a reset, then presents the new token, or the old one. *)
Lemma request_reset_replaces_the_token_witness :
  let w' :=
    (@request_reset sample_login_utils morning bob_requests_reset reset_desk).2 in
  (∃ w'',
     RestAuthViews.PasswordResetViewSet.finish_reset 3000
       (RestAuthViews.PasswordResetViewSet.mkRequest "new-bob" "pw-new") w'
     = (inr RestAuthViews.PasswordResetViewSet.password_reset_complete, w'')
     ∧ auth_user w'' !! 2
       = Some (User.mk "bob" "bob@clinic.example" "pw-new" true))
  ∧ RestAuthViews.PasswordResetViewSet.finish_reset 3000
      (RestAuthViews.PasswordResetViewSet.mkRequest "old-bob" "pw-new") w'
    = (inr RestAuthViews.PasswordResetViewSet.reset_invalid, w').
Proof.
  apply (@request_reset_replaces_the_token sample_login_utils morning
           bob_requests_reset reset_desk "clinic" "bob" 2
           (User.mk "bob" "bob@clinic.example" "pw2" true) 3000 "old-bob"
           "pw-new").
  - vm_compute; reflexivity.
  - reflexivity.
  - exact reset_desk_bob.
  - assert (Forall (λ kv : Z * ResetToken.t,
                      ResetToken.user kv.2 ≠ 2 →
                      ResetToken.token kv.2 ≠ "new-bob"
                      ∧ ResetToken.token kv.2 ≠ "old-bob")
              (map_to_list (resettoken reset_desk))) as Hall.
    { match goal with
      | |- Forall _ ?l => let l' := eval vm_compute in l in change l with l'
      end.
      rewrite !Forall_cons. simpl.
      split; [intros Hne | split; [intros Hne | apply Forall_nil_2]];
        first [by exfalso; apply Hne | split; discriminate]. }
    rewrite Forall_forall in Hall. intros pk t Hrow.
    apply (Hall (pk, t)). by apply elem_of_map_to_list.
  - discriminate.
  - vm_compute. discriminate.
Defined.

End request_reset_examples.

(** ** Search: what a page holds *)

Section search_more.
Import RestViews RestViews.AppealViewSet Spec SearchSpec.
Context `{FhiQueries}.

Lemma py_slice_subseteq {A} (l : list A) start stop (x : A) :
  x ∈ py_slice l start stop → x ∈ l.
Proof. unfold py_slice. intros Hin. eapply subseteq_drop, subseteq_take, Hin. Qed.

(** The answer to a search with a query and integer paging parameters. *)
Lemma search_run request w text ps p :
  q request = Some text → text ≠ "" →
  int_or 10 (page_size request) = inr ps →
  int_or 1 (page request) = inr p →
  ps ≠ 0 →
  let all := hits w (search_user request) text in
  search request w
  = (inr (mkResponse
            (SearchResultSerializer
               (mkSearchPage (Z.of_nat (length all))
                  (p <? Z.of_nat (length all) `div` ps + 1)
                  (p >? 1)
                  (py_slice all ((p - 1) * ps) ((p - 1) * ps + ps))))
            HTTP_200_OK), w).
Proof.
  intros Hq Hne Hps Hp Hps0 all.
  unfold search, bind, query, gets, ret, raise. rewrite Hq. simpl.
  rewrite (proj2 (String.eqb_neq text "") Hne). simpl.
  rewrite Hps, Hp. simpl. by rewrite (proj2 (Z.eqb_neq ps 0)) by lia.
Qed.

Lemma search_results_window request w text ps p :
  q request = Some text → text ≠ "" →
  int_or 10 (page_size request) = inr ps →
  1 ≤ ps → 1 ≤ p →
  search_results (with_page p request) w
  = take (Z.to_nat ps)
      (drop (Z.to_nat ((p - 1) * ps)) (hits w (search_user request) text)).
Proof.
  intros Hq Hne Hps Hps1 Hp1. unfold search_results.
  rewrite (search_run (with_page p request) w text ps p) by (done || lia).
  simpl. apply py_slice_window; nia.
Qed.

(** X10. Whatever page a search answers with, each of its rows is the
    summary of an appeal that is in the caller's visible set and matches
    the query: a search never shows a hidden appeal. *)
Theorem search_shows_only_visible_appeals
    (request : SearchRequest) (w w' : World) (pg : SearchPage) (code : Z)
    (row : SearchResult) :
  search request w = (inr (mkResponse (SearchResultSerializer pg) code), w') →
  row ∈ results pg →
  ∃ a,
    filter_to_allowed_appeals w (search_user request) !! result_id row = Some a
    ∧ matching_appeals w (search_user request) (default "" (q request))
      !! result_id row = Some a
    ∧ row = to_search_result (result_id row, a).
Proof.
  intros Hrun Hrow.
  assert (row ∈ hits w (search_user request) (default "" (q request))) as Hhit.
  { revert Hrun. unfold search, bind, query, gets, ret, raise.
    destruct (default "" (q request) =? "")%string; [done |]. simpl.
    destruct (int_or 10 (page_size request)) as [e | ps]; [done |]. simpl.
    destruct (int_or 1 (page request)) as [e | p]; [done |]. simpl.
    destruct (ps =? 0); [done |]. intros [= <- _ _].
    simpl in Hrow. by apply py_slice_subseteq in Hrow. }
  unfold hits in Hhit. rewrite sort_newest_first_perm in Hhit.
  apply list_elem_of_fmap in Hhit as ([pk a] & -> & Hin).
  apply elem_of_map_to_list in Hin. exists a. simpl.
  split; [| by split].
  unfold matching_appeals in Hin.
  by apply objects_filter_lookup_Some in Hin as [Hvisible _].
Qed.

Lemma pages_up_to {A} (l : list A) (ps n : nat) :
  concat ((λ i : nat, take ps (drop (i * ps) l)) <$> seq 0 n) = take (n * ps) l.
Proof.
  induction n as [| n IH]; [done |].
  rewrite seq_S, fmap_app, concat_app, IH. simpl. rewrite app_nil_r.
  rewrite take_take_drop. f_equal. lia.
Qed.

(** X11. The pages of a search, read one after the other, give every
    matching row once and in order: pages 1 to [n] of size [ps] hold the
    first [n * ps] rows, and so all of them as soon as [n * ps] reaches
    their number. *)
Theorem search_pages_cover_the_rows
    (request : SearchRequest) (w : World) (text : string) (ps : Z) (n : nat) :
  q request = Some text → text ≠ "" →
  int_or 10 (page_size request) = inr ps →
  1 ≤ ps →
  let all := hits w (search_user request) text in
  concat ((λ i : nat, search_results (with_page (Z.of_nat (S i)) request) w)
            <$> seq 0 n)
  = take (n * Z.to_nat ps) all
  ∧ (Z.of_nat (length all) ≤ Z.of_nat n * ps →
     concat ((λ i : nat, search_results (with_page (Z.of_nat (S i)) request) w)
               <$> seq 0 n)
     = all).
Proof.
  intros Hq Hne Hps Hps1 all.
  assert (concat ((λ i : nat,
                     search_results (with_page (Z.of_nat (S i)) request) w)
                    <$> seq 0 n)
          = take (n * Z.to_nat ps) all) as Hpages.
  { rewrite <- pages_up_to. f_equal. apply list_fmap_ext. intros _ i _.
    rewrite (search_results_window request w text ps) by (done || lia).
    do 2 f_equal. lia. }
  split; [exact Hpages |].
  intros Hall. rewrite Hpages. apply take_ge. lia.
Qed.

(** X12. The [next] flag of a page says that the rows reach the end of
    that page, not that a row follows it: it is true exactly when
    [page * page_size] is at most the number of rows, while the following
    page has a row exactly when [page * page_size] is less than it.  So on
    the last page of a result whose size is a multiple of the page size,
    [next] is true and the next page is empty. *)
Theorem search_next_flag
    (request : SearchRequest) (w : World) (text : string) (ps p : Z)
    (pg : SearchPage) :
  q request = Some text → text ≠ "" →
  int_or 10 (page_size request) = inr ps →
  int_or 1 (page request) = inr p →
  1 ≤ ps → 1 ≤ p →
  search request w
  = (inr (mkResponse (SearchResultSerializer pg) HTTP_200_OK), w) →
  let rows := Z.of_nat (length (hits w (search_user request) text)) in
  (next pg = true ↔ p * ps ≤ rows)
  ∧ (search_results (with_page (p + 1) request) w ≠ [] ↔ p * ps < rows).
Proof.
  intros Hq Hne Hps Hp Hps1 Hp1 Hrun rows.
  rewrite (search_run request w text ps p) in Hrun by (done || lia).
  injection Hrun as <-. simpl. fold rows. split.
  - rewrite Z.ltb_lt. split.
    + intros Hlt. assert (p ≤ rows `div` ps) as Hle by lia.
      pose proof (Z.mul_div_le rows ps ltac:(lia)). nia.
    + intros Hle. assert (p ≤ rows `div` ps); [| lia].
      apply Z.div_le_lower_bound; lia.
  - rewrite (search_results_window request w text ps (p + 1)) by (done || lia).
    replace (p + 1 - 1) with p by lia.
    set (all := hits w (search_user request) text) in *.
    rewrite <- length_zero_iff_nil, length_take, length_drop.
    subst rows. lia.
Qed.

(** X13. A search writes nothing, whatever it is asked.  Without a query
    it answers 400; with a query and a page size or page that is not an
    integer it raises [ValueError]; with page size 0 it raises
    [ZeroDivisionError]. *)
Theorem search_is_read_only (request : SearchRequest) (w : World) :
  (search request w).2 = w
  ∧ (default "" (q request) = "" →
     (search request w).1
     = inr (mkResponse (ErrorSerializer missing_query_message)
              HTTP_400_BAD_REQUEST))
  ∧ (default "" (q request) ≠ "" →
     page_size request = OtherText
     ∨ (page_size request ≠ OtherText ∧ page request = OtherText) →
     (search request w).1 = inl ValueError)
  ∧ (default "" (q request) ≠ "" →
     page_size request = IntText 0 → page request ≠ OtherText →
     (search request w).1 = inl ZeroDivisionError).
Proof.
  unfold search, bind, query, gets, ret, raise. split_and!.
  - repeat (case_match; simplify_eq; simpl in * ); done.
  - intros ->. done.
  - intros Hq%String.eqb_neq. rewrite Hq. simpl.
    intros [-> | [Hps ->]]; [done |].
    by destruct (page_size request).
  - intros Hq%String.eqb_neq Hps Hp. rewrite Hq, Hps. simpl.
    by destruct (page request).
Qed.

End search_more.

Section search_more_examples.
Import RestViews RestViews.AppealViewSet Spec SearchSpec Examples SearchExamples.

(** The second page of carol's fifteen appeals starts with appeal 5, which
    is hers. *)
Lemma search_shows_only_visible_appeals_witness :
  ∃ pg row a,
    @search sample_queries second_page archive
    = (inr (mkResponse (SearchResultSerializer pg) HTTP_200_OK), archive)
    ∧ results pg !! 0%nat = Some row
    ∧ result_id row = 5
    ∧ @filter_to_allowed_appeals sample_queries archive (Some 1) !! 5 = Some a.
Proof.
  pose (pg := mkSearchPage 15 false true
                (py_slice (@hits sample_queries archive (Some 1) "APPEAL")
                   10 20)).
  pose (row := to_search_result
                 (5, an_appeal "appeal" 1 None true false false None (5 * day))).
  assert (@search sample_queries second_page archive
          = (inr (mkResponse (SearchResultSerializer pg) HTTP_200_OK), archive))
    as Hrun by (vm_compute; reflexivity).
  assert (results pg !! 0%nat = Some row) as Hrow by (vm_compute; reflexivity).
  destruct (@search_shows_only_visible_appeals sample_queries second_page
              archive archive pg HTTP_200_OK row Hrun
              (list_elem_of_lookup_2 _ _ _ Hrow))
    as (a & Ha & _ & _).
  exists pg, row, a. split; [exact Hrun |]. split; [exact Hrow |].
  split; [reflexivity | exact Ha].
Defined.

(** Pages 1 and 2 of size ten hold carol's fifteen appeals. *)
Lemma search_pages_cover_the_rows_witness :
  concat ((λ i : nat,
             @search_results sample_queries
               (with_page (Z.of_nat (S i)) second_page) archive)
            <$> seq 0 2)
  = @hits sample_queries archive (Some 1) "APPEAL".
Proof.
  assert (length (@hits sample_queries archive (Some 1) "APPEAL") = 15%nat)
    as Hlen by (vm_compute; reflexivity).
  apply (@search_pages_cover_the_rows sample_queries second_page archive
           "APPEAL" 10 2);
    [reflexivity | discriminate | reflexivity | lia |].
  simpl search_user. rewrite Hlen. lia.
Defined.

(** The third page of five among fifteen rows is the last one with rows,
    and its [next] flag is set. *)
Lemma search_next_flag_witness :
  ∃ pg,
    @search sample_queries third_page_of_five archive
    = (inr (mkResponse (SearchResultSerializer pg) HTTP_200_OK), archive)
    ∧ next pg = true
    ∧ ¬ @search_results sample_queries (with_page 4 third_page_of_five) archive
        ≠ [].
Proof.
  assert (length (@hits sample_queries archive (Some 1) "APPEAL") = 15%nat)
    as Hlen by (vm_compute; reflexivity).
  pose (pg := mkSearchPage 15 true true
                (py_slice (@hits sample_queries archive (Some 1) "APPEAL")
                   10 15)).
  assert (@search sample_queries third_page_of_five archive
          = (inr (mkResponse (SearchResultSerializer pg) HTTP_200_OK), archive))
    as Hrun by (vm_compute; reflexivity).
  destruct (@search_next_flag sample_queries third_page_of_five archive
              "APPEAL" 5 3 pg)
    as [Hnext Hfollowing];
    [reflexivity | discriminate | reflexivity | reflexivity | lia | lia
    | exact Hrun |].
  simpl search_user in Hnext, Hfollowing. rewrite Hlen in Hnext, Hfollowing.
  exists pg. split; [exact Hrun |].
  split; [apply Hnext; lia |].
  intros Hrows. apply Hfollowing in Hrows. lia.
Defined.

(** A search without a query answers 400 and changes nothing. *)
Lemma search_is_read_only_witness :
  (@search sample_queries no_query archive).2 = archive
  ∧ (@search sample_queries no_query archive).1
    = inr (mkResponse (ErrorSerializer missing_query_message)
             HTTP_400_BAD_REQUEST).
Proof.
  destruct (@search_is_read_only sample_queries no_query archive)
    as (Hsame & Hmissing & _ & _).
  split; [exact Hsame | apply Hmissing; reflexivity].
Defined.

End search_more_examples.

(** ** Sending a fax: what is written, and for whom *)

Section send_fax_more.
Import RestViews RestViews.AppealViewSet Spec PatientSpec.
Context `{FhiQueries}.

Ltac run :=
  unfold bind, try_except, query, gets, modify, ret, raise,
    catch_all, catch_only, catch_among; simpl.

(** X14. Sending the fax of an appeal outside the caller's visible set,
    stored or not, raises [Http404] before anything is written: the fax
    number of a hidden appeal cannot be changed, and nothing is sent. *)
Theorem send_fax_of_hidden_appeal (request : SendFaxRequest) (w : World) :
  filter_to_allowed_appeals w (user request) !! appeal_id request = None →
  send_fax request w = (inl Http404, w).
Proof.
  intros Hhidden. unfold send_fax, get_object_or_404. run.
  by rewrite Hhidden.
Qed.




(** With one profile per user, the caller is the patient on an appeal that
    has a patient exactly when the caller's profile is that patient. *)
Lemma caller_is_patient_on_patient_of w user a ppk :
  one_profile_per_user w →
  Appeal.patient_user a = Some ppk →
  caller_is_patient_on w user a ↔ patient_of w user = Some ppk.
Proof.
  intros Hone Hpatient. unfold caller_is_patient_on, patient_of. split.
  - intros (ppk' & p & Hsome & Hrow & Huser).
    assert (ppk' = ppk) as -> by congruence.
    rewrite (objects_get_found "PatientUser" _ (patientuser w) ppk p);
      [done | done | by apply bool_decide_eq_true_2 |].
    intros k' p' Hrow' Hp'. apply bool_decide_eq_true_1 in Hp'.
    apply (Hone k' ppk p' p Hrow' Hrow). congruence.
  - destruct (objects_get "PatientUser" _ (patientuser w)) as [e | [k p]] eqn:Hget;
      [done |].
    intros [= ->]. apply objects_get_inr in Hget as (Hrow & Hp & _).
    apply bool_decide_eq_true_1 in Hp. by exists ppk, p.
Qed.

(** X16. On a visible appeal that has a patient, [send_fax] hands the
    appeal off to the professional exactly when the caller is that patient
    and the denial is marked "professional must finish": it then answers
    "pending professional", leaves the appeal pending and sends no fax.
    In every other case it clears the three pending flags, sends the fax
    and answers 204. *)
Theorem send_fax_of_appeal_with_patient
    (request : SendFaxRequest) (w : World) (a : Appeal.t) (d : Denial.t)
    (u : User.t) (ppk : Z) :
  one_profile_per_user w →
  filter_to_allowed_appeals w (user request) !! appeal_id request = Some a →
  denial w !! Appeal.for_denial a = Some d →
  (user request ≫= λ pk, auth_user w !! pk) = Some u →
  Appeal.patient_user a = Some ppk →
  let w' := (send_fax request w).2 in
  ∃ a',
    appeal w' !! appeal_id request = Some a'
    ∧ Appeal.pending_patient a' = false
    ∧ (caller_is_patient_on w (user request) a
       ∧ Denial.professional_to_finish d = true →
       (send_fax request w).1 = inr pending_professional_response
       ∧ Appeal.pending a' = true
       ∧ Appeal.pending_professional a' = true
       ∧ ∀ pk, RemoteSendFax pk ∈ history w' → RemoteSendFax pk ∈ history w)
    ∧ (¬ (caller_is_patient_on w (user request) a
          ∧ Denial.professional_to_finish d = true) →
       (send_fax request w).1 = inr fax_sent
       ∧ Appeal.pending a' = false
       ∧ Appeal.pending_professional a' = false
       ∧ RemoteSendFax (appeal_id request) ∈ history w').
Proof.
  intros Hone Hvisible Hdenial Huser Hpatient w'.
  pose proof (caller_is_patient_on_patient_of w (user request) a ppk
                Hone Hpatient) as Hcaller.
  destruct (decide (patient_of w (user request) = Some ppk)) as [Hsame | Hother].
  - destruct (Denial.professional_to_finish d) eqn:Hfinish.
    + destruct (send_fax_by_patient request w a d u ppk)
        as (a' & Hresponse & Hrow & Hprofessional & Hpending_patient
            & Hpending & Hsent); [done.. |].
      exists a'. split; [done |]. split; [done |]. split.
      * by intros _.
      * intros Hnot. exfalso. apply Hnot. split; [by apply Hcaller | done].
    + destruct (send_fax_dispatches request w a d u ppk)
        as (a' & Hresponse & Hrow & Hprofessional & Hpending_patient
            & Hpending & Hsent); [done.. | by right |].
      exists a'. split; [done |]. split; [done |]. split.
      * by intros [_ ?].
      * by intros _.
  - destruct (send_fax_dispatches request w a d u ppk)
      as (a' & Hresponse & Hrow & Hprofessional & Hpending_patient
          & Hpending & Hsent); [done.. | by left |].
    exists a'. split; [done |]. split; [done |]. split.
    + intros [Hc _]. exfalso. apply Hother. by apply Hcaller.
    + by intros _.
Qed.

End send_fax_more.

Section send_fax_more_examples.
Import RestViews RestViews.AppealViewSet Spec PatientSpec Examples FaxExamples.

(** dave cannot see appeal 2: his request is a 404 and the practice is as
    it was. *)
Lemma send_fax_of_hidden_appeal_witness :
  appeal practice !! 2 ≠ None
  ∧ @send_fax sample_queries dave_sends_fax_2 practice = (inl Http404, practice).
Proof.
  split; [vm_compute; discriminate |].
  apply (@send_fax_of_hidden_appeal sample_queries dave_sends_fax_2 practice).
  vm_compute; reflexivity.
Defined.

Lemma practice_one_profile_per_user : one_profile_per_user practice.
Proof.
  intros pk1 pk2 p1 p2 H1 H2 _.
  assert (∀ pk p, patientuser practice !! pk = Some p → pk = 1) as Honly.
  { intros pk p. unfold practice. simpl. rewrite lookup_singleton_Some.
    by intros [<- _]. }
  rewrite (Honly _ _ H1), (Honly _ _ H2). reflexivity.
Qed.

(** pat, the patient on appeal 2, sends its fax: the appeal is handed off
    to the professional.  carol sends it: the fax goes out. *)
Lemma send_fax_of_appeal_with_patient_witness :
  (@send_fax sample_queries pat_sends_fax practice).1
  = inr pending_professional_response
  ∧ (@send_fax sample_queries carol_sends_fax_2 practice).1 = inr fax_sent
  ∧ RemoteSendFax 2
    ∈ history (@send_fax sample_queries carol_sends_fax_2 practice).2.
Proof.
  pose (a := an_appeal "a-2" 2 (Some 1) true false false None (101 * day)).
  pose (d := Denial.mk "d-2" (Some 1) (Some 1) (Some 1) true None None).
  destruct (@send_fax_of_appeal_with_patient sample_queries pat_sends_fax
              practice a d (User.mk "pat" "pat@home.example" "pw3" true) 1)
    as (a1 & _ & _ & Hpat & _);
    [exact practice_one_profile_per_user | vm_compute; reflexivity
    | vm_compute; reflexivity | vm_compute; reflexivity | reflexivity |].
  destruct (@send_fax_of_appeal_with_patient sample_queries carol_sends_fax_2
              practice a d
              (User.mk "carol" "carol@practice.example" "pw1" true) 1)
    as (a2 & _ & _ & _ & Hcarol);
    [exact practice_one_profile_per_user | vm_compute; reflexivity
    | vm_compute; reflexivity | vm_compute; reflexivity | reflexivity |].
  assert (patientuser practice !! 1 = Some (PatientUser.mk 3 true None))
    as Hone by (vm_compute; reflexivity).
  destruct Hpat as (Hhanded & _).
  { split; [| reflexivity].
    exists 1, (PatientUser.mk 3 true None).
    split; [reflexivity |]. split; [exact Hone | reflexivity]. }
  destruct Hcarol as (Hsent & _ & _ & Hfax).
  { intros [(ppk & p & Happeal & Hrow & Huser) _].
    injection Happeal as <-.
    rewrite Hone in Hrow. injection Hrow as <-. discriminate Huser. }
  split; [exact Hhanded |]. split; [exact Hsent | exact Hfax].
Defined.


End send_fax_more_examples.

(** ** Statistics: the figures fit together *)

Section statistics_more.
Import RestViews RestViews.AppealViewSet Spec.
Context `{FhiQueries} `{Dateutil}.

Ltac run :=
  unfold bind, try_except, query, gets, modify, ret, raise,
    catch_all, catch_only, catch_among; simpl.

Lemma count_rows_filter {A} (P : Z → A → bool) (rows : gmap Z A) :
  0 ≤ count_rows (objects_filter P rows) ≤ count_rows rows.
Proof.
  unfold count_rows, objects_filter.
  pose proof (map_size_filter (λ kv : Z * A, Is_true (P kv.1 kv.2)) rows). lia.
Qed.

Lemma size_list_to_set_le (l : list Z) :
  (size (list_to_set l : gset Z) ≤ length l)%nat.
Proof.
  induction l as [| x l IH].
  - by rewrite list_to_set_nil, size_empty.
  - rewrite list_to_set_cons, size_union_alt, size_singleton. simpl.
    assert (list_to_set l ∖ {[x]} ⊆ (list_to_set l : gset Z)) as Hsub
      by (intros y [Hy _]%elem_of_difference; exact Hy).
    apply subseteq_size in Hsub. lia.
Qed.

Lemma length_omap_le {A B} (f : A → option B) (l : list A) :
  (length (omap f l) ≤ length l)%nat.
Proof.
  induction l as [| x l IH]; [done |].
  simpl. destruct (f x); simpl.
  - apply le_n_S, IH.
  - apply Nat.le_le_succ_r, IH.
Qed.

(** The patients with an appeal in a set are no more than the appeals. *)
Lemma patients_with_appeal_in_le appeals w :
  0 ≤ count_rows (patients_with_appeal_in appeals w) ≤ count_rows appeals.
Proof.
  split; [apply count_rows_nonneg |].
  unfold count_rows. apply inj_le.
  rewrite <- (size_dom (D:=gset Z) (patients_with_appeal_in appeals w)).
  etransitivity;
    [apply (subseteq_size _
              (list_to_set (omap Appeal.patient_user (map_to_list appeals).*2)))
    |].
  - intros pk. rewrite elem_of_dom, elem_of_list_to_set, list_elem_of_omap.
    intros [p Hp]. unfold patients_with_appeal_in in Hp.
    apply objects_filter_lookup_Some in Hp as [_ Hex].
    apply existsb_exists in Hex as (a & Hin & Ha).
    apply bool_decide_eq_true_1 in Ha.
    exists a. split; [by apply list_elem_of_In | done].
  - etransitivity; [apply size_list_to_set_le |].
    etransitivity; [apply length_omap_le |].
    by rewrite length_fmap, length_map_to_list.
Qed.

(** X17. The figures of the two statistics handlers fit together.  In each
    window of [stats], and in [absolute_stats], the pending and the sent
    appeals are at most the total; no window counts more appeals than
    [absolute_stats] does for the same caller; the patients of a window are
    at most its appeals; and the total is at most the number of stored
    appeals.  Both handlers answer 200 and write nothing. *)
Theorem statistics_fit_together
    (env : Ambient) (user : option Z) (delta domain_id : option string)
    (w : World) :
  ∃ st ab,
    stats env user delta w
    = (inr (mkResponse (StatisticsSerializer st) HTTP_200_OK), w)
    ∧ absolute_stats user domain_id w
      = (inr (mkResponse (AbsoluteStatisticsSerializer ab) HTTP_200_OK), w)
    ∧ 0 ≤ current_pending_appeals st ≤ current_total_appeals st
    ∧ 0 ≤ current_sent_appeals st ≤ current_total_appeals st
    ∧ 0 ≤ current_total_patients st ≤ current_total_appeals st
    ∧ 0 ≤ previous_pending_appeals st ≤ previous_total_appeals st
    ∧ 0 ≤ previous_sent_appeals st ≤ previous_total_appeals st
    ∧ 0 ≤ previous_total_patients st ≤ previous_total_appeals st
    ∧ 0 ≤ pending_appeals ab ≤ total_appeals ab
    ∧ 0 ≤ sent_appeals ab ≤ total_appeals ab
    ∧ current_total_appeals st ≤ total_appeals ab
    ∧ previous_total_appeals st ≤ total_appeals ab
    ∧ total_appeals ab ≤ Z.of_nat (size (appeal w))
    ∧ period_end st = now env
    ∧ current_estimated_payment_value st = None
    ∧ estimated_payment_value ab = None.
Proof.
  pose (visible := filter_to_allowed_appeals w user).
  destruct (success_rate_of_total (successful visible) (with_response visible)
              (PyFloat Float64.zero) (count_rows_nonneg _)) as (r & Hr & _).
  unfold successful, with_response in Hr.
  assert (∃ ab,
            absolute_stats user domain_id w
            = (inr (mkResponse (AbsoluteStatisticsSerializer ab) HTTP_200_OK), w)
            ∧ total_appeals ab = count_rows visible
            ∧ pending_appeals ab
              = count_rows (objects_filter (λ _ a, Appeal.pending a) visible)
            ∧ sent_appeals ab
              = count_rows (objects_filter (λ _ a, Appeal.sent a) visible)
            ∧ estimated_payment_value ab = None) as (ab & Hab & Ht & Hp & Hs & He).
  { subst visible. unfold absolute_stats. run.
    destruct (truthy domain_id); simpl.
    - rewrite objects_get_string_pk.
      destruct (userdomain w !! default "" domain_id); simpl; rewrite Hr;
        (eexists; split; [reflexivity | done]).
    - rewrite Hr. eexists. split; [reflexivity | done]. }
  clear Hr.
  destruct (periods (default "MoM" delta) (now env)) as [[[cs ce] ps] pe] eqn:Hperiods.
  assert (ce = now env) as Hce.
  { revert Hperiods. unfold periods.
    repeat case_match; by intros [= _ <- _ _]. }
  pose (current := created_in cs ce visible).
  pose (previous := created_in ps pe visible).
  destruct (success_rate_of_total (successful current) (with_response current)
              (PyInt 0) (count_rows_nonneg _)) as (rc & Hrc & _).
  destruct (success_rate_of_total (successful previous) (with_response previous)
              (PyInt 0) (count_rows_nonneg _)) as (rp & Hrp & _).
  unfold successful, with_response in Hrc, Hrp.
  pose proof (count_rows_filter (λ _ a, Appeal.pending a) current).
  pose proof (count_rows_filter (λ _ a, Appeal.sent a) current).
  pose proof (count_rows_filter (λ _ a, Appeal.pending a) previous).
  pose proof (count_rows_filter (λ _ a, Appeal.sent a) previous).
  pose proof (count_rows_filter (λ _ a, Appeal.pending a) visible).
  pose proof (count_rows_filter (λ _ a, Appeal.sent a) visible).
  pose proof (patients_with_appeal_in_le current w).
  pose proof (patients_with_appeal_in_le previous w).
  assert (0 ≤ count_rows current ≤ count_rows visible) as Hcurrent
    by apply count_rows_filter.
  assert (0 ≤ count_rows previous ≤ count_rows visible) as Hprevious
    by apply count_rows_filter.
  assert (0 ≤ count_rows visible ≤ Z.of_nat (size (appeal w))) as Hvisible
    by apply (count_rows_filter (allowed_appeal w user) (appeal w)).
  subst current previous visible.
  unfold stats. rewrite Hperiods. run. simpl in Hrc, Hrp.
  rewrite Hrc, Hrp.
  eexists. exists ab. split; [reflexivity |]. split; [exact Hab |]. simpl.
  rewrite Ht, Hp, Hs, He.
  repeat split; try lia; done.
Qed.

End statistics_more.

(** ** Filing a denial: what is refused, and what is left behind *)

Section denial_create_more.
Import RestViews RestViews.DenialViewSet Spec MoreSpec.
Context `{FhiQueries} `{CommonViewLogic}.

Ltac run :=
  unfold bind, try_except, query, gets, modify, ret, raise,
    catch_all, catch_only, catch_among; simpl.

(** X18. A professional cannot update a denial outside their visible set:
    with a denial identifier other than 0 that names no visible denial,
    [perform_create] raises [Denial.DoesNotExist] before the helper runs,
    and nothing is written.  A caller without a professional profile is
    refused the same way, with [ProfessionalUser.DoesNotExist], whatever
    the request. *)
Theorem perform_create_refuses_before_writing
    (env : Ambient) (request : Request) (w : World) :
  (∀ id, primary_professional request = Some id →
         is_Some (professionaluser w !! id)) →
  ((∀ pk p, professionaluser w !! pk = Some p →
            Some (ProfessionalUser.user p) ≠ user request) →
   perform_create env request w = (inl (DoesNotExist "ProfessionalUser"), w))
  ∧ (∀ cpk p id,
       only_row (λ _ p, bool_decide (Some (ProfessionalUser.user p) = user request))
         (professionaluser w) cpk p →
       denial_id request = Some id → id ≠ 0 →
       filter_to_allowed_denials w (user request) !! id = None →
       perform_create env request w = (inl (DoesNotExist "Denial"), w)).
Proof.
  intros Hprimary. split.
  - intros Hnone. unfold perform_create. run.
    rewrite (objects_get_missing "ProfessionalUser"); [done |].
    intros pk p Hp. apply bool_decide_eq_false_2. by eapply Hnone.
  - intros cpk p id Hcaller Hid Hne Hhidden. unfold perform_create. run.
    rewrite (only_row_get "ProfessionalUser" _ _ cpk p Hcaller). simpl.
    assert ((id =? 0) = false) as Hne' by lia.
    destruct (primary_professional request) as [ppk |] eqn:Hpp; simpl.
    + destruct (Hprimary ppk eq_refl) as [pp Hpp'].
      rewrite objects_get_pk, Hpp'. simpl.
      by rewrite Hid, Hne', objects_get_pk, Hhidden.
    + by rewrite Hid, Hne', objects_get_pk, Hhidden.
Qed.

(** X19. A [perform_create] that returns leaves the denial it answers
    about with an appeal: the denial is stored under the identifier of the
    answer, and some stored appeal is for it.  The appeals that were there
    when the helper had run are all still there, unchanged, and at most one
    was added. *)
Theorem perform_create_leaves_an_appeal
    (env : Ambient) (request : Request) (w w' : World)
    (info : DenialResponseInfo) :
  perform_create env request w = (inr info, w') →
  ∃ existing cpk data info0 w1 dpk d apk a,
    create_or_update_denial existing cpk data w = (inr info0, w1)
    ∧ info_uuid info = info_uuid info0
    ∧ denial w' = denial w1
    ∧ denial w' !! dpk = Some d
    ∧ Denial.uuid d = info_uuid info
    ∧ appeal w' !! apk = Some a
    ∧ Appeal.for_denial a = dpk
    ∧ appeal w1 ⊆ appeal w'
    ∧ (size (appeal w') ≤ S (size (appeal w1)))%nat.
Proof.
  intros Hrun.
  apply perform_create_inv in Hrun
    as (existing & cpk & data & info0 & w1 & dpk & d & Hhelper & Hdenial & Hcase).
  apply objects_get_inr in Hdenial as (Hd & Huuid & _).
  apply String.eqb_eq in Huuid.
  destruct Hcase as [([apk a] & Hfound & -> & ->) | (e & Hnone & Hinfo & ->)].
  - apply objects_get_inr in Hfound as (Ha & Hfor & _).
    apply Z.eqb_eq in Hfor.
    exists existing, cpk, data, info0, w1, dpk, d, apk, a.
    split_and!; try done. lia.
  - simpl in Hinfo. subst info.
    eexists existing, cpk, data, info0, w1, dpk, d, (next_pk (appeal w1)), _.
    split_and!; try done.
    + simpl. apply lookup_insert_eq.
    + done.
    + simpl. apply insert_subseteq, next_pk_fresh.
    + simpl. rewrite map_size_insert_None by apply next_pk_fresh. lia.
Qed.

End denial_create_more.

Section denial_create_more_examples.
Import RestViews RestViews.DenialViewSet Spec MoreSpec Examples DenialExamples.

(** dave cannot update denial 2, and pat cannot file a denial. *)
Lemma perform_create_refuses_before_writing_witness :
  denial practice !! 2 ≠ None
  ∧ @perform_create sample_queries (sample_view_logic "d-new") noon
      dave_updates_denial_2 practice
    = (inl (DoesNotExist "Denial"), practice)
  ∧ @perform_create sample_queries (sample_view_logic "d-new") noon
      pat_files_denial practice
    = (inl (DoesNotExist "ProfessionalUser"), practice).
Proof.
  split; [vm_compute; discriminate |].
  split.
  - destruct (@perform_create_refuses_before_writing sample_queries
                (sample_view_logic "d-new") noon dave_updates_denial_2 practice)
      as [_ Hdenial]; [intros id; discriminate |].
    apply (Hdenial 2 (ProfessionalUser.mk 4 None true None) 2);
      [| reflexivity | discriminate | vm_compute; reflexivity].
    split; [vm_compute; reflexivity |]. split; [vm_compute; reflexivity |].
    intros pk' p'. unfold practice. simpl.
    rewrite lookup_insert_Some, lookup_singleton_Some.
    intros [[<- <-] | [_ [<- <-]]]; [discriminate | reflexivity].
  - destruct (@perform_create_refuses_before_writing sample_queries
                (sample_view_logic "d-new") noon pat_files_denial practice)
      as [Hprofessional _]; [intros id; discriminate |].
    apply Hprofessional. intros pk p. unfold practice. simpl.
    rewrite lookup_insert_Some, lookup_singleton_Some.
    intros [[<- <-] | [_ [<- <-]]]; discriminate.
Defined.

(** carol files a new denial: it is stored with a new appeal. *)
Lemma perform_create_leaves_an_appeal_witness :
  ∃ w' dpk d apk a,
    (@perform_create sample_queries (sample_view_logic "d-new") noon
       carol_files_denial practice).2 = w'
    ∧ denial w' !! dpk = Some d
    ∧ Denial.uuid d = "d-new"
    ∧ appeal w' !! apk = Some a
    ∧ Appeal.for_denial a = dpk.
Proof.
  destruct (@perform_create sample_queries (sample_view_logic "d-new") noon
              carol_files_denial practice) as [result w'] eqn:Hrun.
  assert (result = inr (mkDenialResponseInfo "d-new" 4 (Some 5))) as ->.
  { change result with (result, w').1. rewrite <- Hrun. vm_compute; reflexivity. }
  destruct (@perform_create_leaves_an_appeal sample_queries
              (sample_view_logic "d-new") noon carol_files_denial practice w'
              _ Hrun)
    as (_ & _ & _ & _ & _ & dpk & d & apk & a & _ & _ & _ & Hd & Huuid & Ha
        & Hfor & _).
  exists w', dpk, d, apk, a. split; [reflexivity |].
  split; [exact Hd |]. split; [exact Huuid |]. split; [exact Ha | exact Hfor].
Defined.

End denial_create_more_examples.

(** ** Domains: names and web addresses *)

Section domain_names.
Import UserDomainMethods.

Ltac run :=
  unfold bind, try_except, query, gets, modify, ret, raise,
    catch_all, catch_only, catch_among; simpl.

Lemma truthy_Some n : n ≠ "" → truthy (Some n) = true.
Proof. intros Hn. simpl. by rewrite (proj2 (String.eqb_neq n "") Hn). Qed.

(** What a [save] that returns has written. *)
Lemma save_inv pk self saved w w' :
  save pk self w = (inr saved, w') →
  saved = (if truthy (UserDomain.name self)
           then set_name (Some (_clean_name (default "" (UserDomain.name self))))
                  self
           else self)
  ∧ unique_among pk saved (userdomain w)
  ∧ w' = upd_userdomain <[pk:=saved]> w.
Proof.
  unfold save. run. case_bool_decide as Hfree; simpl; [| done].
  by intros [= <- <-].
Qed.

(** X20. A domain saved under a name is found by that name, and by every
    spelling of it with a web prefix: after [save] has returned, its name
    is the cleaned one, and [find_by_name] with any text that cleans to
    the same name answers that row and no other.  The other rows of the
    table are as they were. *)
Theorem saved_domain_is_found_by_its_name
    (pk : string) (self saved : UserDomain.t) (w w' : World) (n : string) :
  UserDomain.name self = Some n → n ≠ "" →
  save pk self w = (inr saved, w') →
  UserDomain.name saved = Some (_clean_name n)
  ∧ userdomain w' !! pk = Some saved
  ∧ (∀ m, m ≠ "" → _clean_name m = _clean_name n →
          find_by_name (Some m) w' = {[pk := saved]})
  ∧ (∀ pk', pk' ≠ pk → userdomain w' !! pk' = userdomain w !! pk').
Proof.
  intros Hname Hn Hsave.
  apply save_inv in Hsave as (Hsaved & Hfree & ->).
  rewrite Hname, (truthy_Some n Hn) in Hsaved. simpl in Hsaved.
  assert (UserDomain.name saved = Some (_clean_name n)) as Hcleaned
    by (by subst saved).
  split; [done |]. split; [simpl; apply lookup_insert_eq |]. split.
  - intros m Hm Hsame. unfold find_by_name.
    rewrite (truthy_Some m Hm). simpl. rewrite Hsame.
    apply map_eq. intros k. destruct (decide (k = pk)) as [-> | Hne].
    + rewrite lookup_singleton_eq. apply objects_filter_lookup_Some.
      split; [apply lookup_insert_eq | by apply bool_decide_eq_true_2].
    + rewrite lookup_singleton_ne by done.
      apply objects_filter_lookup_None. intros d.
      rewrite lookup_insert_ne by done. intros Hd.
      apply bool_decide_eq_false_2. intros Hclash.
      destruct (Hfree k d Hd) as [-> | [Hnot _]]; [done |].
      apply Hnot. rewrite Hcleaned. by split.
  - intros pk' Hne. simpl. by rewrite lookup_insert_ne.
Qed.

(** X21. Saving is not idempotent on names.  A domain that is read back
    and saved again has its name cleaned again: it is then stored under
    the name cleaned twice, and is still found by the name it was first
    saved under exactly when the second cleaning changed nothing. *)
Theorem second_save_cleans_the_name_again
    (pk : string) (self saved saved' : UserDomain.t) (w w' w'' : World)
    (n : string) :
  UserDomain.name self = Some n → n ≠ "" →
  save pk self w = (inr saved, w') →
  save pk saved w' = (inr saved', w'') →
  UserDomain.name saved' = Some (_clean_name (_clean_name n))
  ∧ userdomain w'' !! pk = Some saved'
  ∧ (find_by_name (Some n) w'' !! pk = Some saved'
     ↔ _clean_name (_clean_name n) = _clean_name n).
Proof.
  intros Hname Hn Hsave Hagain.
  apply save_inv in Hsave as (Hsaved & _ & ->).
  rewrite Hname, (truthy_Some n Hn) in Hsaved. simpl in Hsaved.
  assert (UserDomain.name saved = Some (_clean_name n)) as Hcleaned
    by (by subst saved).
  apply save_inv in Hagain as (Hsaved' & _ & ->).
  rewrite Hcleaned in Hsaved'.
  assert (UserDomain.name saved' = Some (_clean_name (_clean_name n)))
    as Hcleaned'.
  { destruct (decide (_clean_name n = "")) as [Hempty | Hfull].
    - rewrite Hempty in Hsaved'. simpl in Hsaved'.
      by rewrite Hsaved', Hcleaned, Hempty.
    - rewrite (truthy_Some _ Hfull) in Hsaved'. by subst saved'. }
  split; [done |]. split; [simpl; apply lookup_insert_eq |].
  unfold find_by_name. rewrite (truthy_Some n Hn). simpl.
  rewrite objects_filter_lookup_Some, lookup_insert_eq, Hcleaned'.
  rewrite bool_decide_eq_true. split.
  - by intros [_ [= ?]].
  - by intros ->.
Qed.

End domain_names.

Section domain_names_examples.
Import UserDomainMethods Examples DomainExamples.

(** Riverside signs up as [https://www.riverside.example] and is found as
    [riverside.example], also when asked for with [www.] in front. *)
Lemma saved_domain_is_found_by_its_name_witness :
  ∃ saved w',
    save "d-1" riverside practice = (inr saved, w')
    ∧ UserDomain.name saved = Some "riverside.example"
    ∧ find_by_name (Some "www.riverside.example") w' = {[ "d-1" := saved ]}.
Proof.
  pose (saved := set_name (Some "riverside.example") riverside).
  pose (w' := upd_userdomain <["d-1":=saved]> practice).
  assert (save "d-1" riverside practice = (inr saved, w')) as Hsave
    by (vm_compute; reflexivity).
  destruct (saved_domain_is_found_by_its_name "d-1" riverside saved practice w'
              "https://www.riverside.example")
    as (Hname & _ & Hfound & _);
    [reflexivity | discriminate | exact Hsave |].
  exists saved, w'. split; [exact Hsave |]. split; [exact Hname |].
  apply Hfound; [discriminate | vm_compute; reflexivity].
Defined.

(** Mirror signs up as [www.www.mirror.example].  Saved once it is found
    by that name; saved again it is [mirror.example], and the name it
    signed up with finds nothing. *)
Lemma second_save_cleans_the_name_again_witness :
  ∃ saved w' saved' w'',
    save "d-2" mirror practice = (inr saved, w')
    ∧ save "d-2" saved w' = (inr saved', w'')
    ∧ UserDomain.name saved = Some "www.mirror.example"
    ∧ UserDomain.name saved' = Some "mirror.example"
    ∧ find_by_name (Some "www.www.mirror.example") w'' !! "d-2" ≠ Some saved'.
Proof.
  pose (saved := set_name (Some "www.mirror.example") mirror).
  pose (w' := upd_userdomain <["d-2":=saved]> practice).
  pose (saved' := set_name (Some "mirror.example") mirror).
  pose (w'' := upd_userdomain <["d-2":=saved']> w').
  assert (save "d-2" mirror practice = (inr saved, w')) as Hsave
    by (vm_compute; reflexivity).
  assert (save "d-2" saved w' = (inr saved', w'')) as Hagain
    by (vm_compute; reflexivity).
  destruct (second_save_cleans_the_name_again "d-2" mirror saved saved'
              practice w' w'' "www.www.mirror.example")
    as (Hname & _ & Hfound);
    [reflexivity | discriminate | exact Hsave | exact Hagain |].
  exists saved, w', saved', w''.
  split; [exact Hsave |]. split; [exact Hagain |].
  split; [reflexivity |]. split; [exact Hname |].
  intros Hstill. apply Hfound in Hstill. vm_compute in Hstill.
  discriminate Hstill.
Defined.

End domain_names_examples.

(** ** The members of a domain, as the listings show them *)

Section listings.
Import UserDomainMethods RestAuthViewsLists
  RestAuthViewsLists.ProfessionalUserViewSet ListSpec.

Ltac run :=
  unfold bind, try_except, query, gets, modify, ret, raise,
    catch_all, catch_only, catch_among; simpl.

(** The professionals of a list of relations, when each is stored. *)
Lemma professionals_of_relations w (rs : list ProfessionalDomainRelation.t) :
  (∀ r, r ∈ rs →
        is_Some (professionaluser w !! ProfessionalDomainRelation.professional r)) →
  ∃ l,
    foldr
      (λ relation rest,
         match professionaluser w
                 !! ProfessionalDomainRelation.professional relation, rest with
         | Some p, inr l =>
             inr ((ProfessionalDomainRelation.professional relation, p) :: l)
         | None, _ => inl (DoesNotExist "ProfessionalUser")
         | _, inl e => inl e
         end)
      (inr []) rs = inr l
    ∧ l.*1 = ProfessionalDomainRelation.professional <$> rs
    ∧ ∀ pid p, (pid, p) ∈ l → professionaluser w !! pid = Some p.
Proof.
  induction rs as [| r rs IH]; intros Hstored.
  - exists []. split; [done |]. split; [done |]. intros pid p Hin.
    by apply elem_of_nil in Hin.
  - destruct IH as (l & Hl & Hfst & Hrows).
    { intros r' Hr'. apply Hstored. by right. }
    destruct (Hstored r) as [p Hp]; [by left |].
    exists ((ProfessionalDomainRelation.professional r, p) :: l).
    split; [simpl; by rewrite Hl, Hp |].
    split; [by rewrite !fmap_cons, Hfst |].
    intros pid p' [[= -> ->] | Hin]%elem_of_cons; [done | by apply Hrows].
Qed.

(** With every relation naming a stored professional,
    [get_professional_users] answers, with the professionals that have a
    relation to the domain passing the filters. *)
Lemma get_professional_users_members w domain relation_filters :
  relations_have_professionals w →
  ∃ l,
    get_professional_users w domain relation_filters = inr l
    ∧ (∀ pid, pid ∈ l.*1 ↔ has_relation w domain relation_filters pid)
    ∧ ∀ pid p, (pid, p) ∈ l → professionaluser w !! pid = Some p.
Proof.
  intros Hfk. unfold get_professional_users.
  set (relations := objects_filter _ (professionaldomainrelation w)).
  destruct (professionals_of_relations w (map_to_list relations).*2)
    as (l & Hl & Hfst & Hrows).
  { intros r ([pk r'] & -> & Hin)%list_elem_of_fmap.
    apply elem_of_map_to_list in Hin. subst relations.
    apply objects_filter_lookup_Some in Hin as [Hin _].
    by apply (Hfk pk r'). }
  exists l. split; [exact Hl |]. split; [| exact Hrows].
  intros pid. rewrite Hfst. unfold has_relation. split.
  - intros (r & -> & ([pk r'] & -> & Hin)%list_elem_of_fmap)%list_elem_of_fmap.
    apply elem_of_map_to_list in Hin. subst relations.
    apply objects_filter_lookup_Some in Hin as [Hin Hpass].
    apply andb_true_iff in Hpass as [Hdomain Hpass].
    apply String.eqb_eq in Hdomain. by exists pk, r'.
  - intros (pk & r & Hr & Hdomain & Hpass & <-).
    apply list_elem_of_fmap. exists r. split; [done |].
    apply list_elem_of_fmap. exists (pk, r). split; [done |].
    apply elem_of_map_to_list. subst relations.
    apply objects_filter_lookup_Some. split; [done |].
    apply andb_true_iff. split; [by apply String.eqb_eq | done].
Qed.

Lemma get_object_or_404_of_none {A} model (P : Z → A → bool) (table : gmap Z A) :
  (∀ pk row, table !! pk = Some row → P pk row = false) →
  get_object_or_404_of model (objects_filter P table) = inl Http404.
Proof.
  intros Hnone. unfold get_object_or_404_of.
  rewrite (objects_get_missing model); [done |].
  intros pk row [Hrow HP]%objects_filter_lookup_Some.
  by rewrite (Hnone pk row Hrow) in HP.
Qed.

Lemma get_object_or_404_of_one {A} model (P : Z → A → bool)
    (table : gmap Z A) pk row :
  objects_get model P table = inr (pk, row) →
  get_object_or_404_of model (objects_filter P table) = inr (pk, row).
Proof.
  intros (Hrow & HP & Honly)%objects_get_inr. unfold get_object_or_404_of.
  rewrite (objects_get_found model _ _ pk row); [done | | done |].
  - by apply objects_filter_lookup_Some.
  - intros pk' row' [Hrow' HP']%objects_filter_lookup_Some _. by eapply Honly.
Qed.

(** What the two listings answer to an active member of the session's
    domain. *)
Lemma listings_of_member request w domain cpk cp crpk crel :
  session_domain_id request = Some domain →
  is_Some (userdomain w !! domain) →
  professional_of (user request) w = inr (cpk, cp) →
  relations_have_professionals w →
  objects_get "ProfessionalDomainRelation" (active_relation_of cpk domain)
    (professionaldomainrelation w) = inr (crpk, crel) →
  ∃ active pending,
    list_active_in_domain request w
    = (inr (mkResponse (ProfessionalSummary active) HTTP_200_OK), w)
    ∧ list_pending_in_domain request w
      = (inr (mkResponse (PendingProfessionals pending) HTTP_200_OK), w)
    ∧ (∀ pid, pid ∈ active.*1
              ↔ has_relation w domain ProfessionalDomainRelation.active pid)
    ∧ (∀ pid, pid ∈ pending.*1
              ↔ has_relation w domain ProfessionalDomainRelation.pending pid).
Proof.
  intros Hsession [dom Hdom] Hcaller Hfk Hmember.
  unfold list_active_in_domain, list_pending_in_domain, session_item. run.
  rewrite Hsession. simpl. rewrite objects_get_string_pk, Hdom. simpl.
  rewrite Hcaller. simpl.
  rewrite (get_object_or_404_of_one _ _ _ _ _ Hmember). simpl.
  destruct (get_professional_users_members w domain
              ProfessionalDomainRelation.active Hfk)
    as (active & -> & Hactive & _).
  destruct (get_professional_users_members w domain
              ProfessionalDomainRelation.pending Hfk)
    as (pending & -> & Hpending & _).
  by exists active, pending.
Qed.

(** X22. The two listings are for the active members of the session's
    domain.  A professional with no active relation to it, a pending
    applicant for one, is answered [Http404] by both.  A professional with
    one active relation gets, from [list_active_in_domain], the
    professionals with an active relation to the domain and, from
    [list_pending_in_domain], those with a pending one; both write
    nothing. *)
Theorem listings_are_for_active_members
    (request : Request) (w : World) (domain : string) (cpk : Z)
    (cp : ProfessionalUser.t) :
  session_domain_id request = Some domain →
  is_Some (userdomain w !! domain) →
  professional_of (user request) w = inr (cpk, cp) →
  relations_have_professionals w →
  ((∀ pk r, professionaldomainrelation w !! pk = Some r →
            active_relation_of cpk domain pk r = false) →
   list_active_in_domain request w = (inl Http404, w)
   ∧ list_pending_in_domain request w = (inl Http404, w))
  ∧ (∀ crpk crel,
       objects_get "ProfessionalDomainRelation" (active_relation_of cpk domain)
         (professionaldomainrelation w) = inr (crpk, crel) →
       ∃ active pending,
         list_active_in_domain request w
         = (inr (mkResponse (ProfessionalSummary active) HTTP_200_OK), w)
         ∧ list_pending_in_domain request w
           = (inr (mkResponse (PendingProfessionals pending) HTTP_200_OK), w)
         ∧ (∀ pid, pid ∈ active.*1
                   ↔ has_relation w domain ProfessionalDomainRelation.active pid)
         ∧ (∀ pid, pid ∈ pending.*1
                   ↔ has_relation w domain ProfessionalDomainRelation.pending pid)
         ∧ cpk ∈ active.*1).
Proof.
  intros Hsession Hdomain Hcaller Hfk. split.
  - intros Hnone. destruct Hdomain as [dom Hdom].
    unfold list_active_in_domain, list_pending_in_domain, session_item. run.
    rewrite Hsession. simpl. rewrite objects_get_string_pk, Hdom. simpl.
    rewrite Hcaller. simpl.
    by rewrite (get_object_or_404_of_none _ _ _ Hnone).
  - intros crpk crel Hmember.
    destruct (listings_of_member request w domain cpk cp crpk crel)
      as (active & pending & Hactive_run & Hpending_run & Hactive & Hpending);
      [done.. |].
    exists active, pending. split; [done |]. split; [done |].
    split; [done |]. split; [done |].
    apply Hactive. apply objects_get_inr in Hmember as (Hrow & HP & _).
    unfold active_relation_of in HP.
    apply andb_true_iff in HP as [[Hpro Hd]%andb_true_iff Hact].
    apply Z.eqb_eq in Hpro. apply String.eqb_eq in Hd.
    by exists crpk, crel.
Qed.

End listings.

Section listings_after_accept.
Import UserDomainMethods RestAuthViewsLists
  RestAuthViewsLists.ProfessionalUserViewSet ListSpec Spec.
Context `{AuthUtils}.

(** X23. An accepted professional moves from the pending list to the
    active list.  After a domain admin has accepted the one pending
    relation of a professional to the domain, a relation that was neither
    suspended nor rejected, an active member who lists the domain finds
    the professional among the active ones and no longer among the
    pending ones. *)
Theorem accepted_professional_is_listed_as_active
    (request : RestAuthViews.ProfessionalUserViewSet.Request)
    (listing : Request) (w : World) (pk : Z)
    (relation : ProfessionalDomainRelation.t)
    (professional : ProfessionalUser.t)
    (cpk : Z) (cp : ProfessionalUser.t) (crpk : Z)
    (crel : ProfessionalDomainRelation.t) :
  let pid := RestAuthViews.ProfessionalUserViewSet.professional_user_id request in
  let did := RestAuthViews.ProfessionalUserViewSet.domain_id request in
  let w' := (RestAuthViews.ProfessionalUserViewSet.accept request w).2 in
  user_is_admin_in_domain w
    (RestAuthViews.ProfessionalUserViewSet.user request) did = inr true →
  objects_get "ProfessionalDomainRelation"
    (RestAuthViews.ProfessionalUserViewSet.pending_relation_of pid did)
    (professionaldomainrelation w) = inr (pk, relation) →
  ProfessionalDomainRelation.suspended relation = false →
  ProfessionalDomainRelation.rejected relation = false →
  professionaluser w !! pid = Some professional →
  relations_have_professionals w →
  session_domain_id listing = Some did →
  is_Some (userdomain w' !! did) →
  professional_of (user listing) w' = inr (cpk, cp) →
  objects_get "ProfessionalDomainRelation" (active_relation_of cpk did)
    (professionaldomainrelation w') = inr (crpk, crel) →
  ∃ active pending,
    list_active_in_domain listing w'
    = (inr (mkResponse (ProfessionalSummary active) HTTP_200_OK), w')
    ∧ list_pending_in_domain listing w'
      = (inr (mkResponse (PendingProfessionals pending) HTTP_200_OK), w')
    ∧ pid ∈ active.*1
    ∧ pid ∉ pending.*1.
Proof.
  intros pid did w' Hadmin Hget Hsuspended Hrejected Hpro Hfk Hsession Hdomain
    Hcaller Hmember.
  destruct (accept_writes request w pk relation professional Hadmin Hget Hpro)
    as (tail & _ & Hprofessionals & Hrelations).
  simpl in Hprofessionals, Hrelations. fold w' in Hprofessionals, Hrelations.
  apply objects_get_inr in Hget as (Hrow & Hpending & Honly).
  apply pending_relation_of_domain in Hpending as (Hpid & Hpend & Hdid).
  set (accepted := professional_domain_relation_presave
                     (ProfessionalDomainRelation.set_pending false relation))
    in Hrelations.
  assert (ProfessionalDomainRelation.professional accepted = pid
          ∧ ProfessionalDomainRelation.domain accepted = did
          ∧ ProfessionalDomainRelation.pending accepted = false
          ∧ ProfessionalDomainRelation.active accepted = true)
    as (Hapid & Hadid & Hapending & Haactive).
  { subst accepted. destruct relation. simpl in *.
    by rewrite Hsuspended, Hrejected. }
  assert (relations_have_professionals w') as Hfk'.
  { intros rpk r. rewrite Hrelations, Hprofessionals.
    intros [[_ <-] | [_ Hr]]%lookup_insert_Some.
    - rewrite Hapid. fold pid. rewrite lookup_insert_eq. by eexists.
    - destruct (Hfk rpk r Hr) as [p Hp].
      destruct (decide (ProfessionalDomainRelation.professional r = pid))
        as [-> | Hne].
      + rewrite lookup_insert_eq. by eexists.
      + rewrite lookup_insert_ne by done. by eexists. }
  destruct (listings_of_member listing w' did cpk cp crpk crel)
    as (active & pending & Hactive_run & Hpending_run & Hactive & Hpending);
    [done.. |].
  exists active, pending. split; [done |]. split; [done |]. split.
  - apply Hactive. exists pk, accepted. rewrite Hrelations.
    split; [apply lookup_insert_eq | done].
  - rewrite Hpending. intros (rpk & r & Hr & Hrdid & Hrpending & Hrpid).
    rewrite Hrelations in Hr.
    apply lookup_insert_Some in Hr as [[_ <-] | [Hne Hr]]; [congruence |].
    apply Hne. symmetry. apply (Honly rpk r Hr).
    unfold RestAuthViews.ProfessionalUserViewSet.pending_relation_of.
    rewrite Hrpid, Hrpending, Hrdid. fold pid did.
    by rewrite Z.eqb_refl, String.eqb_refl.
Qed.

End listings_after_accept.

Section listings_examples.
Import UserDomainMethods RestAuthViewsLists
  RestAuthViewsLists.ProfessionalUserViewSet ListSpec Spec Examples
  ListExamples.

(** bob, whose membership of the clinic is pending, is refused both
    lists; alice, its admin, gets them and is on the active one. *)
Lemma listings_are_for_active_members_witness :
  list_active_in_domain bob_lists clinic = (inl Http404, clinic)
  ∧ list_pending_in_domain bob_lists clinic = (inl Http404, clinic)
  ∧ ∃ active pending,
      list_active_in_domain alice_lists clinic
      = (inr (mkResponse (ProfessionalSummary active) HTTP_200_OK), clinic)
      ∧ list_pending_in_domain alice_lists clinic
        = (inr (mkResponse (PendingProfessionals pending) HTTP_200_OK), clinic)
      ∧ 1 ∈ active.*1.
Proof.
  assert (is_Some (userdomain clinic !! "clinic")) as Hdomain
    by (apply (bool_decide_eq_true_1 _); vm_compute; reflexivity).
  assert (relations_have_professionals clinic) as Hfk
    by (apply (bool_decide_eq_true_1 _); vm_compute; reflexivity).
  destruct (listings_are_for_active_members bob_lists clinic "clinic" 2
              (ProfessionalUser.mk 2 None false None))
    as [Hbob _];
    [reflexivity | exact Hdomain | vm_compute; reflexivity | exact Hfk |].
  destruct (listings_are_for_active_members alice_lists clinic "clinic" 1
              (ProfessionalUser.mk 1 None true None))
    as [_ Halice];
    [reflexivity | exact Hdomain | vm_compute; reflexivity | exact Hfk |].
  destruct Hbob as [Hactive Hpending].
  { apply (objects_get_DoesNotExist "ProfessionalDomainRelation"
             "ProfessionalDomainRelation").
    vm_compute; reflexivity. }
  destruct (Halice 1 (ProfessionalDomainRelation.new 1 "clinic" true true false))
    as (active & pending & Hactive_run & Hpending_run & _ & _ & Hin);
    [vm_compute; reflexivity |].
  split; [exact Hactive |]. split; [exact Hpending |].
  exists active, pending.
  split; [exact Hactive_run |]. split; [exact Hpending_run | exact Hin].
Defined.

(** alice accepts bob and lists the clinic: bob is on the active list and
    off the pending one. *)
Lemma accepted_professional_is_listed_as_active_witness :
  ∃ active pending,
    list_active_in_domain alice_lists
      (@RestAuthViews.ProfessionalUserViewSet.accept spec_auth_utils
         accept_bob clinic).2
    = (inr (mkResponse (ProfessionalSummary active) HTTP_200_OK),
       (@RestAuthViews.ProfessionalUserViewSet.accept spec_auth_utils
          accept_bob clinic).2)
    ∧ list_pending_in_domain alice_lists
        (@RestAuthViews.ProfessionalUserViewSet.accept spec_auth_utils
           accept_bob clinic).2
      = (inr (mkResponse (PendingProfessionals pending) HTTP_200_OK),
         (@RestAuthViews.ProfessionalUserViewSet.accept spec_auth_utils
            accept_bob clinic).2)
    ∧ 2 ∈ active.*1
    ∧ 2 ∉ pending.*1.
Proof.
  apply (@accepted_professional_is_listed_as_active spec_auth_utils
           accept_bob alice_lists clinic 2
           (ProfessionalDomainRelation.new 2 "clinic" false false true)
           (ProfessionalUser.mk 2 None false None)
           1 (ProfessionalUser.mk 1 None true None)
           1 (ProfessionalDomainRelation.new 1 "clinic" true true false)).
  - vm_compute; reflexivity.
  - vm_compute; reflexivity.
  - reflexivity.
  - reflexivity.
  - vm_compute; reflexivity.
  - apply (bool_decide_eq_true_1 _); vm_compute; reflexivity.
  - reflexivity.
  - apply (bool_decide_eq_true_1 _); vm_compute; reflexivity.
  - vm_compute; reflexivity.
  - vm_compute; reflexivity.
Defined.

End listings_examples.

(** ** Who am I *)

Section whoami.
Import RestAuthViewsLists RestAuthViewsLists.WhoAmIViewSet.

Ltac run :=
  unfold bind, try_except, query, gets, modify, ret, raise,
    catch_all, catch_only, catch_among; simpl.

Lemma objects_get_inl {K A} `{Countable K} model (P : K → A → bool)
    (table : gmap K A) e :
  objects_get model P table = inl e →
  e = DoesNotExist model ∨ e = MultipleObjectsReturned model.
Proof.
  unfold objects_get.
  destruct (map_to_list (objects_filter P table)) as [| kv [| kv' l]];
    intros [= <-]; first [by left | by right].
Qed.

(** What the three lookups of [list] find. *)
Lemma get_active_patient uid w :
  match objects_get "PatientUser"
          (λ _ p, (PatientUser.user p =? uid) && PatientUser.active p)
          (patientuser w) with
  | inr _ =>
      ∃ pk p, patientuser w !! pk = Some p
              ∧ PatientUser.user p = uid ∧ PatientUser.active p = true
  | inl (DoesNotExist _) =>
      ¬ ∃ pk p, patientuser w !! pk = Some p
                ∧ PatientUser.user p = uid ∧ PatientUser.active p = true
  | inl _ => True
  end.
Proof.
  destruct (objects_get "PatientUser" _ (patientuser w)) as [e | [pk p]] eqn:Hget.
  - destruct e; try done. intros (pk & p & Hp & Huid & Hactive).
    pose proof (objects_get_DoesNotExist _ _ _ _ Hget pk p Hp) as Hno.
    simpl in Hno. by rewrite Huid, Hactive, Z.eqb_refl in Hno.
  - apply objects_get_inr in Hget as (Hp & [Huid Hactive]%andb_true_iff & _).
    apply Z.eqb_eq in Huid. by exists pk, p.
Qed.

Lemma get_active_professional uid w :
  match objects_get "ProfessionalUser"
          (λ _ p, (ProfessionalUser.user p =? uid) && ProfessionalUser.active p)
          (professionaluser w) with
  | inr (found, _) =>
      ∀ ppk, found = ppk
             ↔ ∃ p, professionaluser w !! ppk = Some p
                    ∧ ProfessionalUser.user p = uid
                    ∧ ProfessionalUser.active p = true
  | inl (DoesNotExist _) =>
      ∀ ppk, ¬ ∃ p, professionaluser w !! ppk = Some p
                    ∧ ProfessionalUser.user p = uid
                    ∧ ProfessionalUser.active p = true
  | inl _ => True
  end.
Proof.
  destruct (objects_get "ProfessionalUser" _ (professionaluser w))
    as [e | [pk p]] eqn:Hget.
  - destruct e; try done. intros ppk (p & Hp & Huid & Hactive).
    pose proof (objects_get_DoesNotExist _ _ _ _ Hget ppk p Hp) as Hno.
    simpl in Hno. by rewrite Huid, Hactive, Z.eqb_refl in Hno.
  - apply objects_get_inr in Hget as (Hp & [Huid Hactive]%andb_true_iff & Honly).
    apply Z.eqb_eq in Huid. intros ppk. split.
    + intros <-. by exists p.
    + intros (p' & Hp' & Huid' & Hactive'). symmetry.
      apply (Honly ppk p' Hp'). simpl.
      by rewrite Huid', Hactive', Z.eqb_refl.
Qed.

Lemma get_admin_relation ppk domain w :
  match objects_get "ProfessionalDomainRelation"
          (λ pk r, active_relation_of ppk domain pk r
                   && ProfessionalDomainRelation.admin r)
          (professionaldomainrelation w) with
  | inr _ =>
      ∃ rpk r, professionaldomainrelation w !! rpk = Some r
               ∧ ProfessionalDomainRelation.professional r = ppk
               ∧ ProfessionalDomainRelation.domain r = domain
               ∧ ProfessionalDomainRelation.active r = true
               ∧ ProfessionalDomainRelation.admin r = true
  | inl (DoesNotExist _) =>
      ¬ ∃ rpk r, professionaldomainrelation w !! rpk = Some r
                 ∧ ProfessionalDomainRelation.professional r = ppk
                 ∧ ProfessionalDomainRelation.domain r = domain
                 ∧ ProfessionalDomainRelation.active r = true
                 ∧ ProfessionalDomainRelation.admin r = true
  | inl _ => True
  end.
Proof.
  destruct (objects_get "ProfessionalDomainRelation" _
              (professionaldomainrelation w)) as [e | [rpk r]] eqn:Hget.
  - destruct e; try done. intros (rpk & r & Hr & Hpro & Hdom & Hactive & Hadmin).
    pose proof (objects_get_DoesNotExist _ _ _ _ Hget rpk r Hr) as Hno.
    unfold active_relation_of in Hno.
    by rewrite Hpro, Hdom, Hactive, Hadmin, Z.eqb_refl, String.eqb_refl in Hno.
  - apply objects_get_inr in Hget as (Hr & HP & _).
    unfold active_relation_of in HP.
    apply andb_true_iff in HP as [[[Hpro Hdom]%andb_true_iff Hactive]%andb_true_iff
                                    Hadmin].
    apply Z.eqb_eq in Hpro. apply String.eqb_eq in Hdom. by exists rpk, r.
Qed.

(** The two kinds of goal the cases of [list] leave: what the professional
    identifier of the row is, and when the row says admin. *)
Ltac settle_professional_id :=
  let ppk' := fresh "ppk" in
  intros ppk';
  lazymatch goal with
  | Hnone : ∀ ppk, ¬ ∃ p, _ |- None = Some _ ↔ _ =>
      split; [done | intros Hex; destruct (Hnone ppk' Hex)]
  | Hone : ∀ ppk, _ = ppk ↔ ∃ p, _ |- Some _ = Some _ ↔ _ =>
      rewrite <- Hone; split; congruence
  end.

Ltac settle_admin :=
  lazymatch goal with
  | |- false = true ↔ ∃ ppk rpk r, None = Some ppk ∧ _ =>
      split; [done | by intros (? & ? & ? & ? & _)]
  | Hnone : ¬ ∃ rpk r, _ |- false = true ↔ _ =>
      split; [done |];
      let rpk := fresh "rpk" in
      let r := fresh "r" in
      intros (? & rpk & r & [= <-] & ?); destruct Hnone; by exists rpk, r
  | Hsome : ∃ rpk r, _ |- true = true ↔ ∃ ppk rpk r, Some ?found = Some ppk ∧ _ =>
      split; [intros _ | done];
      let rpk := fresh "rpk" in
      let r := fresh "r" in
      destruct Hsome as (rpk & r & ?); by exists found, rpk, r
  end.

(** X24. [WhoAmIViewSet.list] writes nothing.  It answers 401 to the
    anonymous user and 400 to a user whose session names no domain.  For a
    stored user in a stored domain it either raises
    [MultipleObjectsReturned], or answers one row in which [patient] and
    [professional] say whether the user has an active patient and an
    active professional profile, [admin] says whether that professional
    profile has an active admin relation to the session's domain, so that
    an admin is always a professional, and [highest_role] is the highest
    of the three that is set. *)
Theorem whoami_reports_the_roles
    (request : Request) (w : World) :
  (list request w).2 = w
  ∧ (user request = None → (list request w).1 = inr not_authenticated)
  ∧ (is_Some (user request) → truthy (session_domain_id request) = false →
     (list request w).1 = inr no_domain_in_session)
  ∧ (∀ uid domain dom u,
       user request = Some uid →
       session_domain_id request = Some domain → domain ≠ "" →
       userdomain w !! domain = Some dom →
       auth_user w !! uid = Some u →
       (∃ model, (list request w).1 = inl (MultipleObjectsReturned model))
       ∨ ∃ row,
           (list request w).1
           = inr (mkResponse (WhoAmiSerializer [row]) HTTP_200_OK)
           ∧ whoami_email row = User.email u
           ∧ whoami_domain_name row = UserDomain.name dom
           ∧ (whoami_patient row = true
              ↔ ∃ pk p, patientuser w !! pk = Some p
                        ∧ PatientUser.user p = uid
                        ∧ PatientUser.active p = true)
           ∧ (∀ ppk,
                whoami_current_professional_id row = Some ppk
                ↔ ∃ p, professionaluser w !! ppk = Some p
                       ∧ ProfessionalUser.user p = uid
                       ∧ ProfessionalUser.active p = true)
           ∧ (whoami_professional row = true
              ↔ is_Some (whoami_current_professional_id row))
           ∧ (whoami_admin row = true
              ↔ ∃ ppk rpk r,
                  whoami_current_professional_id row = Some ppk
                  ∧ professionaldomainrelation w !! rpk = Some r
                  ∧ ProfessionalDomainRelation.professional r = ppk
                  ∧ ProfessionalDomainRelation.domain r = domain
                  ∧ ProfessionalDomainRelation.active r = true
                  ∧ ProfessionalDomainRelation.admin r = true)
           ∧ (whoami_admin row = true → whoami_professional row = true)
           ∧ whoami_highest_role row
             = (if whoami_admin row then "admin"
                else if whoami_professional row then "professional"
                else if whoami_patient row then "patient"
                else "none")).
Proof.
  split_and!.
  - unfold list. run. repeat (case_match; simplify_eq; simpl in * ); done.
  - intros Hanonymous. unfold list. by rewrite Hanonymous.
  - intros [uid Huser] Hsession. unfold list. by rewrite Huser, Hsession.
  - intros uid domain dom u Huser Hsession Hdomain Hdom Hu.
    unfold list. rewrite Huser, Hsession. run.
    rewrite (proj2 (String.eqb_neq domain "") Hdomain). simpl.
    rewrite objects_get_string_pk, Hdom. simpl.
    pose proof (get_active_patient uid w) as Hpatient.
    pose proof (get_active_professional uid w) as Hprofessional.
    destruct (objects_get "PatientUser" _ (patientuser w))
      as [e | [patient_pk patient_row]] eqn:Hget_patient; simpl;
      [destruct (objects_get_inl _ _ _ _ Hget_patient) as [-> | ->];
         [rewrite decide_True by done; simpl | left; by eexists] |];
      (destruct (objects_get "ProfessionalUser" _ (professionaluser w))
         as [e | [ppk pp]] eqn:Hget_professional; simpl;
       [destruct (objects_get_inl _ _ _ _ Hget_professional) as [-> | ->];
          [rewrite decide_True by done; simpl | left; by eexists]
       | pose proof (get_admin_relation ppk domain w) as Hadmin;
         destruct (objects_get "ProfessionalDomainRelation" _
                     (professionaldomainrelation w))
           as [e | [rpk r]] eqn:Hget_relation; simpl;
         [destruct (objects_get_inl _ _ _ _ Hget_relation) as [-> | ->];
            [rewrite decide_True by done; simpl | left; by eexists] |]]);
      rewrite Hu; simpl; right; (eexists; split; [reflexivity |]); simpl;
      split_and!; try done; first [settle_professional_id | settle_admin].
Qed.

End whoami.

Section whoami_examples.
Import RestAuthViewsLists RestAuthViewsLists.WhoAmIViewSet Examples
  ListExamples.

(** alice is an admin of the clinic, and so a professional; a request
    without a user is answered 401. *)
Lemma whoami_reports_the_roles_witness :
  (∃ row,
     (list alice_lists clinic).1
     = inr (mkResponse (WhoAmiSerializer [row]) HTTP_200_OK)
     ∧ whoami_admin row = true
     ∧ whoami_professional row = true
     ∧ whoami_highest_role row = "admin")
  ∧ (list (mkRequest None (Some "clinic")) clinic).1 = inr not_authenticated.
Proof.
  destruct (whoami_reports_the_roles alice_lists clinic)
    as (_ & _ & _ & Hroles).
  destruct (whoami_reports_the_roles (mkRequest None (Some "clinic")) clinic)
    as (_ & Hanonymous & _).
  split; [| apply Hanonymous; reflexivity].
  assert ((list alice_lists clinic).1
          = inr (mkResponse
                   (WhoAmiSerializer
                      [mkWhoAmi "alice@clinic.example" (Some "clinic.example")
                         false true (Some 1) "admin" true])
                   HTTP_200_OK)) as Hrun by (vm_compute; reflexivity).
  destruct (Hroles 1 "clinic"
              (UserDomain.mk (Some "sub_1") (Some "clinic.example") true
                 "Clinic" "555-0100" None)
              (User.mk "alice" "alice@clinic.example" "pw1" true))
    as [[model Hmany] | (row & Hrow & _ & _ & _ & _ & _ & _ & Hadmin & Hrole)];
    [reflexivity | reflexivity | discriminate | vm_compute; reflexivity
    | vm_compute; reflexivity | |].
  - rewrite Hrun in Hmany. discriminate Hmany.
  - rewrite Hrun in Hrow. injection Hrow as <-.
    exists (mkWhoAmi "alice@clinic.example" (Some "clinic.example")
              false true (Some 1) "admin" true).
    split; [exact Hrun |]. split; [reflexivity |].
    split; [apply Hadmin; reflexivity | exact Hrole].
Defined.

End whoami_examples.

(** ** Attachments: upload, list, delete *)

Section attachments.
Import RestViews RestViewsAttachments RestViewsAttachments.AppealAttachmentViewSet.
Context `{FhiQueries} `{CommonViewLogic} `{FileStorage}.

Ltac run :=
  unfold bind, try_except, query, gets, modify, ret, raise,
    catch_all, catch_only, catch_among; simpl.

(** X25. Deleting an attachment the caller cannot see, stored or not, is
    an [Http404] and deletes nothing.  Deleting a visible one answers 204
    and removes that row and no other: from then on every caller gets
    [Http404] when downloading or deleting it, and a listing of its
    appeal no longer has it, while the other attachments of the appeal are
    still listed. *)
Theorem destroy_removes_the_attachment (user : option Z) (pk : Z) (w : World) :
  (filter_to_allowed_attachments w user !! pk = None →
   destroy user pk w = (inl Http404, w))
  ∧ (∀ t,
       filter_to_allowed_attachments w user !! pk = Some t →
       let w' := upd_appealattachment (delete pk) w in
       destroy user pk w = (inr (mkResponse NoData HTTP_204_NO_CONTENT), w')
       ∧ (∀ pk', pk' ≠ pk → appealattachment w' !! pk' = appealattachment w !! pk')
       ∧ (∀ user',
            destroy user' pk w' = (inl Http404, w')
            ∧ RestViews.AppealAttachmentViewSet.retrieve user' pk w'
              = (inl Http404, w'))
       ∧ (∀ user' rows code,
            list user' (Some (AppealAttachment.appeal t)) w'
            = (inr (mkResponse (AppealAttachmentsSerializer rows) code), w') →
            (pk ∉ rows.*1)
            ∧ ∀ pk' t', pk' ≠ pk → appealattachment w !! pk' = Some t' →
                        AppealAttachment.appeal t' = AppealAttachment.appeal t →
                        (pk', t') ∈ rows)).
Proof.
  split.
  - intros Hhidden. unfold destroy, get_object_or_404. run. by rewrite Hhidden.
  - intros t Hvisible w'. split_and!.
    + unfold destroy, get_object_or_404. run. by rewrite Hvisible.
    + intros pk' Hne. simpl. by rewrite lookup_delete_ne.
    + intros user'.
      assert (filter_to_allowed_attachments w' user' !! pk = None) as Hgone.
      { apply objects_filter_lookup_None. intros row. simpl.
        by rewrite lookup_delete_eq. }
      unfold destroy, RestViews.AppealAttachmentViewSet.retrieve,
        get_object_or_404. run. by rewrite Hgone.
    + intros user' rows code. unfold list, get_object_or_404. run.
      destruct (filter_to_allowed_appeals w' user' !! AppealAttachment.appeal t)
        as [a |]; simpl; [| done].
      intros [= <- _]. split.
      * intros ([pk0 t0] & Hpk & Hin)%list_elem_of_fmap. simpl in Hpk. subst pk0.
        apply elem_of_map_to_list, objects_filter_lookup_Some in Hin as [Hin _].
        by rewrite lookup_delete_eq in Hin.
      * intros pk' t' Hne Hrow Hsame.
        apply elem_of_map_to_list, objects_filter_lookup_Some.
        split; [by rewrite lookup_delete_ne | by apply Z.eqb_eq].
Qed.

(** X26. An upload to an appeal the caller cannot see is an [Http404] and
    stores nothing.  An upload to a visible appeal answers 201 and stores
    one new attachment of that appeal under a fresh key, with the name and
    the content type of the file, overwriting nothing; whoever can see the
    appeal afterwards and lists it gets the attachments it had, and the new
    one. *)
Theorem uploaded_attachment_is_listed
    (user : option Z) (upload : Upload) (w : World) :
  (filter_to_allowed_appeals w user !! upload_appeal_id upload = None →
   create user upload w = (inl Http404, w))
  ∧ (∀ a,
       filter_to_allowed_appeals w user !! upload_appeal_id upload = Some a →
       let pk := next_pk (appealattachment w) in
       let t :=
         AppealAttachment.mk (upload_appeal_id upload)
           (stored (file_content upload)) (file_name upload)
           (file_content_type upload) in
       let w' := upd_appealattachment <[pk:=t]> w in
       create user upload w
       = (inr (mkResponse (AppealAttachmentSerializer pk t) HTTP_201_CREATED), w')
       ∧ appealattachment w !! pk = None
       ∧ appealattachment w ⊆ appealattachment w'
       ∧ ∀ user' a',
           filter_to_allowed_appeals w' user' !! upload_appeal_id upload
           = Some a' →
           ∃ rows,
             list user' (Some (upload_appeal_id upload)) w'
             = (inr (mkResponse (AppealAttachmentsSerializer rows) HTTP_200_OK),
                w')
             ∧ ∀ pk' t',
                 (pk', t') ∈ rows
                 ↔ (pk' = pk ∧ t' = t)
                   ∨ (appealattachment w !! pk' = Some t'
                      ∧ AppealAttachment.appeal t' = upload_appeal_id upload)).
Proof.
  split.
  - intros Hhidden. unfold create, get_object_or_404. run. by rewrite Hhidden.
  - intros a Hvisible pk t w'.
    pose proof (next_pk_fresh (appealattachment w)) as Hfresh. fold pk in Hfresh.
    split_and!.
    + unfold create, get_object_or_404. run. by rewrite Hvisible.
    + exact Hfresh.
    + simpl. by apply insert_subseteq.
    + intros user' a' Hvisible'. unfold list, get_object_or_404. run.
      rewrite Hvisible'. simpl. eexists. split; [reflexivity |].
      intros pk' t'.
      rewrite elem_of_map_to_list, objects_filter_lookup_Some, Z.eqb_eq,
        lookup_insert_Some.
      split.
      * intros [[[<- <-] | [Hne Hrow]] Hsame]; [by left | by right].
      * intros [[-> ->] | [Hrow Hsame]]; [split; [by left | done] |].
        split; [right | done]. split; [| done]. intros <-. congruence.
Qed.

End attachments.

Section attachments_examples.
Import RestViews RestViewsAttachments RestViewsAttachments.AppealAttachmentViewSet
  Examples AttachmentExamples.

(** carol deletes attachment 1 of appeal 1, and then cannot download it;
    dave, who is on no record, cannot delete it in the first place. *)
Lemma destroy_removes_the_attachment_witness :
  @destroy sample_queries (Some 4) 1 practice = (inl Http404, practice)
  ∧ (@destroy sample_queries (Some 1) 1 practice).1
    = inr (mkResponse NoData HTTP_204_NO_CONTENT)
  ∧ (@RestViews.AppealAttachmentViewSet.retrieve sample_queries
       (sample_view_logic "d-new") (Some 1) 1
       (@destroy sample_queries (Some 1) 1 practice).2).1
    = inl Http404.
Proof.
  destruct (@destroy_removes_the_attachment sample_queries
              (sample_view_logic "d-new") (Some 4) 1 practice)
    as [Hdave _].
  destruct (@destroy_removes_the_attachment sample_queries
              (sample_view_logic "d-new") (Some 1) 1 practice)
    as [_ Hcarol].
  destruct (Hcarol (AppealAttachment.mk 1 "ciphertext" "denial.pdf"
                      "application/pdf"))
    as (Hrun & _ & Hgone & _); [vm_compute; reflexivity |].
  split; [apply Hdave; vm_compute; reflexivity |].
  rewrite Hrun. split; [reflexivity |].
  destruct (Hgone (Some 1)) as [_ Hretrieve]. simpl.
  by rewrite Hretrieve.
Defined.

(** carol uploads a letter to appeal 2 and finds it in the listing. *)
Lemma uploaded_attachment_is_listed_witness :
  ∃ rows,
    @list sample_queries (Some 1) (Some 2)
      (@create sample_queries plain_storage (Some 1) letter practice).2
    = (inr (mkResponse (AppealAttachmentsSerializer rows) HTTP_200_OK),
       (@create sample_queries plain_storage (Some 1) letter practice).2)
    ∧ (2, AppealAttachment.mk 2 "Dear insurer" "letter.txt" "text/plain") ∈ rows.
Proof.
  destruct (@uploaded_attachment_is_listed sample_queries plain_storage
              (Some 1) letter practice)
    as [_ Hupload].
  destruct (Hupload (an_appeal "a-2" 2 (Some 1) true false false None (101 * day)))
    as (Hrun & _ & _ & Hlisted); [vm_compute; reflexivity |].
  rewrite Hrun. simpl.
  destruct (Hlisted (Some 1)
              (an_appeal "a-2" 2 (Some 1) true false false None (101 * day)))
    as (rows & Hlist & Hrows); [vm_compute; reflexivity |].
  exists rows. split; [exact Hlist |].
  apply Hrows. left. split; vm_compute; reflexivity.
Defined.

End attachments_examples.

(** ** Answers to a denial's questions *)

Section qa_answers.
Import RestViews QAResponseViewSet QASpec.
Context `{FhiQueries}.

Ltac run :=
  unfold bind, try_except, query, gets, modify, ret, raise,
    catch_all, catch_only, catch_among; simpl.

(** With (denial, question) a key, the lookup of an answer never finds
    several. *)
Lemma qa_get_not_multiple table d k model :
  qa_wf table →
  objects_get "DenialQA" (λ _ q, String.eqb (DenialQA.question q) k)
    (objects_filter (λ _ q, (DenialQA.denial q =? d)%Z) table)
  ≠ inl (MultipleObjectsReturned model).
Proof.
  intros Hwf. unfold objects_get.
  destruct (map_to_list _) as [| [pk1 q1] [| [pk2 q2] l]] eqn:Hl; [done.. |].
  intros _.
  pose proof (NoDup_fst_map_to_list
                (objects_filter (λ _ q, String.eqb (DenialQA.question q) k)
                   (objects_filter (λ _ q, (DenialQA.denial q =? d)%Z) table)))
    as Hnodup.
  rewrite Hl in Hnodup. simpl in Hnodup.
  apply NoDup_cons in Hnodup as [Hnotin _].
  assert ((pk1, q1) ∈ (pk1, q1) :: (pk2, q2) :: l) as H1 by left.
  assert ((pk2, q2) ∈ (pk1, q1) :: (pk2, q2) :: l) as H2 by (right; left).
  rewrite <- Hl in H1, H2.
  apply elem_of_map_to_list, objects_filter_lookup_Some in H1 as [H1 Hk1].
  apply elem_of_map_to_list, objects_filter_lookup_Some in H2 as [H2 Hk2].
  apply objects_filter_lookup_Some in H1 as [H1 Hd1].
  apply objects_filter_lookup_Some in H2 as [H2 Hd2].
  apply String.eqb_eq in Hk1, Hk2. apply Z.eqb_eq in Hd1, Hd2.
  apply Hnotin. apply elem_of_cons. left.
  apply (Hwf pk1 pk2 q1 q2); congruence.
Qed.

(** One pass of the loop body. *)
Lemma upsert_answer_spec w table d k v :
  qa_wf table →
  ∃ table',
    upsert_answer d k v (mkQAWorld w table) = (inr tt, mkQAWorld w table')
    ∧ qa_wf table'
    ∧ has_answer table' d k v
    ∧ (∀ d' k' v', (d', k') ≠ (d, k) →
                   has_answer table' d' k' v' ↔ has_answer table d' k' v')
    ∧ (has_answer table d k v → table' = table).
Proof.
  intros Hwf. unfold upsert_answer. run.
  destruct (objects_get "DenialQA" _ (objects_filter _ table))
    as [e | [pk q]] eqn:Hget; simpl.
  - destruct (objects_get_inl _ _ _ _ Hget) as [-> | ->];
      [| by destruct (qa_get_not_multiple table d k "DenialQA" Hwf)].
    rewrite decide_True by done. simpl.
    assert (∀ pk q, table !! pk = Some q → DenialQA.denial q = d →
                    DenialQA.question q ≠ k) as Hnone.
    { intros pk q Hq Hd Hk.
      pose proof (objects_get_DoesNotExist _ _ _ _ Hget pk q) as Hno.
      rewrite objects_filter_lookup_Some, Hd, Hk, Z.eqb_refl,
        String.eqb_refl in Hno. by specialize (Hno (conj Hq eq_refl)). }
    pose proof (next_pk_fresh table) as Hfresh.
    eexists. split; [reflexivity |]. split_and!.
    + intros pk1 pk2 q1 q2.
      rewrite !lookup_insert_Some.
      intros [[<- <-] | [Hne1 Hq1]] [[<- <-] | [Hne2 Hq2]] Hd Hk; simpl in *.
      * done.
      * by destruct (Hnone pk2 q2 Hq2).
      * by destruct (Hnone pk1 q1 Hq1).
      * by eapply Hwf.
    + exists (next_pk table). apply lookup_insert_eq.
    + intros d' k' v' Hother. unfold has_answer. split.
      * intros [pk Hpk]. apply lookup_insert_Some in Hpk as [[_ Heq] | [_ Hpk]].
        -- injection Heq as -> -> ->. done.
        -- by exists pk.
      * intros [pk Hpk]. exists pk. rewrite lookup_insert_ne; [done |].
        intros <-. by rewrite Hfresh in Hpk.
    + intros [pk Hpk]. by destruct (Hnone pk _ Hpk).
  - apply objects_get_inr in Hget as (Hq & Hk & _).
    apply objects_filter_lookup_Some in Hq as [Hq Hd].
    apply String.eqb_eq in Hk. apply Z.eqb_eq in Hd.
    destruct q as [qd qk qv]. simpl in Hk, Hd. subst qd qk.
    unfold DenialQA.set_text_answer. simpl.
    eexists. split; [reflexivity |]. split_and!.
    + intros pk1 pk2 q1 q2.
      rewrite !lookup_insert_Some.
      intros [[<- <-] | [Hne1 Hq1]] [[<- <-] | [Hne2 Hq2]] Hd Hk; simpl in *.
      * done.
      * by apply (Hwf pk pk2 _ q2 Hq Hq2).
      * by apply (Hwf pk1 pk q1 _ Hq1 Hq).
      * by eapply Hwf.
    + exists pk. apply lookup_insert_eq.
    + intros d' k' v' Hother. unfold has_answer. split.
      * intros [pk' Hpk]. apply lookup_insert_Some in Hpk as [[_ Heq] | [_ Hpk]].
        -- injection Heq as -> -> ->. done.
        -- by exists pk'.
      * intros [pk' Hpk]. exists pk'. rewrite lookup_insert_ne; [done |].
        intros <-. rewrite Hq in Hpk. injection Hpk as -> -> ->. done.
    + intros [pk' Hpk].
      assert (pk' = pk) as -> by (by apply (Hwf pk' pk _ _ Hpk Hq)).
      rewrite Hq in Hpk. injection Hpk as ->. by apply insert_id.
Qed.

Lemma upsert_answers_cons d k v rest s :
  upsert_answers d ((k, v) :: rest) s
  = match (if String.eqb k "" || String.eqb v "" then ret tt
           else upsert_answer d k v) s with
    | (inl e, s') => (inl e, s')
    | (inr _, s') => upsert_answers d rest s'
    end.
Proof. reflexivity. Qed.

(** The loop over the dictionary. *)
Lemma upsert_answers_spec w d qa table :
  qa_wf table → NoDup qa.*1 →
  ∃ table',
    upsert_answers d qa (mkQAWorld w table) = (inr tt, mkQAWorld w table')
    ∧ qa_wf table'
    ∧ (∀ k v, (k, v) ∈ qa → ¬ blank (k, v) → has_answer table' d k v)
    ∧ (∀ d' k' v',
         d' ≠ d ∨ (∀ v, (k', v) ∈ qa → blank (k', v)) →
         has_answer table' d' k' v' ↔ has_answer table d' k' v')
    ∧ ((∀ k v, (k, v) ∈ qa → ¬ blank (k, v) → has_answer table d k v) →
       table' = table).
Proof.
  revert table. induction qa as [| [k v] qa IH]; intros table Hwf Hnodup.
  - exists table. split; [done |]. split; [done |]. split_and!; try done.
    intros k v Hin. by apply elem_of_nil in Hin.
  - rewrite fmap_cons in Hnodup. apply NoDup_cons in Hnodup as [Hk Hnodup].
    simpl in Hk.
    assert (∀ v0, (k, v0) ∈ qa → False) as Hfirst.
    { intros v0 Hin. apply Hk. apply list_elem_of_fmap. by exists (k, v0). }
    rewrite upsert_answers_cons.
    destruct (String.eqb k "" || String.eqb v "") eqn:Hblank.
    + assert (blank (k, v)) as Hb.
      { apply orb_true_iff in Hblank as [Hb | Hb]; apply String.eqb_eq in Hb;
          [by left | by right]. }
      destruct (IH table Hwf Hnodup)
        as (table' & Hrun & Hwf' & Hset & Hkept & Hsame).
      unfold ret. rewrite Hrun.
      exists table'. split; [done |]. split; [done |]. split_and!.
      * intros k0 v0 [[= -> ->] | Hin]%elem_of_cons Hnb; [done | by apply Hset].
      * intros d' k' v' Hother. apply Hkept.
        destruct Hother as [Hd | Hall]; [by left | right].
        intros v0 Hin. apply Hall. by right.
      * intros Hall. apply Hsame. intros k0 v0 Hin. apply Hall. by right.
    + assert (¬ blank (k, v)) as Hnb.
      { apply orb_false_iff in Hblank as [Hb1 Hb2].
        apply String.eqb_neq in Hb1, Hb2. by intros [? | ?]. }
      destruct (upsert_answer_spec w table d k v Hwf)
        as (table1 & Hrun1 & Hwf1 & Hset1 & Hkept1 & Hsame1).
      destruct (IH table1 Hwf1 Hnodup)
        as (table' & Hrun & Hwf' & Hset & Hkept & Hsame).
      rewrite Hrun1, Hrun.
      exists table'. split; [done |]. split; [done |]. split_and!.
      * intros k0 v0 [[= -> ->] | Hin]%elem_of_cons Hnb0; [| by apply Hset].
        apply Hkept; [| done]. right. intros v0 Hin. by destruct (Hfirst v0).
      * intros d' k' v' Hother.
        rewrite Hkept, Hkept1; [done | |].
        -- destruct Hother as [Hd | Hall]; [congruence |].
           intros [= -> ->]. apply Hnb, Hall. by left.
        -- destruct Hother as [Hd | Hall]; [by left | right].
           intros v0 Hin. apply Hall. by right.
      * intros Hall.
        assert (table1 = table) as -> by (apply Hsame1, Hall; [by left | done]).
        apply Hsame. intros k0 v0 Hin. apply Hall. by right.
Qed.

(** What [perform_create] does for a visible denial. *)
Lemma perform_create_qa_run request w table d :
  filter_to_allowed_denials w (user request) !! denial_id request = Some d →
  qa_wf table → NoDup (qa request).*1 →
  ∃ table',
    upsert_answers (denial_id request) (qa request) (mkQAWorld w table)
    = (inr tt, mkQAWorld w table')
    ∧ perform_create request (mkQAWorld w table)
      = (inr no_content,
         mkQAWorld
           (upd_denial
              <[denial_id request :=
                  Denial_set_qa_context
                    (Some (qa_context_of (denial_id request) table')) d]> w)
           table').
Proof.
  intros Hvisible Hwf Hnodup.
  destruct (upsert_answers_spec w (denial_id request) (qa request) table
              Hwf Hnodup) as (table' & Hrun & _).
  exists table'. split; [exact Hrun |].
  unfold perform_create. run. fold (filter_to_allowed_denials w (user request)).
  rewrite objects_get_pk, Hvisible. simpl. by rewrite Hrun.
Qed.

(** X27. [QAResponseViewSet.perform_create] upserts.  For a denial the
    caller cannot see it raises [Denial.DoesNotExist] and writes nothing.
    For a visible one, with (denial, question) a key of the stored answers
    and no key twice in the dictionary, it answers 204 and afterwards,
    for each entry whose key and value are not blank, the denial has that
    value as its one answer to that question; the answers of other denials
    and to other questions are as they were, blank entries change nothing,
    (denial, question) is still a key, and the denial carries the text
    built from its answers. *)
Theorem answers_are_upserted
    (request : Request) (w : World) (table : gmap Z DenialQA.t) :
  qa_wf table → NoDup (qa request).*1 →
  (filter_to_allowed_denials w (user request) !! denial_id request = None →
   perform_create request (mkQAWorld w table)
   = (inl (DoesNotExist "Denial"), mkQAWorld w table))
  ∧ (∀ d,
       filter_to_allowed_denials w (user request) !! denial_id request = Some d →
       ∃ table',
         perform_create request (mkQAWorld w table)
         = (inr no_content,
            mkQAWorld
              (upd_denial
                 <[denial_id request :=
                     Denial_set_qa_context
                       (Some (qa_context_of (denial_id request) table')) d]> w)
              table')
         ∧ qa_wf table'
         ∧ (∀ k v, (k, v) ∈ qa request → ¬ blank (k, v) →
                   has_answer table' (denial_id request) k v
                   ∧ ∀ v', has_answer table' (denial_id request) k v' → v' = v)
         ∧ (∀ d' k v,
              d' ≠ denial_id request
              ∨ (∀ v0, (k, v0) ∈ qa request → blank (k, v0)) →
              has_answer table' d' k v ↔ has_answer table d' k v)).
Proof.
  intros Hwf Hnodup. split.
  - intros Hhidden. unfold perform_create. run.
    fold (filter_to_allowed_denials w (user request)).
    by rewrite objects_get_pk, Hhidden.
  - intros d Hvisible.
    destruct (perform_create_qa_run request w table d Hvisible Hwf Hnodup)
      as (table' & Hloop & Hrun).
    destruct (upsert_answers_spec w (denial_id request) (qa request) table
                Hwf Hnodup) as (table'' & Hloop' & Hwf' & Hset & Hkept & _).
    rewrite Hloop in Hloop'. injection Hloop' as <-.
    exists table'. split; [exact Hrun |]. split; [exact Hwf' |].
    split; [| exact Hkept].
    intros k v Hin Hnb. split; [by apply Hset |].
    intros v' [pk' Hpk'].
    destruct (Hset k v Hin Hnb) as [pk Hpk].
    assert (pk' = pk) as -> by (by apply (Hwf' pk' pk _ _ Hpk' Hpk)).
    rewrite Hpk in Hpk'. by injection Hpk' as ->.
Qed.

(** X28. Answering twice is answering once.  When [perform_create] has
    returned and the denial is still visible to the caller, the same
    request again answers 204 and leaves the answers and the denial
    exactly as the first call left them. *)
Theorem answering_twice_changes_nothing
    (request : Request) (w w' : World) (table table' : gmap Z DenialQA.t)
    (d d' : Denial.t) :
  qa_wf table → NoDup (qa request).*1 →
  filter_to_allowed_denials w (user request) !! denial_id request = Some d →
  perform_create request (mkQAWorld w table)
  = (inr no_content, mkQAWorld w' table') →
  filter_to_allowed_denials w' (user request) !! denial_id request = Some d' →
  perform_create request (mkQAWorld w' table')
  = (inr no_content, mkQAWorld w' table').
Proof.
  intros Hwf Hnodup Hvisible Hfirst Hvisible'.
  destruct (perform_create_qa_run request w table d Hvisible Hwf Hnodup)
    as (table1 & Hloop & Hrun).
  rewrite Hrun in Hfirst. injection Hfirst as <- <-.
  destruct (upsert_answers_spec w (denial_id request) (qa request) table
              Hwf Hnodup) as (table'' & Hloop' & Hwf' & Hset & _).
  rewrite Hloop in Hloop'. injection Hloop' as <-.
  set (w' := upd_denial _ w) in *.
  destruct (upsert_answers_spec w' (denial_id request) (qa request) table1
              Hwf' Hnodup) as (table2 & Hloop2 & _ & _ & _ & Hsame).
  rewrite (Hsame Hset) in Hloop2.
  assert (d' = Denial_set_qa_context
                 (Some (qa_context_of (denial_id request) table1)) d) as ->.
  { apply objects_filter_lookup_Some in Hvisible' as [Hrow _].
    subst w'. simpl in Hrow. rewrite lookup_insert_eq in Hrow. congruence. }
  unfold perform_create. run.
  fold (filter_to_allowed_denials w' (user request)).
  rewrite objects_get_pk, Hvisible'. simpl. rewrite Hloop2. simpl.
  subst w'. unfold upd_world, upd_denial, Denial_set_qa_context. simpl.
  by rewrite insert_insert_eq.
Qed.

End qa_answers.

Section qa_answers_examples.
Import RestViews QAResponseViewSet QASpec Examples QAExamples.

Lemma intake_qa_wf : qa_wf (denialqa intake).
Proof.
  intros pk1 pk2 q1 q2. unfold intake. simpl.
  rewrite !lookup_singleton_Some. by intros [<- _] [<- _].
Qed.

Lemma carol_answers_keys : NoDup (qa carol_answers).*1.
Proof. apply (bool_decide_eq_true_1 _). vm_compute. reflexivity. Qed.

(** carol's answers: the diagnosis is updated, the urgency is new, the
    blank medication is skipped. *)
Lemma answers_are_upserted_witness :
  ∃ table',
    denialqa (@perform_create sample_queries carol_answers intake).2 = table'
    ∧ has_answer table' 2 "Diagnosis" "asthma"
    ∧ ¬ has_answer table' 2 "Diagnosis" "unknown"
    ∧ has_answer table' 2 "Urgent" "yes"
    ∧ ¬ has_answer table' 2 "Medication" "".
Proof.
  destruct (@answers_are_upserted sample_queries carol_answers practice
              (denialqa intake) intake_qa_wf carol_answers_keys)
    as [_ Hvisible].
  destruct (Hvisible (Denial.mk "d-2" (Some 1) (Some 1) (Some 1) true None None))
    as (table' & Hrun & _ & Hset & Hkept); [vm_compute; reflexivity |].
  exists table'.
  change intake with (mkQAWorld practice (denialqa intake)).
  rewrite Hrun. split; [reflexivity |].
  destruct (Hset "Diagnosis" "asthma") as [Hdiagnosis Honly];
    [by left | by intros [? | ?] |].
  destruct (Hset "Urgent" "yes") as [Hurgent _];
    [by right; right; left | by intros [? | ?] |].
  split; [exact Hdiagnosis |].
  split; [intros Hold; by specialize (Honly _ Hold) |].
  split; [exact Hurgent |].
  rewrite Hkept.
  - intros [pk Hpk]. unfold intake in Hpk. simpl in Hpk.
    apply lookup_singleton_Some in Hpk as [_ Hpk]. discriminate Hpk.
  - right. intros v0 Hin.
    apply elem_of_cons in Hin as [Hin | Hin]; [discriminate Hin |].
    apply elem_of_cons in Hin as [Hin | Hin]; [injection Hin as ->; by right |].
    apply elem_of_cons in Hin as [Hin | Hin]; [discriminate Hin |].
    by apply elem_of_nil in Hin.
Defined.

(** carol sends her answers a second time. *)
Lemma answering_twice_changes_nothing_witness :
  @perform_create sample_queries carol_answers
    (@perform_create sample_queries carol_answers intake).2
  = (inr no_content, (@perform_create sample_queries carol_answers intake).2).
Proof.
  destruct (@perform_create sample_queries carol_answers intake)
    as [result [w' table']] eqn:Hfirst.
  assert (result = inr no_content) as ->.
  { change result with (result, mkQAWorld w' table').1.
    rewrite <- Hfirst. vm_compute; reflexivity. }
  assert (is_Some (@filter_to_allowed_denials sample_queries w' (Some 1) !! 2))
    as [d' Hvisible'].
  { assert (w' = world (@perform_create sample_queries carol_answers intake).2)
      as -> by (by rewrite Hfirst).
    apply (bool_decide_eq_true_1 _). vm_compute; reflexivity. }
  apply (@answering_twice_changes_nothing sample_queries carol_answers practice
           w' (denialqa intake) table'
           (Denial.mk "d-2" (Some 1) (Some 1) (Some 1) true None None) d').
  - exact intake_qa_wf.
  - exact carol_answers_keys.
  - vm_compute; reflexivity.
  - exact Hfirst.
  - exact Hvisible'.
Defined.

End qa_answers_examples.

(** ** Notifying the patient of an appeal *)

Section notify_patient.
Import RestViews RestViewsNotify RestViewsNotify.AppealViewSet.
Context `{FhiQueries} `{UserNames}.

Ltac run :=
  unfold bind, try_except, query, gets, modify, ret, raise,
    catch_all, catch_only, catch_among; simpl.

Lemma Appeal_set_patient_visible_same a :
  Appeal.patient_visible a = true → Appeal_set_patient_visible true a = a.
Proof. destruct a. simpl. by intros ->. Qed.

(** The two lookups of the mail read the professionals, the users and the
    domains only. *)
Lemma professional_name_of_frame request w w' :
  professionaluser w' = professionaluser w → auth_user w' = auth_user w →
  professional_name_of request w' = professional_name_of request w.
Proof.
  intros Hprofessionals Husers.
  unfold professional_name_of, ProfessionalUserMethods.get_display_name.
  by rewrite Hprofessionals, Husers.
Qed.

Lemma practice_number_of_frame request w w' :
  userdomain w' = userdomain w →
  practice_number_of request w' = practice_number_of request w.
Proof. intros Hdomains. unfold practice_number_of. by rewrite Hdomains. Qed.

#[local] Arguments professional_name_of : simpl never.
#[local] Arguments practice_number_of : simpl never.

(** X29. [notify_patient] on an appeal the caller cannot see is an
    [Http404]: nothing is written and no mail is sent.  On a visible
    appeal it first makes the appeal visible to the patient, and saves it.
    If the appeal has no patient it then answers 404 "Patient not found",
    with the appeal already marked and no mail sent.  If it has one, it
    sends exactly one mail, to the address of the patient's user: an
    invitation to sign up when that user is not active, a notice of the
    draft appeal when it is; and answers 200.  No other appeal is
    written. *)
Theorem notify_patient_outcomes (request : Request) (s : Outbox) :
  let w := box_world s in
  (filter_to_allowed_appeals w (user request) !! id request = None →
   notify_patient request s = (inl Http404, s))
  ∧ (∀ a,
       filter_to_allowed_appeals w (user request) !! id request = Some a →
       Appeal.patient_user a = None →
       ∃ w',
         notify_patient request s
         = (inr patient_not_found, mkOutbox w' (notices s))
         ∧ appeal w' !! id request = Some (Appeal_set_patient_visible true a)
         ∧ ∀ pk, pk ≠ id request → appeal w' !! pk = appeal w !! pk)
  ∧ (∀ a patient p u name number,
       filter_to_allowed_appeals w (user request) !! id request = Some a →
       Appeal.patient_user a = Some patient →
       patientuser w !! patient = Some p →
       auth_user w !! PatientUser.user p = Some u →
       professional_name_of request w = inr name →
       practice_number_of request w = inr number →
       ∃ w',
         notify_patient request s
         = (inr notification_sent,
            mkOutbox w'
              (notices s
               ++ [if User.is_active u
                   then DraftAppeal (User.email u) name number
                   else SignupInvitation (User.email u) name number]))
         ∧ appeal w' !! id request = Some (Appeal_set_patient_visible true a)
         ∧ ∀ pk, pk ≠ id request → appeal w' !! pk = appeal w !! pk).
Proof.
  intros w. subst w. destruct s as [w sent]. simpl. split_and!.
  - intros Hhidden. unfold notify_patient, lift, get_object_or_404. run.
    by rewrite Hhidden.
  - intros a Hvisible Hnone.
    pose proof Hvisible as [Hrow _]%objects_filter_lookup_Some.
    unfold notify_patient, lift, get_object_or_404, Appeal_save. run.
    rewrite Hvisible. simpl. rewrite Hnone.
    destruct (Appeal.patient_visible a) eqn:Hseen; simpl.
    + exists w. split; [done |].
      split; [by rewrite Appeal_set_patient_visible_same | done].
    + eexists. split; [reflexivity |]. simpl.
      split; [apply lookup_insert_eq |].
      intros pk Hne. by rewrite lookup_insert_ne.
  - intros a patient p u name number Hvisible Hpatient Hp Hu Hname Hnumber.
    cbn [box_world] in Hname, Hnumber.
    pose proof Hvisible as [Hrow _]%objects_filter_lookup_Some.
    unfold notify_patient, lift, get_object_or_404, Appeal_save, send. run.
    rewrite Hvisible. simpl. rewrite Hpatient.
    destruct (Appeal.patient_visible a) eqn:Hseen; simpl.
    + rewrite objects_get_pk, Hp. simpl. rewrite Hname. simpl.
      rewrite objects_get_pk, Hu. simpl. rewrite Hnumber. simpl.
      exists w. split; [by destruct (User.is_active u) |].
      split; [by rewrite Appeal_set_patient_visible_same | done].
    + rewrite objects_get_pk, Hp. simpl.
      rewrite (professional_name_of_frame request w) by done. rewrite Hname. simpl.
      rewrite objects_get_pk, Hu. simpl.
      rewrite (practice_number_of_frame request w) by done. rewrite Hnumber. simpl.
      eexists. split; [by destruct (User.is_active u) |]. simpl.
      split; [apply lookup_insert_eq |].
      intros pk Hne. by rewrite lookup_insert_ne.
Qed.

End notify_patient.

Section notify_patient_examples.
Import RestViews RestViewsNotify RestViewsNotify.AppealViewSet Examples
  NotifyExamples.

(** carol notifies pat of appeal 2: pat, whose account is active, gets
    the notice of the draft, with carol's name.  For appeal 1, which has
    no patient, the answer is 404 and the appeal is marked all the same. *)
Lemma notify_patient_outcomes_witness :
  (@notify_patient sample_queries no_names carol_notifies_pat practice_desk).1
  = inr notification_sent
  ∧ notices
      (@notify_patient sample_queries no_names carol_notifies_pat
         practice_desk).2
    = [DraftAppeal "pat@home.example" (Some "carol@practice.example")
         "555-0177"]
  ∧ (@notify_patient sample_queries no_names carol_notifies_nobody
       practice_desk).1
    = inr patient_not_found
  ∧ (Appeal.patient_visible
       <$> appeal
             (box_world
                (@notify_patient sample_queries no_names carol_notifies_nobody
                   practice_desk).2) !! 1)
    = Some true.
Proof.
  destruct (@notify_patient_outcomes sample_queries no_names carol_notifies_pat
              practice_desk) as (_ & _ & Hpat).
  destruct (@notify_patient_outcomes sample_queries no_names
              carol_notifies_nobody practice_desk) as (_ & Hnobody & _).
  destruct (Hpat (an_appeal "a-2" 2 (Some 1) true false false None (101 * day))
              1 (PatientUser.mk 3 true None)
              (User.mk "pat" "pat@home.example" "pw3" true)
              (Some "carol@practice.example") "555-0177")
    as (w2 & Hrun2 & _);
    [vm_compute; reflexivity | reflexivity | vm_compute; reflexivity
    | vm_compute; reflexivity | vm_compute; reflexivity
    | vm_compute; reflexivity |].
  destruct (Hnobody (an_appeal "a-1" 1 None true false false None (100 * day)))
    as (w1 & Hrun1 & Hmarked & _);
    [vm_compute; reflexivity | reflexivity |].
  rewrite Hrun2, Hrun1. simpl.
  split; [reflexivity |]. split; [reflexivity |]. split; [reflexivity |].
  exact (f_equal (fmap Appeal.patient_visible) Hmarked).
Defined.

End notify_patient_examples.

(** ** Logging in *)

Section login.
Import RestAuthViews RestLogin RestLogin.RestLoginView LoginSpec.
Context `{LoginUtils}.

Ltac run :=
  unfold bind, try_except, query, gets, modify, ret, raise,
    catch_all, catch_only, catch_among; simpl.

(** What the view does once the password of an active user is checked. *)
Lemma login_of_checked_user env request s domain_id name uid u :
  resolve_domain_id (site s) (domain request) (phone request) = inr domain_id →
  combine_domain_and_username (username request) (phone request) domain_id
  = inr name →
  objects_get "User" (λ _ u, String.eqb (User.username u) name)
    (auth_user (site s)) = inr (uid, u) →
  User.is_active u = true →
  User.password u = password request →
  login env request s
  = (inr logged_in,
     (RestLogin.login env uid u
        (set_session_domain_id domain_id s).2).2).
Proof.
  intros Hresolve Hcombine Huser Hactive Hpassword.
  unfold login, authenticate. run.
  rewrite Hresolve. simpl. rewrite Hcombine. simpl.
  by rewrite Huser, Hactive, Hpassword, String.eqb_refl.
Qed.

(** X30. [login] changes no row of the world.  When the domain or the
    login name cannot be resolved it answers 400 and writes nothing.
    Otherwise: for a stored user who is not active it answers 401 "User is
    inactive", whatever the password; for an active user with another
    password, and for a name no user has, it answers 401 "Invalid
    credentials"; none of these writes anything, the session included.
    For an active user with their password it answers "success", saves
    the time in the user's [last_login] and in no other, and leaves a
    session of that user.  That session is on the resolved domain unless
    the browser held the session of another login, of another user or of
    this user under another password: then the session was flushed after
    the domain was stored, and it has no domain. *)
Theorem login_outcomes (env : Ambient) (request : Request) (s : Browser) :
  site (login env request s).2 = site s
  ∧ (∀ e, resolve_domain_id (site s) (domain request) (phone request) = inl e →
          login env request s = (inr (domain_not_found e), s))
  ∧ (∀ domain_id,
       resolve_domain_id (site s) (domain request) (phone request)
       = inr domain_id →
       (∀ e, combine_domain_and_username (username request) (phone request)
               domain_id = inl e →
             login env request s = (inr (domain_not_found e), s))
       ∧ ∀ name,
           combine_domain_and_username (username request) (phone request)
             domain_id = inr name →
           (∀ uid u,
              objects_get "User" (λ _ u, String.eqb (User.username u) name)
                (auth_user (site s)) = inr (uid, u) →
              (User.is_active u = false →
               login env request s = (inr user_is_inactive, s))
              ∧ (User.is_active u = true →
                 User.password u = password request →
                 ∃ sess,
                   login env request s
                   = (inr logged_in,
                      mkBrowser (site s) (<[uid := now env]> (last_login s))
                        sess)
                   ∧ session_user sess = Some uid
                   ∧ session_backend sess = Some ModelBackend
                   ∧ session_auth_hash sess = Some (get_session_auth_hash u)
                   ∧ (of_another_login (session s) uid u →
                      session_domain_id sess = None)
                   ∧ (¬ of_another_login (session s) uid u →
                      session_domain_id sess = Some domain_id))
              ∧ (User.is_active u = true →
                 User.password u ≠ password request →
                 login env request s = (inr invalid_credentials, s)))
           ∧ (objects_get "User" (λ _ u, String.eqb (User.username u) name)
                (auth_user (site s)) = inl (DoesNotExist "User") →
              login env request s = (inr invalid_credentials, s))).
Proof.
  split_and!.
  - unfold login, authenticate, RestLogin.login, set_session_domain_id. run.
    repeat (case_match; simplify_eq; simpl in * ); done.
  - intros e Hresolve. unfold login. run. by rewrite Hresolve.
  - intros domain_id Hresolve. split.
    + intros e Hcombine. unfold login. run. by rewrite Hresolve, Hcombine.
    + intros name Hcombine. split.
      * intros uid u Huser. split_and!.
        -- intros Hinactive. unfold login, authenticate. run.
           rewrite Hresolve. simpl. rewrite Hcombine. simpl.
           rewrite Huser, Hinactive, andb_false_r. simpl.
           rewrite Huser. simpl. by rewrite Hinactive.
        -- intros Hactive Hpassword.
           rewrite (login_of_checked_user env request s domain_id name uid u)
             by done.
           unfold RestLogin.login, set_session_domain_id, of_another_login.
           run. eexists. split; [reflexivity |]. simpl.
           split; [done |]. split; [done |]. split; [done |].
           destruct (session_user (session s)) as [owner |] eqn:Howner; simpl.
           ++ destruct (decide (owner = uid)) as [-> | Hother].
              ** rewrite (bool_decide_eq_false_2 (uid ≠ uid)) by auto. simpl.
                 destruct (decide (session_auth_hash (session s)
                                   = Some (get_session_auth_hash u)))
                   as [Hhash | Hhash].
                 --- rewrite (bool_decide_eq_false_2 _ (λ Hne, Hne Hhash)).
                     simpl. split; [| done].
                     intros (owner & [= <-] & [Hne | Hne]); by destruct Hne.
                 --- rewrite (bool_decide_eq_true_2 _ Hhash). simpl.
                     split; [done |]. intros Hnot. destruct Hnot.
                     exists uid. split; [done | by right].
              ** rewrite (bool_decide_eq_true_2 _ Hother). simpl.
                 split; [done |]. intros Hnot. destruct Hnot.
                 exists owner. split; [done | by left].
           ++ split; [| done]. by intros (owner & Hsome & _).
        -- intros Hactive Hpassword. unfold login, authenticate. run.
           rewrite Hresolve. simpl. rewrite Hcombine. simpl.
           rewrite Huser, (proj2 (String.eqb_neq _ _) Hpassword). simpl.
           rewrite Huser. simpl. by rewrite Hactive.
      * intros Hnone. unfold login, authenticate. run.
        rewrite Hresolve. simpl. rewrite Hcombine. simpl.
        rewrite Hnone. simpl. rewrite Hnone. simpl.
        by rewrite ?decide_True.
Qed.

End login.

Section login_examples.
Import RestAuthViews RestLogin RestLogin.RestLoginView LoginSpec Examples
  MoreExamples2 LoginExamples.

(** alice logs in with her password at a browser without a session: her
    session is on the clinic.  At the desk where user 3 is logged in on
    another domain, her login flushes that session and hers has no
    domain.  Both times her [last_login] is the time of the call.  A guess
    at the password of bob, who has not verified his e-mail, is told that
    the user is inactive. *)
Lemma login_outcomes_witness :
  @login sample_login_utils morning alice_logs_in front_door
  = (inr logged_in,
     mkBrowser (site front_door) {[1 := 2000]}
       (mkSession (Some "clinic") (Some 1) (Some ModelBackend) (Some "pw1")))
  ∧ @login sample_login_utils morning alice_logs_in shared_desk
    = (inr logged_in,
       mkBrowser (site front_door) {[1 := 2000; 3 := 1000]}
         (mkSession None (Some 1) (Some ModelBackend) (Some "pw1")))
  ∧ @login sample_login_utils morning guess_bob front_door
    = (inr user_is_inactive, front_door).
Proof.
  destruct (@login_outcomes sample_login_utils morning alice_logs_in front_door)
    as (_ & _ & Halice).
  destruct (@login_outcomes sample_login_utils morning alice_logs_in shared_desk)
    as (_ & _ & Hdesk).
  destruct (@login_outcomes sample_login_utils morning guess_bob front_door)
    as (_ & _ & Hbob).
  destruct (Halice "clinic") as [_ Halice']; [vm_compute; reflexivity |].
  destruct (Hdesk "clinic") as [_ Hdesk']; [vm_compute; reflexivity |].
  destruct (Hbob "clinic") as [_ Hbob']; [vm_compute; reflexivity |].
  destruct (Halice' "alice") as [Halice'' _]; [reflexivity |].
  destruct (Hdesk' "alice") as [Hdesk'' _]; [reflexivity |].
  destruct (Hbob' "bob") as [Hbob'' _]; [reflexivity |].
  destruct (Halice'' 1 (User.mk "alice" "alice@clinic.example" "pw1" true))
    as (_ & Hin & _); [vm_compute; reflexivity |].
  destruct (Hdesk'' 1 (User.mk "alice" "alice@clinic.example" "pw1" true))
    as (_ & Hin' & _); [vm_compute; reflexivity |].
  destruct (Hbob'' 2 (User.mk "bob" "bob@clinic.example" "pw2" false))
    as (Hinactive & _); [vm_compute; reflexivity |].
  destruct Hin as (sess & Hrun & Huser & Hbackend & Hhash & _ & Hdomain);
    [reflexivity | reflexivity |].
  destruct Hin' as (sess' & Hrun' & Huser' & Hbackend' & Hhash' & Hlost & _);
    [reflexivity | reflexivity |].
  assert (session_domain_id sess = Some "clinic") as Hkept.
  { apply Hdomain. intros (owner & Howner & _). discriminate Howner. }
  assert (session_domain_id sess' = None) as Hgone.
  { apply Hlost. exists 3. split; [reflexivity | left; discriminate]. }
  destruct sess as [d u b h], sess' as [d' u' b' h']. simpl in *. subst.
  split; [| split; [| apply Hinactive; reflexivity]].
  - rewrite Hrun. vm_compute. reflexivity.
  - rewrite Hrun'. vm_compute. reflexivity.
Defined.

End login_examples.
